(** * pg-mirror: the restore classifier, the naming resolver, the audit
  ledger and the mirror workflow, embedded from the Python sources.

  Text is modelled as [string]: a sequence of 8-bit characters read as
  the code points U+0000..U+00FF of a Python [str].  Code points above
  U+00FF are outside the model. *)

From Stdlib Require Import ZArith QArith String Ascii List Bool Lia.
From stdpp Require Import base option list strings gmap pretty.

Local Open Scope string_scope.
Local Open Scope list_scope.
Local Open Scope Z_scope.

(** ** Python string primitives used by the sources *)

Module Py.

(** [str.isspace] on one character, for code points below 256. *)
Definition isspace (c : ascii) : bool :=
  let n := nat_of_ascii c in
  ((9 <=? n) && (n <=? 13) || (28 <=? n) && (n <=? 32)
   || (n =? 133) || (n =? 160))%nat.

(** [str.lower] on one character: A-Z and the Latin-1 capitals
    U+00C0..U+00DE (U+00D7 is the multiplication sign) move up by 32. *)
Definition lower_char (c : ascii) : ascii :=
  let n := nat_of_ascii c in
  if ((65 <=? n) && (n <=? 90)
      || (192 <=? n) && (n <=? 222) && negb (n =? 215))%nat
  then ascii_of_nat (n + 32) else c.

Fixpoint lower (s : string) : string :=
  match s with
  | "" => ""
  | String c s' => String (lower_char c) (lower s')
  end.

Fixpoint startswith (p s : string) : bool :=
  match p, s with
  | "", _ => true
  | String _ _, "" => false
  | String a p', String b s' => Ascii.eqb a b && startswith p' s'
  end.

(** [sub in s]. *)
Fixpoint contains (sub s : string) : bool :=
  startswith sub s
  || match s with
     | "" => false
     | String _ s' => contains sub s'
     end.

(** [s.split(sep)] for a separator of one character: never empty. *)
Fixpoint split (sep : ascii) (s : string) : list string :=
  match s with
  | "" => [""]
  | String c s' =>
      if Ascii.eqb c sep then "" :: split sep s'
      else match split sep s' with
           | [] => [String c ""]
           | w :: ws => String c w :: ws
           end
  end.

Fixpoint lstrip (s : string) : string :=
  match s with
  | "" => ""
  | String c s' => if isspace c then lstrip s' else s
  end.

Fixpoint rstrip (s : string) : string :=
  match s with
  | "" => ""
  | String c s' =>
      match rstrip s' with
      | "" => if isspace c then "" else String c ""
      | r => String c r
      end
  end.

(** [s.strip()]. *)
Definition strip (s : string) : string := rstrip (lstrip s).

Definition digit_val (c : ascii) : option Z :=
  let n := nat_of_ascii c in
  if ((48 <=? n) && (n <=? 57))%nat then Some (Z.of_nat n - 48) else None.

Definition isdigit (c : ascii) : bool :=
  match digit_val c with Some _ => true | None => false end.

(** CPython's default [sys.int_info.default_max_str_digits]. *)
Definition int_max_str_digits : nat := 4300.

(** The digits of a decimal literal: single underscores are allowed
    between digits only.  Returns the value and the number of digits. *)
Fixpoint int_digits (acc : Z) (ndigits : nat) (after_digit : bool)
         (s : string) : option (Z * nat) :=
  match s with
  | "" => if after_digit then Some (acc, ndigits) else None
  | String c s' =>
      if Ascii.eqb c "_" then
        if after_digit then int_digits acc ndigits false s' else None
      else match digit_val c with
           | Some d => int_digits (10 * acc + d) (S ndigits) true s'
           | None => None
           end
  end.

(** [int(s)] in base 10; [None] stands for [ValueError]. *)
Definition int (s : string) : option Z :=
  let s := strip s in
  let '(neg, body) :=
    match s with
    | String "-" b => (true, b)
    | String "+" b => (false, b)
    | _ => (false, s)
    end in
  match int_digits 0 0 false body with
  | Some (v, n) =>
      if (n <=? int_max_str_digits)%nat
      then Some (if neg then - v else v) else None
  | None => None
  end.

(** The rest of [s] after the literal [p], when [s] starts with it. *)
Fixpoint after_prefix (p s : string) : option string :=
  match p, s with
  | "", _ => Some s
  | String _ _, "" => None
  | String a p', String b s' =>
      if Ascii.eqb a b then after_prefix p' s' else None
  end.

(** Truth value of a [str]. *)
Definition truthy (s : string) : bool :=
  match s with "" => false | _ => true end.

(** [re.sub(r"[^a-zA-Z0-9_]", "", s)]: keep the characters of the class. *)
Definition is_word_char (c : ascii) : bool :=
  let n := nat_of_ascii c in
  ((97 <=? n) && (n <=? 122) || (65 <=? n) && (n <=? 90)
   || (48 <=? n) && (n <=? 57) || (n =? 95))%nat.

Fixpoint sub_non_word (s : string) : string :=
  match s with
  | "" => ""
  | String c s' =>
      if is_word_char c then String c (sub_non_word s') else sub_non_word s'
  end.

(** Scalars of a decoded JSON document and of the dicts the workflow
    builds; floats and nested containers are not modelled. *)
Inductive value :=
| VNone
| VBool (b : bool)
| VInt (n : Z)
| VStr (s : string).

Global Instance value_eq_dec : EqDecision value.
Proof. solve_decision. Defined.

(** [str(v)] and [bool(v)]. *)
Definition str (v : value) : string :=
  match v with
  | VNone => "None"
  | VBool true => "True"
  | VBool false => "False"
  | VInt n => pretty n
  | VStr s => s
  end.

Definition bool_of (v : value) : bool :=
  match v with
  | VNone => false
  | VBool b => b
  | VInt n => negb (n =? 0)
  | VStr s => truthy s
  end.

Definition type_name (v : value) : string :=
  match v with
  | VNone => "NoneType"
  | VBool _ => "bool"
  | VInt _ => "int"
  | VStr _ => "str"
  end.

(** What a call can raise: an instance of a subclass of [Exception]
    (class name and [str(e)]), or one of the [BaseException]s that
    [except Exception] lets through. *)
Inductive exn :=
| Exception (cls text : string)
| SystemExit (code : Z)
| KeyboardInterrupt.

Inductive res (A : Type) :=
| Ok (a : A)
| Raise (e : exn).
Arguments Ok {A} a.
Arguments Raise {A} e.

(** A call of a [logging.Logger] method: the level, the source file and
    line of the call, and the values interpolated into its message. *)
Inductive level := DEBUG | INFO | WARNING | ERROR.

Inductive log_record :=
| LogCall (lvl : level) (file : string) (line : nat) (args : list string).

End Py.


(** ** history.py: the audit ledger *)

Abbreviation dict := (gmap string Py.value).

Module history.
Import Py.

(** The text [json.dumps] makes of a dict and [json.loads] reads back:
    kept as the dict it encodes. *)
Inductive json_text := JsonText (d : dict).

Definition json_dumps (d : dict) : json_text := JsonText d.
Definition json_loads (t : json_text) : dict := let 'JsonText d := t in d.

(** A row of the table [backups]; [E] is the type of the column [extra]:
    [json_text] as stored, [dict] as [get_backup] returns it. *)
Record row (E : Type) := {
  id : Z;
  created_at : string;
  host : string;
  port : Z;
  database : string;
  username : string;
  backup_path : string;
  size_mb : option Q;
  status : option string;
  extra : option E
}.
Arguments id {E} r.
Arguments created_at {E} r.
Arguments host {E} r.
Arguments port {E} r.
Arguments database {E} r.
Arguments username {E} r.
Arguments backup_path {E} r.
Arguments size_mb {E} r.
Arguments status {E} r.
Arguments extra {E} r.

(** The table and the largest rowid it ever held (AUTOINCREMENT). *)
Record table := {
  rows : gmap Z (row json_text);
  last_rowid : Z
}.

Definition empty_table : table := {| rows := ∅; last_rowid := 0 |}.

(** Truth value of a dict. *)
Definition dict_truthy (d : dict) : bool := negb (bool_decide (d = ∅)).

(** Lines 41-58; [now] is [datetime.utcnow().isoformat() + 'Z']. *)
Definition record_backup (now host : string) (port : Z)
           (database username backup_path : string) (size_mb : option Q)
           (status : option string) (extra : option dict) (t : table)
  : Z * table :=
  let extra_text :=
    match extra with
    | Some d => if dict_truthy d then Some (json_dumps d) else None
    | None => None
    end in
  let rowid := last_rowid t + 1 in
  let r := {| id := rowid; created_at := now; host := host; port := port;
              database := database; username := username;
              backup_path := backup_path; size_mb := size_mb;
              status := status; extra := extra_text |} in
  (rowid, {| rows := <[rowid := r]> (rows t); last_rowid := rowid |}).

(** An element of [updates] with its parameter. *)
Inductive assignment :=
| SetStatus (v : string)
| SetExtra (v : json_text).

Definition assign (r : row json_text) (a : assignment) : row json_text :=
  match a with
  | SetStatus v =>
      {| id := id r; created_at := created_at r; host := host r;
         port := port r; database := database r; username := username r;
         backup_path := backup_path r; size_mb := size_mb r;
         status := Some v; extra := extra r |}
  | SetExtra v =>
      {| id := id r; created_at := created_at r; host := host r;
         port := port r; database := database r; username := username r;
         backup_path := backup_path r; size_mb := size_mb r;
         status := status r; extra := Some v |}
  end.

(** [UPDATE backups SET ... WHERE id = ?]: the row with that id, if there
    is one, gets the assignments; no other row changes. *)
Definition sql_update (updates : list assignment) (backup_id : Z)
           (t : table) : table :=
  {| rows := alter (fun r => fold_left assign updates r) backup_id (rows t);
     last_rowid := last_rowid t |}.

(** Lines 61-80. *)
Definition update_backup (backup_id : Z) (status : option string)
           (extra : option dict) (t : table) : bool * table :=
  let updates :=
    match status with Some v => [SetStatus v] | None => [] end
    ++ match extra with Some d => [SetExtra (json_dumps d)] | None => [] end in
  match updates with
  | [] => (false, t)
  | _ :: _ => (true, sql_update updates backup_id t)
  end.

(** Lines 83-104. *)
Definition get_backup (backup_id : Z) (t : table) : option (row dict) :=
  match rows t !! backup_id with
  | None => None
  | Some r =>
      Some {| id := id r; created_at := created_at r; host := host r;
              port := port r; database := database r;
              username := username r; backup_path := backup_path r;
              size_mb := size_mb r; status := status r;
              extra := json_loads <$> extra r |}
  end.

End history.

(** ** The machine the workflow runs on *)

Module runtime.
Import Py.

(** The calls that leave the process or touch the disk. *)
Inductive call :=
| VerifySystemRequirements
| PrintInstallationHelp
| LoadConfig (path : string)
| CreateBackup (host : string) (port : Z) (database user : string)
| Stat (path : string)
| SqlInsert (database backup_path : string) (status : option string)
| SqlUpdate (backup_id : Z) (status : option string) (extra : option dict)
| HttpGet (url : string)
| HttpPost (url : string) (payload : dict)
| Psql (database sql : string)
| PgRestore (backup_file host : string) (port : Z) (database user : string)
            (parallel_jobs : Z)
| Pause
| UpdateAdminEmail (novo_email nome_banco_destino : string)
| CleanupBackup (path : string).

Inductive event :=
| Logged (r : log_record)
| Printed (file : string) (line : nat)
| Called (c : call).

(** The configuration [load_config] returns, with the keys [mirror] reads. *)
Record config := {
  source_host : string;
  source_port : Z;
  source_database : string;
  source_user : string;
  source_password : string;
  target_host : string;
  target_port : Z;
  target_user : string;
  target_password : string;
  parallel_jobs : Z;
  drop_existing : bool
}.

(** How everything outside the process answers during one run.  Each
    field is the outcome at the one place of the run that asks for it;
    [sqlite_update] is asked with the status being written. *)
Record world := {
  system_checks : res unit;
  loaded_config : res config;
  FORTEPLUS_TOKEN : option string;
  EMAIL_USUARIO : option string;
  pg_dump : res string;
  st_size : res Z;
  utcnow : string;
  sqlite_insert : option exn;
  sqlite_update : option string -> option exn;
  get_assinatura : res (option dict);
  post_assinatura : res dict;
  post_assinante_usuario : res unit;
  psql_exists : res string;
  psql_terminate : res Z;
  psql_drop : res Z;
  psql_create : res Z;
  pg_restore : res (string * Z);
  key_pressed : res unit;
  admin_email_updated : res unit
}.

(** The locals of [mirror] that are assigned more than once, the ledger,
    the files on disk and what has happened so far. *)
Record state := {
  backup_file : option string;
  target_database : string;
  hooks_executados_com_sucesso : bool;
  ledger : history.table;
  files : gset string;
  trace : list event
}.

Definition initial (t : history.table) (fs : gset string) : state :=
  {| backup_file := None; target_database := "";
     hooks_executados_com_sucesso := true;
     ledger := t; files := fs; trace := [] |}.

Definition set_backup_file (v : option string) (s : state) : state :=
  {| backup_file := v; target_database := target_database s;
     hooks_executados_com_sucesso := hooks_executados_com_sucesso s;
     ledger := ledger s; files := files s; trace := trace s |}.

Definition set_target_database (v : string) (s : state) : state :=
  {| backup_file := backup_file s; target_database := v;
     hooks_executados_com_sucesso := hooks_executados_com_sucesso s;
     ledger := ledger s; files := files s; trace := trace s |}.

Definition set_hooks_executados_com_sucesso (v : bool) (s : state) : state :=
  {| backup_file := backup_file s; target_database := target_database s;
     hooks_executados_com_sucesso := v;
     ledger := ledger s; files := files s; trace := trace s |}.

Definition set_ledger (v : history.table) (s : state) : state :=
  {| backup_file := backup_file s; target_database := target_database s;
     hooks_executados_com_sucesso := hooks_executados_com_sucesso s;
     ledger := v; files := files s; trace := trace s |}.

Definition set_files (v : gset string) (s : state) : state :=
  {| backup_file := backup_file s; target_database := target_database s;
     hooks_executados_com_sucesso := hooks_executados_com_sucesso s;
     ledger := ledger s; files := v; trace := trace s |}.

Definition record_event (ev : event) (s : state) : state :=
  {| backup_file := backup_file s; target_database := target_database s;
     hooks_executados_com_sucesso := hooks_executados_com_sucesso s;
     ledger := ledger s; files := files s; trace := trace s ++ [ev] |}.

(** A statement: from a state to a result or a raised exception, and the
    state it leaves. *)
Definition M (A : Type) : Type := state -> res A * state.

Global Instance M_ret : MRet M := fun A a s => (Ok a, s).

Global Instance M_bind : MBind M := fun A B f m s =>
  match m s with
  | (Ok a, s') => f a s'
  | (Raise e, s') => (Raise e, s')
  end.

Definition raise {A} (e : exn) : M A := fun s => (Raise e, s).

(** [sys.exit(code)]. *)
Definition sys_exit {A} (code : Z) : M A := raise (SystemExit code).

Definition get {A} (proj : state -> A) : M A := fun s => (Ok (proj s), s).

Definition modify (f : state -> state) : M unit := fun s => (Ok tt, f s).

Definition emit (ev : event) : M unit := modify (record_event ev).

Definition log (file : string) (lvl : level) (line : nat)
           (args : list string) : M unit :=
  emit (Logged (LogCall lvl file line args)).

(** A call whose answer the world gives. *)
Definition ask {A} (c : call) (answer : res A) : M A :=
  fun s => (answer, record_event (Called c) s).

(** [try: m  except Exception as e: handler(type(e).__name__, str(e))]. *)
Definition try_except {A} (m : M A) (handler : string -> string -> M A)
  : M A := fun s =>
  match m s with
  | (Raise (Exception cls text), s') => handler cls text s'
  | other => other
  end.

(** [try: m  except C as e: handler(str(e))] for the class named [C]. *)
Definition try_except_class {A} (C : string) (m : M A)
           (handler : string -> M A) : M A := fun s =>
  match m s with
  | (Raise (Exception cls text), s') =>
      if String.eqb cls C then handler text s'
      else (Raise (Exception cls text), s')
  | other => other
  end.

(** [try: m  finally: final]. *)
Definition try_finally {A} (m : M A) (final : M unit) : M A := fun s =>
  match m s with
  | (r, s') =>
      match final s' with
      | (Ok _, s'') => (r, s'')
      | (Raise e, s'') => (Raise e, s'')
      end
  end.

(** [d[key]]: [KeyError] when the key is missing. *)
Definition subscript (d : dict) (key : string) : M value :=
  match d !! key with
  | Some v => mret v
  | None => raise (Exception "KeyError" ("'" +:+ key +:+ "'"))
  end.

(** Truth value of an optional [str] ([None] or a string). *)
Definition truthy_opt (o : option string) : bool :=
  match o with Some s => truthy s | None => false end.

(** [str(o)] and the value of an optional [str]. *)
Definition str_opt (o : option string) : string :=
  match o with Some s => s | None => "None" end.

Definition value_opt (o : option string) : value :=
  match o with Some s => VStr s | None => VNone end.

(** The logger calls of a list, in order. *)
Definition emit_logs (rs : list log_record) : M unit :=
  fold_right (fun r k => emit (Logged r);; k) (mret tt) rs.

(** The exit status of the process when the command ends this way. *)
Definition exit_status {A} (r : res A) : Z :=
  match r with
  | Ok _ => 0
  | Raise (SystemExit code) => code mod 256
  | Raise _ => 1
  end.

End runtime.

(** ** restore.py *)

Module restore.
Import Py runtime.

(** The four substrings of line 67-72. *)
Definition benign_markers : list string :=
  ["must be owner"; "permission denied"; "role"; "does not exist"].

(** The locals [critical_errors] and [warning_count] of [restore_backup]. *)
Record scan := {
  critical_errors : list string;
  warning_count : Z
}.

Definition scan_init : scan :=
  {| critical_errors := []; warning_count := 0 |}.

(** Line 65: the condition under which a line is looked at as an error. *)
Definition is_error_line (line_lower : string) : bool :=
  contains "error:" line_lower && contains "pg_restore: error:" line_lower.

(** Line 67: [any(x in line_lower for x in [...])]. *)
Definition is_benign (line_lower : string) : bool :=
  existsb (fun x => contains x line_lower) benign_markers.

(** Line 76. *)
Definition is_summary_line (line_lower : string) : bool :=
  contains "warning: errors ignored on restore:" line_lower.

(** One iteration of the loop of lines 62-80. *)
Definition scan_line (st : scan) (line : string) : scan :=
  let line_lower := lower line in
  let critical_errors' :=
    if is_error_line line_lower then
      if negb (is_benign line_lower)
      then critical_errors st ++ [strip line]
      else critical_errors st
    else critical_errors st in
  let warning_count' :=
    if is_summary_line line_lower then
      match int (strip (List.last (split ":" line) "")) with
      | Some n => n
      | None => warning_count st
      end
    else warning_count st in
  {| critical_errors := critical_errors'; warning_count := warning_count' |}.

(** Lines 58-80. *)
Definition scan_stderr (stderr_output : string) : scan :=
  if truthy stderr_output
  then fold_left scan_line (split "010" stderr_output) scan_init
  else scan_init.

Definition log (lvl : level) (line : nat) (args : list string) : log_record :=
  LogCall lvl "restore.py" line args.

(** Lines 55-102: what [restore_backup] returns and logs once
    [pg_restore] has ended with [stderr_output] and [returncode]. *)
Definition analyse (stderr_output : string) (returncode : Z)
  : bool * list log_record :=
  let st := scan_stderr stderr_output in
  let errs := critical_errors st in
  let wc := warning_count st in
  match errs with
  | _ :: _ =>
      (false,
       [log ERROR 84 [pretty (length errs)]]
       ++ map (fun error => log ERROR 86 [error]) (take 5 errs)
       ++ (if (5 <? length errs)%nat
           then [log ERROR 88 [pretty (length errs - 5)%nat]] else []))
  | [] =>
      let warned :=
        if 0 <? wc then [log WARNING 92 [pretty wc]; log WARNING 93 []]
        else [] in
      if (returncode =? 0) || (returncode =? 1) && (0 <? wc)
      then (true, warned ++ [log INFO 96 []])
      else (false,
            warned ++ [log ERROR 99 [pretty returncode]]
            ++ (if truthy stderr_output
                then [log DEBUG 101 [stderr_output]] else []))
  end.

(** [restore_backup]: [pg_restore] runs once, and its stderr and return
    code are analysed; an [Exception] on the way is logged and gives
    [False]. *)
Definition restore_backup (w : world) (backup_file host : string) (port : Z)
           (database user : string) (parallel_jobs : Z) : M bool :=
  runtime.log "restore.py" INFO 42 [database; host];;
  runtime.log "restore.py" INFO 43 [pretty parallel_jobs];;
  try_except
    (result ← ask (PgRestore backup_file host port database user
                             parallel_jobs) (pg_restore w);
     let stderr_output := result.1 in
     let returncode := result.2 in
     let outcome := analyse stderr_output returncode in
     emit_logs outcome.2;;
     mret outcome.1)
    (fun _ e => runtime.log "restore.py" ERROR 105 [e];; mret false).

End restore.

(** ** hooks.py: the naming resolver *)

Module hooks.
Import Py runtime.

Definition is_az (c : ascii) : bool :=
  let n := nat_of_ascii c in ((97 <=? n) && (n <=? 122))%nat.

(** The longest run of decimal digits at the head of [s], and the rest. *)
Fixpoint span_digits (s : string) : string * string :=
  match s with
  | "" => ("", "")
  | String c s' =>
      if isdigit c
      then let '(ds, rest) := span_digits s' in (String c ds, rest)
      else ("", s)
  end.

(** [re.match(r'^[a-z]{2}_d1_(\d+)_', s)] and its [group(1)]: the greedy
    [\d+] takes the whole run of digits, and no shorter run can be
    followed by an underscore. *)
Definition match_pattern (s : string) : option string :=
  match s with
  | String c1 (String c2 s2) =>
      if is_az c1 && is_az c2 then
        match after_prefix "_d1_" s2 with
        | Some s6 =>
            let '(ds, rest) := span_digits s6 in
            if truthy ds && startswith "_" rest then Some ds else None
        | None => None
        end
      else None
  | _ => None
  end.

(** Lines 31-59, without the two logger calls. *)
Definition extrair_id_assinatura_do_nome_banco (nome_banco : string)
  : option string :=
  match_pattern (lower nome_banco).

(** Lines 222-235, without the logger call. *)
Definition gerar_nome_banco_dados (pk nome uf : string) : string :=
  let nome_fantasia := lower (List.hd "" (split " " nome)) in
  let nome_banco_dados :=
    lower uf +:+ "_d1_" +:+ pk +:+ "_" +:+ nome_fantasia in
  let nome_sanitizado := sub_non_word nome_banco_dados in
  nome_sanitizado.

Definition PROD_ENVIRONMENT_URL : string :=
  "https://assinaturas.forteplus.com.br/api/v1/".
Definition DEV_ENVIRONMENT_URL : string := "http://192.168.200.68:8031/api/v1/".

(** "FORTEPLUS_TOKEN não configurado no ambiente" (U+00E3 is code 227). *)
Definition token_missing : exn :=
  Exception "ImproperlyConfiguredException"
    ("FORTEPLUS_TOKEN n" +:+ String (ascii_of_nat 227) "o configurado no ambiente").

Definition log := runtime.log "hooks.py".

(** [gerar_nome_banco_dados] as [mirror] calls it, with the values found
    in the cloned subscription: [nome.split] and [uf.lower] need strings. *)
Definition gerar_nome_banco_dados_call (pk : string) (nome uf : value)
  : M string :=
  match nome with
  | VStr nome =>
      match uf with
      | VStr uf =>
          let nome_sanitizado := gerar_nome_banco_dados pk nome uf in
          log INFO 234 [nome_sanitizado];;
          mret nome_sanitizado
      | _ => raise (Exception "AttributeError"
               ("'" +:+ type_name uf +:+ "' object has no attribute 'lower'"))
      end
  | _ => raise (Exception "AttributeError"
           ("'" +:+ type_name nome +:+ "' object has no attribute 'split'"))
  end.

(** Lines 62-81.  The world's answer stands for the request, for
    [raise_for_status] and for [resp.json()] together; the two logger
    calls between them are left out. *)
Definition obter_dados_assinatura_producao (w : world)
           (assinatura_id : string) : M (option dict) :=
  if negb (truthy_opt (FORTEPLUS_TOKEN w)) then
    log WARNING 64 [];;
    raise token_missing
  else
    let url := PROD_ENVIRONMENT_URL +:+ "assinaturas/" +:+ assinatura_id
               +:+ "/" in
    log INFO 75 [url];;
    ask (HttpGet url) (get_assinatura w).

(** Lines 84-108. *)
Definition clonar_assinatura_desenvolvimento (w : world) (payload : dict)
  : M dict :=
  emit (Printed "hooks.py" 85);;
  if negb (truthy_opt (FORTEPLUS_TOKEN w)) then
    log WARNING 88 [];;
    raise token_missing
  else
    log INFO 93 [DEV_ENVIRONMENT_URL];;
    log DEBUG 94 [];;
    let url := DEV_ENVIRONMENT_URL +:+ "assinaturas/" in
    ask (HttpPost url payload) (post_assinatura w).

(** Lines 111-138. *)
Definition criar_assinante_usuario_desenvolvimento (w : world)
           (assinatura_id : value) (email_assinante email_usuario : string)
  : M unit :=
  if negb (truthy_opt (FORTEPLUS_TOKEN w)) then
    log WARNING 115 [];;
    raise token_missing
  else
    let url := DEV_ENVIRONMENT_URL +:+ "assinantes_usuarios/" in
    let payload : dict :=
      {[ "usss_assinatura" := assinatura_id;
         "usss_email_assinante" := VStr email_assinante;
         "usss_email_usuario" := VStr email_usuario ]} in
    log INFO 132 [url];;
    ask (HttpPost url payload) (post_assinante_usuario w).

(** Lines 141-219, as one answer of the world. *)
Definition atualizar_email_usuario_admin_desenvolvimento (w : world)
           (novo_email nome_banco_destino : string) : M unit :=
  ask (UpdateAdminEmail novo_email nome_banco_destino) (admin_email_updated w).

End hooks.

(** ** database.py *)

Module database.
Import Py runtime.

Definition log := runtime.log "database.py".

(** [subprocess.run(cmd, check=True)]: a return code other than 0 raises
    [CalledProcessError], whose text is kept as the return code. *)
Definition run_checked (database sql : string) (answer : res Z) : M unit :=
  returncode ← ask (Psql database sql) answer;
  if returncode =? 0 then mret tt
  else raise (Exception "CalledProcessError" (pretty returncode)).

(** Lines 172-214. *)
Definition check_database_exists (w : world) (database : string) : M bool :=
  try_except
    (stdout ← ask (Psql database "SELECT 1 FROM pg_database") (psql_exists w);
     let exists_ := String.eqb (strip stdout) "1" in
     log DEBUG 210 [database; if exists_ then "True" else "False"];;
     mret exists_)
    (fun _ e => log ERROR 213 [e];; mret false).

(** Lines 217-248. *)
Definition create_database (w : world) (database : string) : M unit :=
  try_except_class "CalledProcessError"
    (run_checked database "CREATE DATABASE" (psql_create w);;
     log INFO 245 [database])
    (fun e => log ERROR 247 [e];; sys_exit 1).

(** Lines 251-311: the return code of the terminate command is not
    looked at. *)
Definition drop_and_create_database (w : world) (database : string)
  : M unit :=
  log DEBUG 269 [database];;
  try_except_class "CalledProcessError"
    (_ ← ask (Psql database "SELECT pg_terminate_backend") (psql_terminate w);
     log DEBUG 304 [database];;
     run_checked database "DROP DATABASE IF EXISTS" (psql_drop w);;
     log DEBUG 306 [database];;
     run_checked database "CREATE DATABASE" (psql_create w);;
     log INFO 308 [database])
    (fun e => log ERROR 310 [e];; sys_exit 1).

End database.

(** ** backup.py *)

Module backup.
Import Py runtime.

(** Modelled from the spec: backup.py is not among the sources.  The
    backup collaborator is [create(connection) -> artifact path], whose
    failure surfaces as an exception; the artifact is a file at the
    returned path. *)
Definition create_backup (w : world) (host : string) (port : Z)
           (database user : string) : M string :=
  backup_file ← ask (CreateBackup host port database user) (pg_dump w);
  modify (fun s => set_files ({[backup_file]} ∪ files s) s);;
  mret backup_file.

(** Modelled from the spec: backup.py is not among the sources.  The
    backup collaborator's [cleanup(path)] deletes the artifact. *)
Definition cleanup_backup (path : string) : M unit :=
  emit (Called (CleanupBackup path));;
  modify (fun s => set_files (files s ∖ {[path]}) s).

End backup.

(** ** cli.py: the mirror command *)

Module cli.
Import Py runtime.

Definition log := runtime.log "cli.py".

(** [history.record_backup] in the run: sqlite may raise, and then no row
    is written. *)
Definition record_backup (w : world) (host : string) (port : Z)
           (database username backup_path : string) (size_mb : option Q)
           (status : option string) : M Z :=
  emit (Called (SqlInsert database backup_path status));;
  match sqlite_insert w with
  | Some e => raise e
  | None =>
      t ← get ledger;
      let inserted :=
        history.record_backup (utcnow w) host port database username
                              backup_path size_mb status None t in
      modify (set_ledger inserted.2);;
      mret inserted.1
  end.

(** [history.update_backup] in the run: sqlite may raise, and then no row
    is changed. *)
Definition update_backup (w : world) (backup_id : Z) (status : option string)
           (extra : option dict) : M bool :=
  emit (Called (SqlUpdate backup_id status extra));;
  match sqlite_update w status with
  | Some e => raise e
  | None =>
      t ← get ledger;
      let updated := history.update_backup backup_id status extra t in
      modify (set_ledger updated.2);;
      mret updated.1
  end.

(** Lines 159-253: the hooks, inside their own [try]. *)
Definition hooks_flow (w : world) (assinatura_id : string) (record_id : Z)
  : M unit :=
  try_except
    (log INFO 160 [];; log INFO 161 [];; log INFO 162 [];;
     log INFO 165 [assinatura_id];;
     dados_assinatura ← hooks.obter_dados_assinatura_producao w assinatura_id;
     match dados_assinatura with
     | Some dados_assinatura =>
         if history.dict_truthy dados_assinatura then
           prod_id ← subscript dados_assinatura "id";
           log INFO 176 [str prod_id];;
           log INFO 181 [];;
           assinatura_clonada ←
             hooks.clonar_assinatura_desenvolvimento w dados_assinatura;
           let assinatura_dev_id :=
             default VNone (assinatura_clonada !! "id") in
           log INFO 188 [str assinatura_dev_id];;
           pk ← subscript assinatura_clonada "id";
           nome ← subscript assinatura_clonada "ss_nome_fantasia";
           uf ← subscript assinatura_clonada "ss_uf";
           name ← hooks.gerar_nome_banco_dados_call (str pk) nome uf;
           modify (set_target_database name);;
           log INFO 198 [name];;
           log INFO 203 [];;
           let email_usuario := EMAIL_USUARIO w in
           (if negb (truthy_opt email_usuario) then log WARNING 208 []
            else mret tt);;
           (match email_usuario with
            | Some email =>
                if truthy email && truthy email && bool_of assinatura_dev_id
                then
                  hooks.criar_assinante_usuario_desenvolvimento
                    w assinatura_dev_id email email;;
                  log INFO 220 []
                else
                  log WARNING 224 [str_opt email_usuario;
                                   str_opt email_usuario;
                                   str assinatura_dev_id]
            | None =>
                log WARNING 224 [str_opt email_usuario; str_opt email_usuario;
                                 str assinatura_dev_id]
            end);;
           log INFO 228 [];; log INFO 229 [];; log INFO 230 [];;
           update_backup w record_id (Some "hooks_completed")
             (Some ({[ "assinatura_id_prod" := VStr assinatura_id;
                       "assinatura_id_dev" := assinatura_dev_id;
                       "email_assinante" := value_opt email_usuario;
                       "email_usuario" := value_opt email_usuario;
                       "target_database" := VStr name ]} : dict));;
           mret tt
         else
           log WARNING 173 [];;
           update_backup w record_id (Some "hooks_skipped") None;;
           mret tt
     | None =>
         log WARNING 173 [];;
         update_backup w record_id (Some "hooks_skipped") None;;
         mret tt
     end)
    (fun _ e =>
       log ERROR 246 [];; log ERROR 247 [e];; log ERROR 248 [];;
       update_backup w record_id (Some "hooks_failed")
         (Some ({[ "error" := VStr e ]} : dict));;
       modify (set_hooks_executados_com_sucesso false);;
       log ERROR 253 []).

(** Lines 135-261: the history record and the hooks, inside the outer
    [try]. *)
Definition history_and_hooks (w : world) (cfg : config)
           (assinatura_id : option string) (backup_file : string) : M unit :=
  try_except
    (size_mb ←
       try_except
         (size ← ask (Stat backup_file) (st_size w);
          mret (size # 1048576)%Q)
         (fun _ _ => log DEBUG 144 [];; mret (0 # 1)%Q);
     record_id ←
       record_backup w (source_host cfg) (source_port cfg)
         (source_database cfg) (source_user cfg) backup_file
         (Some size_mb) (Some "created");
     log INFO 155 [pretty record_id];;
     match assinatura_id with
     | Some key =>
         if truthy key then hooks_flow w key record_id else mret tt
     | None => mret tt
     end)
    (fun _ e =>
       log WARNING 256 [e];;
       if truthy_opt assinatura_id then
         modify (set_hooks_executados_com_sucesso false);;
         log ERROR 261 []
       else mret tt).

(** Lines 272-301. *)
Definition prepare_target (w : world) (cfg : config) : M unit :=
  target ← get target_database;
  db_exists ← database.check_database_exists w target;
  if db_exists && drop_existing cfg then
    log WARNING 283 [target];;
    database.drop_and_create_database w target
  else if negb db_exists then
    log INFO 293 [target];;
    database.create_database w target
  else mret tt.

(** Lines 303-349. *)
Definition restore_and_fix_up (w : world) (cfg : config)
           (assinatura_id : option string) (backup_file : string) : M unit :=
  target ← get target_database;
  success ← restore.restore_backup w backup_file (target_host cfg)
              (target_port cfg) target (target_user cfg) (parallel_jobs cfg);
  if (success : bool) then
    (if truthy_opt assinatura_id then
       let email_usuario := EMAIL_USUARIO w in
       match email_usuario with
       | Some email =>
           if truthy email then
             try_except
               (log INFO 321 [];; log INFO 322 [];; log INFO 323 [target];;
                log INFO 324 [];;
                ask Pause (key_pressed w);;
                log INFO 327 [];;
                hooks.atualizar_email_usuario_admin_desenvolvimento
                  w email target;;
                log INFO 332 [email])
               (fun _ e => log WARNING 336 [e])
           else log WARNING 338 []
       | None => log WARNING 338 []
       end
     else mret tt);;
    log INFO 342 [];; log INFO 343 [];; log INFO 344 [];;
    mret tt
  else
    log ERROR 346 [];; log ERROR 347 [];; log ERROR 348 [];;
    sys_exit 1.

(** Lines 272-349: the target preparation, then the restore. *)
Definition target_and_restore (w : world) (cfg : config)
           (assinatura_id : option string) (backup_file : string) : M unit :=
  prepare_target w cfg;;
  restore_and_fix_up w cfg assinatura_id backup_file.

(** Lines 134-349: the [try] after the backup. *)
Definition after_backup (w : world) (cfg : config)
           (assinatura_id : option string) (path : string) : M unit :=
  history_and_hooks w cfg assinatura_id path;;
  ok ← get hooks_executados_com_sucesso;
  (if negb ok then
     log ERROR 265 [];; log ERROR 266 [];; log ERROR 267 [];;
     sys_exit 1
   else mret tt);;
  target ← get target_database;
  log INFO 270 [target];;
  target_and_restore w cfg assinatura_id path.

(** Lines 124-349: the body of the [try] whose [finally] cleans up. *)
Definition mirror_body (w : world) (cfg : config)
           (assinatura_id : option string) : M unit :=
  path ← backup.create_backup w (source_host cfg) (source_port cfg)
           (source_database cfg) (source_user cfg);
  modify (set_backup_file (Some path));;
  after_backup w cfg assinatura_id path.

(** Lines 351-354. *)
Definition mirror_finally : M unit :=
  backup_file ← get backup_file;
  match backup_file with
  | Some path => if truthy path then backup.cleanup_backup path else mret tt
  | None => mret tt
  end.

(** Lines 98-102: the options of the command line override the file. *)
Definition override (cfg : config) (jobs : option Z) (drop : bool) : config :=
  {| source_host := source_host cfg; source_port := source_port cfg;
     source_database := source_database cfg; source_user := source_user cfg;
     source_password := source_password cfg;
     target_host := target_host cfg; target_port := target_port cfg;
     target_user := target_user cfg; target_password := target_password cfg;
     parallel_jobs :=
       match jobs with
       | Some j => if j =? 0 then parallel_jobs cfg else j
       | None => parallel_jobs cfg
       end;
     drop_existing := if drop then true else drop_existing cfg |}.

(** Lines 65-354. *)
Definition mirror (w : world) (config_path : string) (jobs : option Z)
           (drop : bool) (skip_checks : bool) : M unit :=
  (if negb skip_checks then
     log INFO 85 [];;
     try_except_class "SystemCheckError"
       (ask VerifySystemRequirements (system_checks w);;
        log INFO 88 [])
       (fun e =>
          log ERROR 90 [e];; log ERROR 91 [];;
          emit (Called PrintInstallationHelp);;
          sys_exit 1)
   else mret tt);;
  cfg ← ask (LoadConfig config_path) (loaded_config w);
  let cfg := override cfg jobs drop in
  let assinatura_id :=
    hooks.extrair_id_assinatura_do_nome_banco (source_database cfg) in
  (if negb (truthy_opt assinatura_id) then
     log WARNING 107 [source_database cfg];; log WARNING 108 []
   else mret tt);;
  log INFO 110 [];; log INFO 111 [];;
  log INFO 112 [source_database cfg; source_host cfg];;
  log INFO 113 [source_database cfg; target_host cfg];;
  log INFO 114 [pretty (parallel_jobs cfg)];;
  log INFO 115 [if drop_existing cfg then "True" else "False"];;
  log INFO 116 [str_opt assinatura_id];;
  log INFO 117 [];;
  modify (set_backup_file None);;
  modify (set_target_database (source_database cfg));;
  modify (set_hooks_executados_com_sucesso true);;
  try_finally (mirror_body w cfg assinatura_id) mirror_finally.

End cli.

(** ** The claims in the specification's own words

    These definitions follow the wording of the specification; the
    theorems below compare them with the functions embedded from the
    sources above. *)

Module spec.
Import Py.

(** DiagnosticVerdict; the unclassified failure is [critical []]. *)
Inductive verdict :=
| ok
| ok_with_warnings (count : Z)
| critical (errors : list string).

(** The success boolean the controller observes. *)
Definition success (v : verdict) : bool :=
  match v with
  | critical _ => false
  | _ => true
  end.

Definition lines (text : string) : list string := split "010" text.

(** An error line attributed to the restore tool's own error channel. *)
Definition attributed (line : string) : bool :=
  contains "pg_restore: error:" (lower line).

(** Ownership, permission, role and does-not-exist errors. *)
Definition benign (line : string) : bool :=
  existsb (fun marker => contains marker (lower line))
          ["must be owner"; "permission denied"; "role"; "does not exist"].

(** The attributed error lines that are not excluded, in order. *)
Definition offending (text : string) : list string :=
  map strip (List.filter (fun l => attributed l && negb (benign l))
                         (lines text)).

(** Every attributed error line of the text is benign. *)
Definition only_benign (text : string) : bool :=
  forallb (fun l => implb (attributed l) (benign l)) (lines text).

(** The count a summary line reports, when its trailing integer parses. *)
Definition summary_count (line : string) : option Z :=
  if contains "warning: errors ignored on restore:" (lower line)
  then int (strip (List.last (split ":" line) ""))
  else None.

(** The count of the last summary line that parses; 0 without one. *)
Definition parsed_count (text : string) : Z :=
  List.last (omap summary_count (lines text)) 0.

(** The decision rule with the warning test as the specification words it: a
    nonzero count. *)
Definition decision_as_stated (errors : list string) (count exit_code : Z)
  : verdict :=
  match errors with
  | _ :: _ => critical errors
  | [] =>
      if exit_code =? 0 then ok
      else if (exit_code =? 1) && negb (count =? 0)
           then ok_with_warnings count
           else critical []
  end.

(** The decision rule with a positive count. *)
Definition decision (errors : list string) (count exit_code : Z) : verdict :=
  match errors with
  | _ :: _ => critical errors
  | [] =>
      if exit_code =? 0 then ok
      else if (exit_code =? 1) && (0 <? count)
           then ok_with_warnings count
           else critical []
  end.

(** The characters of [s] before the first one that [stop] accepts. *)
Fixpoint before (stop : ascii -> bool) (s : string) : string :=
  match s with
  | "" => ""
  | String c s' => if stop c then "" else String c (before stop s')
  end.

(** The first whitespace-delimited token of a text. *)
Definition first_token (s : string) : string := before isspace (lstrip s).

(** The text before the first space character (U+0020). *)
Definition before_space (s : string) : string :=
  before (fun c => Ascii.eqb c " ") s.

Definition is_ascii_letter (c : ascii) : bool :=
  let n := nat_of_ascii c in
  ((65 <=? n) && (n <=? 90) || (97 <=? n) && (n <=? 122))%nat.

(** An ASCII letter, a digit or an underscore. *)
Definition is_name_char (c : ascii) : bool :=
  is_ascii_letter c || isdigit c || Ascii.eqb c "_".

(** The characters of [s] that [p] accepts, in order. *)
Fixpoint keep (p : ascii -> bool) (s : string) : string :=
  match s with
  | "" => ""
  | String c s' => if p c then String c (keep p s') else keep p s'
  end.

Definition compose_name (region id token : string) : string :=
  keep is_name_char (lower region +:+ "_d1_" +:+ id +:+ "_" +:+ lower token).

(** [derive_target_name] as the specification words it. *)
Definition derive_target_name_as_stated (id display_name region : string)
  : string :=
  compose_name region id (first_token display_name).

(** [derive_target_name] with the token cut at the first space. *)
Definition derive_target_name (id display_name region : string) : string :=
  compose_name region id (before_space display_name).

Fixpoint all_chars (p : ascii -> bool) (s : string) : bool :=
  match s with
  | "" => true
  | String c s' => p c && all_chars p s'
  end.

(** [name] is [<region-code>_d1_<numeric-id>_<slug>] with [key] as its
    numeric id: two letters, the marker [_d1_] in either case, a
    non-empty run of decimal digits, an underscore and any slug. *)
Definition encodes (name key : string) : Prop :=
  exists c1 c2 marker slug,
    name = String c1 (String c2 (marker +:+ key +:+ "_" +:+ slug))
    /\ is_ascii_letter c1 = true /\ is_ascii_letter c2 = true
    /\ lower marker = "_d1_"
    /\ key <> "" /\ all_chars isdigit key = true.

(** The extra-data the specification expects after a merge of [E1] into [E0]:
    the entries of [E1], and those of [E0] under other keys. *)
Definition merged (E0 E1 : dict) : dict := E1 ∪ E0.

End spec.

(** ** What a run of the workflow shows *)

Module observe.
Import Py runtime.

(** An answer that [except Exception] can catch, or a value. *)
Definition catchable {A} (r : res A) : Prop :=
  match r with
  | Ok _ => True
  | Raise (Exception _ _) => True
  | Raise _ => False
  end.

(** The command gets as far as a backup at [path]: the system checks
    pass or are skipped, the configuration loads as [cfg], [create_backup]
    returns [path], and the size of the file can be asked for. *)
Definition backed_up (w : world) (skip_checks : bool) (cfg : config)
           (path : string) : Prop :=
  (skip_checks = true \/ system_checks w = Ok tt)
  /\ loaded_config w = Ok cfg
  /\ pg_dump w = Ok path
  /\ catchable (st_size w).

(** The events of [restore_backup]: its logger calls and [pg_restore]. *)
Definition is_restore_event (ev : event) : bool :=
  match ev with
  | Called (PgRestore _ _ _ _ _ _) => true
  | Logged (LogCall _ file _ _) => String.eqb file "restore.py"
  | _ => false
  end.

(** The events of the target preparation: the [psql] commands. *)
Definition is_prepare_event (ev : event) : bool :=
  match ev with
  | Called (Psql _ _) => true
  | Logged (LogCall _ file _ _) => String.eqb file "database.py"
  | _ => false
  end.

Definition cleanup_of (ev : event) : option string :=
  match ev with
  | Called (CleanupBackup path) => Some path
  | _ => None
  end.

Definition restore_of (ev : event) : option string :=
  match ev with
  | Called (PgRestore _ _ _ database _ _) => Some database
  | _ => None
  end.

Definition check_of (ev : event) : option string :=
  match ev with
  | Called (Psql database sql) =>
      if String.eqb sql "SELECT 1 FROM pg_database"
      then Some database else None
  | _ => None
  end.

(** The paths [cleanup_backup] was called with, in order. *)
Definition cleanups (tr : list event) : list string := omap cleanup_of tr.

(** The databases [pg_restore] was run against, in order. *)
Definition restores (tr : list event) : list string := omap restore_of tr.

(** The databases the existence check was made for, in order. *)
Definition checks (tr : list event) : list string := omap check_of tr.

Definition is_create_event (ev : event) : bool :=
  match ev with
  | Called (CreateBackup _ _ _ _) => true
  | _ => false
  end.

(** The artifact of a run: the path [create_backup] returned, if the run
    got to call it and it returned. *)
Definition artifact (w : world) (tr : list event) : option string :=
  if existsb is_create_event tr
  then match pg_dump w with Ok path => Some path | Raise _ => None end
  else None.

(** The logger call of line 266, in the abort of lines 264-268. *)
Definition is_abort_event (ev : event) : bool :=
  match ev with
  | Logged (LogCall _ file line _) =>
      String.eqb file "cli.py" && Nat.eqb line 266
  | _ => false
  end.

(** The values logged by the warning of a line of cli.py. *)
Definition warning_of (at_line : nat) (ev : event) : option (list string) :=
  match ev with
  | Logged (LogCall WARNING file line args) =>
      if String.eqb file "cli.py" && Nat.eqb line at_line
      then Some args else None
  | _ => None
  end.

Definition abort_of (ev : event) : option unit :=
  if is_abort_event ev then Some tt else None.

(** The aborts of lines 264-268 that were taken. *)
Definition aborts (tr : list event) : list unit := omap abort_of tr.

(** A logger call of cli.py between two lines. *)
Definition is_cli_log (first last : nat) (ev : event) : bool :=
  match ev with
  | Logged (LogCall _ file line _) =>
      String.eqb file "cli.py" && (first <=? line)%nat && (line <=? last)%nat
  | _ => false
  end.

Definition is_log_of (name : string) (ev : event) : bool :=
  match ev with
  | Logged (LogCall _ file _ _) => String.eqb file name
  | _ => false
  end.

(** What lines 135-261 can do: the history record and the hooks. *)
Definition is_hooks_event (ev : event) : bool :=
  match ev with
  | Called (Stat _) | Called (SqlInsert _ _ _) | Called (SqlUpdate _ _ _)
  | Called (HttpGet _) | Called (HttpPost _ _) | Printed _ _ => true
  | _ => is_log_of "hooks.py" ev || is_cli_log 135 261 ev
  end.

(** What lines 272-301 can do: the target preparation. *)
Definition is_prepare_phase_event (ev : event) : bool :=
  match ev with
  | Called (Psql _ _) => true
  | _ => is_log_of "database.py" ev || is_cli_log 272 301 ev
  end.

(** What lines 303-349 can do: the restore and the fix-up after it. *)
Definition is_restore_phase_event (ev : event) : bool :=
  match ev with
  | Called (PgRestore _ _ _ _ _ _) | Called Pause
  | Called (UpdateAdminEmail _ _) => true
  | _ => is_log_of "restore.py" ev || is_cli_log 303 349 ev
  end.

(** What lines 135-349 can do: everything in the [try] after the backup. *)
Definition is_body_event (ev : event) : bool :=
  is_hooks_event ev || is_prepare_phase_event ev
  || is_restore_phase_event ev || is_cli_log 262 271 ev.

(** What lines 80-121 can do, before the [try]. *)
Definition is_prelude_event (ev : event) : bool :=
  match ev with
  | Called VerifySystemRequirements | Called PrintInstallationHelp
  | Called (LoadConfig _) => true
  | _ => is_cli_log 80 121 ev
  end.

(** Where the [try] of line 123 starts: the locals as lines 119-121 set
    them, the ledger and the files as they were, and nothing done but
    what precedes the [try]. *)
Definition started (cfg : config) (t : history.table) (fs : gset string)
           (s : state) : Prop :=
  backup_file s = None
  /\ target_database s = source_database cfg
  /\ hooks_executados_com_sucesso s = true
  /\ ledger s = t
  /\ files s = fs
  /\ exists evs, trace s = evs /\ forallb is_prelude_event evs = true.

(** The target preparation for the database [name] ends without raising. *)
Definition target_prepared (w : world) (cfg : config) (name : string) : bool :=
  match (cli.prepare_target w cfg
           (set_target_database name (initial history.empty_table ∅))).1 with
  | Ok _ => true
  | Raise _ => false
  end.

(** What lines 272-349 can do. *)
Definition is_tail_event (ev : event) : bool :=
  is_prepare_phase_event ev || is_restore_phase_event ev.

(** The answer of the fetch step is empty: [None] or an empty dict. *)
Definition empty_result (dados : option dict) : bool :=
  match dados with
  | Some d => negb (history.dict_truthy d)
  | None => true
  end.

End observe.

(** ** Reasoning about runs *)

Module logic.
Import Py runtime.

(** [Q] holds of the result and the state in which [m] ends from [s]. *)
Definition wp {A} (m : M A) (Q : res A -> state -> Prop) (s : state) : Prop :=
  Q (m s).1 (m s).2.

(** [s'] differs from [s] by more events, all of which [P] accepts. *)
Definition grows (P : event -> bool) (s s' : state) : Prop :=
  exists evs, trace s' = trace s ++ evs /\ forallb P evs = true.

(** The state after the logger calls of a list. *)
Definition add_logs (rs : list log_record) (s : state) : state :=
  fold_left (fun s r => record_event (Logged r) s) rs s.

(** What lines 135-261 may change: neither [backup_file] nor the files,
    and the events they add are accepted by [C]. *)
Definition phase (C : event -> bool) (s s' : state) : Prop :=
  backup_file s' = backup_file s /\ files s' = files s /\ grows C s s'.

(** What lines 272-349 may change: nothing but the trace, by events that
    [C] accepts. *)
Definition quiet (C : event -> bool) (s s' : state) : Prop :=
  backup_file s' = backup_file s
  /\ target_database s' = target_database s
  /\ hooks_executados_com_sucesso s' = hooks_executados_com_sucesso s
  /\ ledger s' = ledger s
  /\ files s' = files s
  /\ grows C s s'.

(** The events selected by [f] between [s] and [s'] are [xs]. *)
Definition adds {X} (f : event -> option X) (xs : list X) (s s' : state)
  : Prop :=
  omap f (trace s') = omap f (trace s) ++ xs.

(** [m] relates every state to the one it leaves. *)
Definition stable {A} (R : state -> state -> Prop) (m : M A) : Prop :=
  forall s, R s (m s).2.

(** A relation between states that statements can be shown to keep:
    a preorder that admits the events [C] accepts. *)
Class Frame (R : state -> state -> Prop) (C : event -> bool) : Prop := {
  frame_refl : forall s, R s s;
  frame_trans : forall s1 s2 s3, R s1 s2 -> R s2 s3 -> R s1 s3;
  frame_event : forall ev s, C ev = true -> R s (record_event ev s)
}.

(** The locals of [mirror] and the ledger are those of [s]. *)
Definition same_vars (s s' : state) : Prop :=
  backup_file s' = backup_file s
  /\ target_database s' = target_database s
  /\ hooks_executados_com_sucesso s' = hooks_executados_com_sucesso s
  /\ ledger s' = ledger s.

End logic.

(** ** Sample runs *)

Module examples.
Import Py runtime.

Definition config_of (database : string) : config :=
  {| source_host := "prod.example"; source_port := 5432;
     source_database := database; source_user := "postgres";
     source_password := "secret";
     target_host := "dev.example"; target_port := 5432;
     target_user := "postgres"; target_password := "secret";
     parallel_jobs := 4; drop_existing := false |}.

Definition subscription (n : Z) : dict :=
  {[ "id" := VInt n; "ss_nome_fantasia" := VStr "Varejo Ltda";
     "ss_uf" := VStr "RJ" ]}.

(** A world in which everything works, but for the given answers of
    sqlite on insert, of the fetch step and of the clone step. *)
Definition world_of (database : string) (insert : option exn)
           (fetch : res (option dict)) (clone : res dict) : world :=
  {| system_checks := Ok tt;
     loaded_config := Ok (config_of database);
     FORTEPLUS_TOKEN := Some "token";
     EMAIL_USUARIO := Some "dev@example.com";
     pg_dump := Ok "/tmp/backup.dump";
     st_size := Ok 1048576;
     utcnow := "2025-01-01T00:00:00Z";
     sqlite_insert := insert;
     sqlite_update := fun _ => None;
     get_assinatura := fetch;
     post_assinatura := clone;
     post_assinante_usuario := Ok tt;
     psql_exists := Ok "1";
     psql_terminate := Ok 0;
     psql_drop := Ok 0;
     psql_create := Ok 0;
     pg_restore := Ok ("", 0);
     key_pressed := Ok tt;
     admin_email_updated := Ok tt |}.

Definition all_well : world :=
  world_of "rj_d1_77_varejo" None (Ok (Some (subscription 77)))
           (Ok (subscription 901)).

Definition clone_fails : world :=
  world_of "rj_d1_77_varejo" None (Ok (Some (subscription 77)))
           (Raise (Exception "HTTPStatusError" "500")).

Definition fetch_empty : world :=
  world_of "rj_d1_77_varejo" None (Ok None) (Ok ∅).

Definition insert_fails (database : string) : world :=
  world_of database (Some (Exception "OperationalError" "disk I/O error"))
           (Ok None) (Ok ∅).

(** [pg-mirror mirror --config config.json] on an empty ledger. *)
Definition run (w : world) : res unit * state :=
  cli.mirror w "config.json" None false false
             (initial history.empty_table ∅).

End examples.

(** ** Histories of the ledger *)

Module journal.
Import Py.

(** A call of one of the two functions of history.py that write. *)
Inductive op :=
| Record (now host : string) (port : Z)
         (database username backup_path : string) (size_mb : option Q)
         (status : option string) (extra : option dict)
| Update (backup_id : Z) (status : option string) (extra : option dict).

Definition apply (t : history.table) (o : op) : history.table :=
  match o with
  | Record now host port database username backup_path size_mb status extra =>
      (history.record_backup now host port database username backup_path
                             size_mb status extra t).2
  | Update backup_id status extra =>
      (history.update_backup backup_id status extra t).2
  end.

(** The table after the calls of a list, in order, on a new database. *)
Definition replay (ops : list op) : history.table :=
  fold_left apply ops history.empty_table.

(** Every row is stored under its own id, and no id is beyond the last
    one given out. *)
Definition well_formed (t : history.table) : Prop :=
  0 <= history.last_rowid t
  /\ map_Forall (fun k r => history.id r = k /\ 0 < k <= history.last_rowid t)
                (history.rows t).

(** The first of two optional arguments that is given. *)
Definition or_else {A} (a b : option A) : option A :=
  match a with
  | Some _ => a
  | None => b
  end.

End journal.

(** ** More of what a run shows *)

Module events.
Import Py runtime.

Definition call_of (ev : event) : option call :=
  match ev with
  | Called c => Some c
  | _ => None
  end.

(** The calls that left the process, in order. *)
Definition calls (tr : list event) : list call := omap call_of tr.

Definition record_of (ev : event) : option log_record :=
  match ev with
  | Logged r => Some r
  | _ => None
  end.

(** The logger calls, in order. *)
Definition logs (tr : list event) : list log_record := omap record_of tr.

Definition request_of (ev : event) : option string :=
  match ev with
  | Called (HttpGet url) => Some url
  | Called (HttpPost url _) => Some url
  | _ => None
  end.

(** The URLs of the HTTP requests that were sent, in order. *)
Definition requests (tr : list event) : list string := omap request_of tr.

(** The logger call of a line of restore.py. *)
Definition is_line (n : nat) (r : log_record) : bool :=
  match r with
  | LogCall _ file line _ => String.eqb file "restore.py" && Nat.eqb line n
  end.

End events.

(** ** The psql commands of a run *)

Module commands.
Import Py runtime.

Definition sql_of (ev : event) : option string :=
  match ev with
  | Called (Psql _ sql) => Some sql
  | _ => None
  end.

(** The statements handed to psql, in order. *)
Definition issued (tr : list event) : list string := omap sql_of tr.



(** What [subprocess.run(..., check=True)] gives for an answer of psql,
    inside a [try] whose [except CalledProcessError] ends in [sys.exit(1)]. *)
Definition checked (answer : res Z) : res unit :=
  match answer with
  | Ok returncode => if returncode =? 0 then Ok tt else Raise (SystemExit 1)
  | Raise (Exception cls text) =>
      if String.eqb cls "CalledProcessError" then Raise (SystemExit 1)
      else Raise (Exception cls text)
  | Raise e => Raise e
  end.

(** The existence check found the database: psql printed "1", with or
    without white space around it. *)
Definition found (answer : res string) : bool :=
  match answer with
  | Ok stdout => String.eqb (strip stdout) "1"
  | Raise _ => false
  end.




(** What [restore_backup] returns for an answer of pg_restore that is an
    output or an [Exception]. *)
Definition restored (answer : res (string * Z)) : bool :=
  match answer with
  | Ok result => (restore.analyse result.1 result.2).1
  | Raise _ => false
  end.

End commands.

(** ** What the mirror command may do *)

Module policy.
Import Py runtime.

(** The statements that remove something: the target database, or the
    sessions connected to it. *)
Definition destructive (sql : string) : bool :=
  String.eqb sql "DROP DATABASE IF EXISTS"
  || String.eqb sql "SELECT pg_terminate_backend".

(** The statements lines 272-301 hand to psql under a configuration: the
    destructive ones only when [drop_existing] is set. *)
Definition psql_allowed (cfg : config) (sql : string) : bool :=
  String.eqb sql "SELECT 1 FROM pg_database"
  || String.eqb sql "CREATE DATABASE"
  || destructive sql && drop_existing cfg.

(** The dump is taken from the source server, and the restore goes to the
    target server with the configured number of jobs. *)
Definition addressed (cfg : config) (c : call) : bool :=
  match c with
  | CreateBackup host port database user =>
      String.eqb host (source_host cfg) && (port =? source_port cfg)
      && String.eqb database (source_database cfg)
      && String.eqb user (source_user cfg)
  | PgRestore _ host port _ user jobs =>
      String.eqb host (target_host cfg) && (port =? target_port cfg)
      && String.eqb user (target_user cfg) && (jobs =? parallel_jobs cfg)
  | _ => true
  end.

(** What the [try] of lines 123-354 may do under a configuration. *)
Definition allowed (cfg : config) (ev : event) : bool :=
  match ev with
  | Called VerifySystemRequirements | Called PrintInstallationHelp
  | Called (LoadConfig _) => false
  | Called (Psql database sql) => psql_allowed cfg sql
  | Called c => addressed cfg c
  | _ => true
  end.

Definition is_verify (c : call) : bool :=
  match c with
  | VerifySystemRequirements => true
  | _ => false
  end.

Definition is_http (c : call) : bool :=
  match c with
  | HttpGet _ | HttpPost _ _ => true
  | _ => false
  end.

(** The calls of lines 84-96 when the command gets past them. *)
Definition prelude_calls (skip_checks : bool) (config_path : string)
  : list call :=
  (if skip_checks then [] else [VerifySystemRequirements])
  ++ [LoadConfig config_path].

(** The command ended in lines 84-96: nothing was written, and only the
    system checks and the configuration were asked for. *)
Definition ended_early (skip_checks : bool) (config_path : string)
           (t : history.table) (fs : gset string) (s : state) : Prop :=
  ledger s = t /\ files s = fs
  /\ forallb observe.is_prelude_event (trace s) = true
  /\ (skip_checks = true -> events.calls (trace s) = [LoadConfig config_path]).

End policy.

(** ** The states of an audit record *)

Module audit.
Import Py runtime.

(** The record with the given id says that the hooks ran to their end, or
    that there was nothing to clone. *)
Definition hooks_settled (backup_id : Z) (t : history.table) : Prop :=
  exists r,
    history.get_backup backup_id t = Some r
    /\ (history.status r = Some "hooks_completed"
        \/ history.status r = Some "hooks_skipped").

End audit.

(** ** jwt_utils.py *)

Module jwt_utils.
Import Py.

Definition a_acute : ascii := ascii_of_nat 225.
Definition a_tilde : ascii := ascii_of_nat 227.
Definition e_acute : ascii := ascii_of_nat 233.

(** "Variável de ambiente JWT_SECRET não está configurada". *)
Definition secret_missing : exn :=
  Exception "JWTSecretNaoConfiguradaError"
    ("Vari" +:+ String a_acute "vel de ambiente JWT_SECRET n"
     +:+ String a_tilde "o est" +:+ String a_acute " configurada").

(** "O token JWT não contém a chave 'db' necessária para multitenancy". *)
Definition db_missing : exn :=
  Exception "JWTDbAusenteError"
    ("O token JWT n" +:+ String a_tilde "o cont" +:+ String e_acute
       "m a chave 'db' necess" +:+ String a_acute "ria para multitenancy").

Section PyJWT.

(** The two functions of the PyJWT library that the module calls:
    [jwt.decode(token, options=...)] with every verification switched off,
    and [jwt.encode(payload, key=..., algorithm="HS256")]. *)
Variable decode : string -> res dict.
Variable encode : dict -> string -> res string.

(** The environment variable JWT_SECRET, read when the module is loaded. *)
Variable JWT_SECRET : option string.

(** Lines 30-50, without the logger call. *)
Definition decodificar_payload_jwt (token : string) : res dict :=
  decode token.

(** Lines 53-89, without the logger calls. *)
Definition modificar_db_no_token (token novo_db : string) : res string :=
  match JWT_SECRET with
  | Some secret =>
      if truthy secret then
        match decodificar_payload_jwt token with
        | Ok payload =>
            match payload !! "db" with
            | Some _ =>
                let payload := <["db" := VStr novo_db]> payload in
                encode payload secret
            | None => Raise db_missing
            end
        | Raise e => Raise e
        end
      else Raise secret_missing
  | None => Raise secret_missing
  end.

(** Lines 92-102: [payload.get("db")]. *)
Definition obter_db_do_token (token : string) : res (option value) :=
  match decodificar_payload_jwt token with
  | Ok payload => Ok (payload !! "db")
  | Raise e => Raise e
  end.

End PyJWT.

End jwt_utils.

(** ** hooks.py: the update of the administrator's e-mail, step by step *)

Module admin_email.
Import Py.

(** What the development API answers to the search for the user: an array
    of objects, an object whose [results] is such an array, or an object
    without [results]. *)
Inductive usuarios_json :=
| Array (usuarios : list dict)
| Page (results : list dict)
| Object (fields : dict).

(** The requests [httpx] is asked to send, with the [Authorization]
    header of each. *)
Inductive request :=
| Get (url authorization : string) (params : dict)
| Patch (url authorization : string) (json : dict).

Definition DEV_ENVIRONMENT_URL_2 : string :=
  "http://192.168.200.68:8032/api/v1/".

Definition email_admin : string := "erika.neri@forteplus.com.br".

(** "Usuário com email ... não encontrado". *)
Definition usuario_nao_encontrado : exn :=
  Exception "ValueError"
    ("Usu" +:+ String jwt_utils.a_acute "rio com email " +:+ email_admin
     +:+ " n" +:+ String jwt_utils.a_tilde "o encontrado").

(** "ID do usuário não encontrado na resposta". *)
Definition id_nao_encontrado : exn :=
  Exception "ValueError"
    ("ID do usu" +:+ String jwt_utils.a_acute "rio n"
     +:+ String jwt_utils.a_tilde "o encontrado na resposta").

(** [x or y] on two values. *)
Definition or_value (x y : value) : value := if bool_of x then x else y.

(** Truth value of what line 188 tests, and [usuarios[0]]: an object
    without [results] stays a dict, and has no key [0]. *)
Definition primeiro (usuarios : usuarios_json) : res dict :=
  match usuarios with
  | Array [] | Page [] => Raise usuario_nao_encontrado
  | Array (u :: _) | Page (u :: _) => Ok u
  | Object fields =>
      if history.dict_truthy fields then Raise (Exception "KeyError" "0")
      else Raise usuario_nao_encontrado
  end.

(** The user the search found, or the exception of lines 178-189. *)
Definition found (get_usuarios : res usuarios_json) : res dict :=
  match get_usuarios with
  | Ok usuarios => primeiro usuarios
  | Raise e => Raise e
  end.

Section Steps.

Variable decode : string -> res dict.
Variable encode : dict -> string -> res string.
Variable JWT_SECRET : option string.

(** The environment variable FORTEPLUS_TOKEN, and the answers of the two
    requests: each stands for the request, [raise_for_status] and
    [resp.json()] together. *)
Variable FORTEPLUS_TOKEN : option string.
Variable get_usuarios : res usuarios_json.
Variable patch_usuario : res dict.

(** Lines 141-219, without the logger calls: the result, and the requests
    that were sent, in order. *)
Definition atualizar_email_usuario_admin_desenvolvimento
           (novo_email nome_banco_destino : string)
  : res dict * list request :=
  match FORTEPLUS_TOKEN with
  | None => (Raise hooks.token_missing, [])
  | Some token =>
      if negb (truthy token) then (Raise hooks.token_missing, [])
      else
        match jwt_utils.modificar_db_no_token decode encode JWT_SECRET
                                              token nome_banco_destino with
        | Raise (Exception _ text) =>
            (Raise (Exception "ImproperlyConfiguredException" text), [])
        | Raise e => (Raise e, [])
        | Ok token_modificado =>
            let get_url := DEV_ENVIRONMENT_URL_2 +:+ "usuarios/" in
            let params : dict := {[ "us_email" := VStr email_admin ]} in
            let sent := [Get get_url token_modificado params] in
            match found get_usuarios with
            | Raise e => (Raise e, sent)
            | Ok usuario =>
                let usuario_id :=
                  or_value (default VNone (usuario !! "id"))
                           (default VNone (usuario !! "us_id")) in
                if negb (bool_of usuario_id)
                then (Raise id_nao_encontrado, sent)
                else
                  let patch_url :=
                    DEV_ENVIRONMENT_URL_2 +:+ "usuarios/"
                    +:+ str usuario_id +:+ "/" in
                  let payload : dict :=
                    {[ "us_email" := VStr novo_email ]} in
                  (patch_usuario,
                   sent ++ [Patch patch_url token_modificado payload])
            end
        end
  end.

End Steps.

End admin_email.

(** ** More sample runs *)

Module scenarios.
Import Py runtime.

Definition with_pg_dump (answer : res string) (w : world) : world :=
  {| system_checks := system_checks w; loaded_config := loaded_config w;
     FORTEPLUS_TOKEN := FORTEPLUS_TOKEN w; EMAIL_USUARIO := EMAIL_USUARIO w;
     pg_dump := answer; st_size := st_size w; utcnow := utcnow w;
     sqlite_insert := sqlite_insert w; sqlite_update := sqlite_update w;
     get_assinatura := get_assinatura w;
     post_assinatura := post_assinatura w;
     post_assinante_usuario := post_assinante_usuario w;
     psql_exists := psql_exists w; psql_terminate := psql_terminate w;
     psql_drop := psql_drop w; psql_create := psql_create w;
     pg_restore := pg_restore w; key_pressed := key_pressed w;
     admin_email_updated := admin_email_updated w |}.

Definition with_token (token : option string) (w : world) : world :=
  {| system_checks := system_checks w; loaded_config := loaded_config w;
     FORTEPLUS_TOKEN := token; EMAIL_USUARIO := EMAIL_USUARIO w;
     pg_dump := pg_dump w; st_size := st_size w; utcnow := utcnow w;
     sqlite_insert := sqlite_insert w; sqlite_update := sqlite_update w;
     get_assinatura := get_assinatura w;
     post_assinatura := post_assinatura w;
     post_assinante_usuario := post_assinante_usuario w;
     psql_exists := psql_exists w; psql_terminate := psql_terminate w;
     psql_drop := psql_drop w; psql_create := psql_create w;
     pg_restore := pg_restore w; key_pressed := key_pressed w;
     admin_email_updated := admin_email_updated w |}.

(** A database whose name carries no subscription. *)
Definition plain : world :=
  examples.world_of "banco_invalido" None (Ok None) (Ok ∅).

(** pg_dump fails. *)
Definition dump_fails : world :=
  with_pg_dump (Raise (Exception "CalledProcessError" "pg_dump")) plain.

(** FORTEPLUS_TOKEN is not set. *)
Definition no_token : world := with_token None examples.all_well.

(** A toy PyJWT: the only tokens are "old", which carries the claims
    {db: prod, sub: 7}, and "new", which carries them for the database
    "dev". *)
Definition claims : dict := {[ "db" := VStr "prod"; "sub" := VInt 7 ]}.

Definition decode (token : string) : res dict :=
  if String.eqb token "old" then Ok claims
  else Ok (<["db" := VStr "dev"]> claims).

Definition encode (payload : dict) (key : string) : res string := Ok "new".

End scenarios.

(** ** cli.py: the commands check and validate *)

Module cli_commands.
Import Py runtime.

Definition log := runtime.log "cli.py".

(** Lines 359-382. *)
Definition check (w : world) : M unit :=
  log INFO 372 [];; log INFO 373 [];;
  try_except_class "SystemCheckError"
    (ask VerifySystemRequirements (system_checks w);;
     sys_exit 0)
    (fun e =>
       log ERROR 379 [e];; log ERROR 380 [];;
       emit (Called PrintInstallationHelp);;
       sys_exit 1).

(** Lines 393-420. *)
Definition validate (w : world) (config : string) : M unit :=
  try_except
    (cfg ← ask (LoadConfig config) (loaded_config w);
     log INFO 409 [];;
     log INFO 410 [source_database cfg; source_host cfg;
                   pretty (source_port cfg)];;
     log INFO 413 [target_host cfg; pretty (target_port cfg)];;
     log INFO 414 [pretty (parallel_jobs cfg);
                   if drop_existing cfg then "True" else "False"])
    (fun _ e => log ERROR 419 [e];; sys_exit 1).

End cli_commands.

(** ** database.py: the class DatabaseManager *)

Module DatabaseManager.
Import Py runtime.

Definition log := runtime.log "database.py".

(** Lines 75-89: [_run_psql]; with [check=False] the return code is not
    looked at. *)
Definition _run_psql (check : bool) (database sql : string) (answer : res Z)
  : M unit :=
  returncode ← ask (Psql database sql) answer;
  if negb check || (returncode =? 0) then mret tt
  else raise (Exception "CalledProcessError" (pretty returncode)).

(** Lines 91-118. *)
Definition check_database_exists (w : world) (database : string) : M bool :=
  try_except
    (stdout ← ask (Psql database "SELECT 1 FROM pg_database") (psql_exists w);
     let exists_ := String.eqb (strip stdout) "1" in
     log DEBUG 114 [database; if exists_ then "True" else "False"];;
     mret exists_)
    (fun _ e => log ERROR 117 [e];; mret false).

(** Lines 120-132. *)
Definition create_database (w : world) (database : string) : M unit :=
  try_except_class "CalledProcessError"
    (_run_psql true database "CREATE DATABASE" (psql_create w);;
     log INFO 129 [database])
    (fun e => log ERROR 131 [e];; sys_exit 1).

(** Lines 134-164. *)
Definition drop_and_create_database (w : world) (database : string)
  : M unit :=
  try_except_class "CalledProcessError"
    (log DEBUG 150 [database];;
     _run_psql false database "SELECT pg_terminate_backend"
               (psql_terminate w);;
     log DEBUG 154 [database];;
     _run_psql true database "DROP DATABASE IF EXISTS" (psql_drop w);;
     log DEBUG 158 [database];;
     _run_psql true database "CREATE DATABASE" (psql_create w);;
     log INFO 161 [database])
    (fun e => log ERROR 163 [e];; sys_exit 1).


End DatabaseManager.

(** * Theorems *)

(** ** Strings *)

Lemma append_cons (c : ascii) (s t : string) :
  String c s +:+ t = String c (s +:+ t).
Proof. reflexivity. Qed.

Lemma append_nil_l (t : string) : "" +:+ t = t.
Proof. reflexivity. Qed.

Ltac push_append := rewrite ?append_cons, ?append_nil_l in *.

Lemma append_nil_r (s : string) : s +:+ "" = s.
Proof. induction s as [|c s IH]; [done|]. push_append. by rewrite IH. Qed.

Lemma append_assoc (a b c : string) : (a +:+ b) +:+ c = a +:+ (b +:+ c).
Proof. induction a as [|x a IH]; [done|]. push_append. by rewrite IH. Qed.

Lemma ascii_eqb_true (a b : ascii) : Ascii.eqb a b = true <-> a = b.
Proof. apply Ascii.eqb_eq. Qed.

Lemma startswith_app (p t : string) : Py.startswith p (p +:+ t) = true.
Proof.
  induction p as [|c p IH]; [done|]. push_append. cbn.
  by rewrite Ascii.eqb_refl, IH.
Qed.

Lemma startswith_inv (p s : string) :
  Py.startswith p s = true -> exists t, s = p +:+ t.
Proof.
  revert s. induction p as [|c p IH]; intros s H.
  - by exists s.
  - destruct s as [|d s]; [done|]. cbn in H.
    apply andb_true_iff in H as [Hc Hp].
    apply Ascii.eqb_eq in Hc as ->.
    destruct (IH _ Hp) as [t ->]. by exists t.
Qed.


Lemma contains_unfold (sub s : string) :
  Py.contains sub s
  = Py.startswith sub s
    || match s with "" => false | String _ s' => Py.contains sub s' end.
Proof. by destruct s. Qed.

Lemma contains_app (sub pre post : string) :
  Py.contains sub (pre +:+ sub +:+ post) = true.
Proof.
  induction pre as [|c pre IH]; push_append.
  - by rewrite contains_unfold, startswith_app.
  - cbn. rewrite IH. by rewrite orb_true_r.
Qed.

Lemma contains_inv (sub s : string) :
  Py.contains sub s = true -> exists pre post, s = pre +:+ sub +:+ post.
Proof.
  induction s as [|c s IH]; cbn; intros H.
  - rewrite orb_false_r in H. apply startswith_inv in H as [t ->].
    by exists "", t.
  - apply orb_true_iff in H as [H|H].
    + apply startswith_inv in H as [t ->]. by exists "", t.
    + destruct (IH H) as (pre & post & ->). by exists (String c pre), post.
Qed.

(** A text that contains [a +:+ b] contains [b]. *)
Lemma contains_suffix (a b s : string) :
  Py.contains (a +:+ b) s = true -> Py.contains b s = true.
Proof.
  intros H. apply contains_inv in H as (pre & post & ->).
  rewrite append_assoc, <- (append_assoc pre a). apply contains_app.
Qed.

(** ** restore.py: the classifier *)

(** The first test of line 65 is implied by the second. *)
Lemma is_error_line_attributed (line : string) :
  restore.is_error_line (Py.lower line) = spec.attributed line.
Proof.
  unfold restore.is_error_line, spec.attributed.
  destruct (Py.contains "pg_restore: error:" _) eqn:E.
  - change "pg_restore: error:" with ("pg_restore: " +:+ "error:") in E.
    by rewrite (contains_suffix _ _ _ E).
  - apply andb_false_r.
Qed.

Lemma scan_line_errors (st : restore.scan) (line : string) :
  restore.critical_errors (restore.scan_line st line)
  = restore.critical_errors st
    ++ (if spec.attributed line && negb (spec.benign line)
        then [Py.strip line] else []).
Proof.
  unfold restore.scan_line. cbn [restore.critical_errors].
  rewrite is_error_line_attributed.
  change (restore.is_benign (Py.lower line)) with (spec.benign line).
  destruct (spec.attributed line), (spec.benign line); cbn;
    by rewrite ?app_nil_r.
Qed.

Lemma scan_line_count (st : restore.scan) (line : string) :
  restore.warning_count (restore.scan_line st line)
  = default (restore.warning_count st) (spec.summary_count line).
Proof.
  unfold restore.scan_line, spec.summary_count, restore.is_summary_line.
  cbn [restore.warning_count].
  destruct (Py.contains _ _); [|done]. by destruct (Py.int _).
Qed.

(** The loop of lines 62-80 keeps, in order, the stripped offending
    lines, and the count of the last summary line that parses. *)
Lemma scan_fold (ls : list string) (st : restore.scan) :
  restore.critical_errors (fold_left restore.scan_line ls st)
  = restore.critical_errors st
    ++ map Py.strip
         (List.filter (fun l => spec.attributed l && negb (spec.benign l)) ls)
  /\ restore.warning_count (fold_left restore.scan_line ls st)
     = List.last (omap spec.summary_count ls) (restore.warning_count st).
Proof.
  revert st. induction ls as [|l ls IH]; intros st.
  - cbn. by rewrite app_nil_r.
  - cbn [fold_left]. destruct (IH (restore.scan_line st l)) as [IHe IHc].
    rewrite IHe, IHc, scan_line_errors, scan_line_count. split.
    + cbn [List.filter].
      destruct (spec.attributed l && negb (spec.benign l)); cbn [map].
      * by rewrite <- app_assoc.
      * by rewrite app_nil_r.
    + cbn [omap list_omap]. destruct (spec.summary_count l) as [n|]; [|done].
      cbn [default]. clear.
      generalize (restore.warning_count st).
      induction (omap spec.summary_count ls) as [|x xs IHx]; [done|].
      intros z. destruct xs; [done|]. apply (IHx z).
Qed.

Lemma scan_stderr_spec (stderr : string) :
  restore.critical_errors (restore.scan_stderr stderr) = spec.offending stderr
  /\ restore.warning_count (restore.scan_stderr stderr)
     = spec.parsed_count stderr.
Proof.
  unfold restore.scan_stderr, spec.offending, spec.parsed_count, spec.lines.
  destruct stderr as [|c s]; [done|]. cbn [Py.truthy].
  apply (scan_fold _ restore.scan_init).
Qed.

Lemma analyse_result (stderr : string) (returncode : Z) :
  (restore.analyse stderr returncode).1
  = match restore.critical_errors (restore.scan_stderr stderr) with
    | _ :: _ => false
    | [] => (returncode =? 0)
            || (returncode =? 1)
               && (0 <? restore.warning_count (restore.scan_stderr stderr))
    end.
Proof.
  unfold restore.analyse.
  destruct (restore.critical_errors _); [|done].
  by destruct ((returncode =? 0) || _).
Qed.

(** C1, amended: the classifier's verdict.  The critical lines are the
    attributed, non-benign lines of the text; the count is the one of the
    last summary line that parses.  With a critical line the result is
    [False] whatever the exit code; without one it is [True] for exit code
    0, [True] for exit code 1 with a positive count, and [False] for every
    other exit code. *)
Theorem restore_classifier_decision (stderr : string) (returncode : Z) :
  let errors := spec.offending stderr in
  let count := spec.parsed_count stderr in
  let result := (restore.analyse stderr returncode).1 in
  restore.critical_errors (restore.scan_stderr stderr) = errors
  /\ restore.warning_count (restore.scan_stderr stderr) = count
  /\ result = spec.success (spec.decision errors count returncode)
  /\ (errors <> [] -> result = false)
  /\ (errors = [] -> returncode = 0 -> result = true)
  /\ (errors = [] -> returncode = 1 -> 0 < count -> result = true)
  /\ (errors = [] -> returncode <> 0 -> ~ (returncode = 1 /\ 0 < count) ->
      result = false).
Proof.
  intros errors count result.
  destruct (scan_stderr_spec stderr) as [He Hc].
  assert (Hr : result
               = match errors with
                 | _ :: _ => false
                 | [] => (returncode =? 0) || (returncode =? 1) && (0 <? count)
                 end).
  { subst result. by rewrite analyse_result, He, Hc. }
  split; [done|]. split; [done|]. rewrite Hr. clear Hr He Hc result.
  repeat split.
  - unfold spec.decision. destruct errors; [|done].
    destruct (returncode =? 0); [done|].
    by destruct ((returncode =? 1) && (0 <? count)).
  - by destruct errors.
  - intros -> ->. done.
  - intros -> -> Hpos. cbn. by apply Z.ltb_lt.
  - intros -> Hne Hnot.
    destruct (returncode =? 0) eqn:E0; [apply Z.eqb_eq in E0; done|].
    destruct (returncode =? 1) eqn:E1; [|done].
    destruct (0 <? count) eqn:Ep; [|done].
    apply Z.eqb_eq in E1. apply Z.ltb_lt in Ep. by destruct Hnot.
Qed.

(** C1 as stated fails: with exit code 1 and the parsed count -3, which is
    not zero, the rule as stated gives ok_with_warnings, and
    [restore_backup] returns [False]. *)
Lemma restore_classifier_nonzero_count :
  let stderr := "pg_restore: warning: errors ignored on restore: -3" in
  spec.offending stderr = []
  /\ spec.parsed_count stderr = -3
  /\ spec.decision_as_stated (spec.offending stderr)
       (spec.parsed_count stderr) 1 = spec.ok_with_warnings (-3)
  /\ (restore.analyse stderr 1).1 = false.
Proof. vm_compute. done. Qed.

(** C2, amended: when every attributed error line is benign, no critical
    line is kept; the result is then [True] for exit code 0 and for exit
    code 1 with a positive count, and the unclassified failure [False]
    for every other exit code. *)
Theorem benign_errors_never_critical (stderr : string) (returncode : Z) :
  spec.only_benign stderr = true ->
  restore.critical_errors (restore.scan_stderr stderr) = []
  /\ (forall errors,
        spec.decision (spec.offending stderr) (spec.parsed_count stderr)
                      returncode = spec.critical errors -> errors = [])
  /\ (restore.analyse stderr returncode).1
     = (returncode =? 0)
       || (returncode =? 1) && (0 <? spec.parsed_count stderr).
Proof.
  intros Hb.
  assert (He : spec.offending stderr = []).
  { unfold spec.offending, spec.only_benign in *.
    induction (spec.lines stderr) as [|l ls IH]; [done|].
    cbn [forallb] in Hb. apply andb_true_iff in Hb as [Hl Hls].
    cbn [List.filter].
    destruct (spec.attributed l), (spec.benign l); try done; cbn; auto. }
  destruct (scan_stderr_spec stderr) as [Hc Hw].
  rewrite analyse_result, Hc, Hw, He. repeat split.
  intros errors. cbn. destruct (returncode =? 0); [done|].
  destruct ((returncode =? 1) && _); [done|]. by intros [= <-].
Qed.

Lemma benign_errors_never_critical_witness :
  (restore.analyse "pg_restore: error: must be owner of relation x" 0).1
  = true.
Proof.
  pose proof (benign_errors_never_critical
                "pg_restore: error: must be owner of relation x" 0
                eq_refl) as (_ & _ & H).
  exact H.
Defined.

(** C2 as stated fails: a text whose only attributed error line is benign,
    with exit code 2, gives [False]. *)
Lemma benign_errors_other_exit_code :
  let stderr := "pg_restore: error: must be owner of relation x" in
  spec.only_benign stderr = true
  /\ (restore.analyse stderr 2).1 = false.
Proof. vm_compute. done. Qed.

(** ** hooks.py: the naming resolver *)

Ltac each_char c :=
  destruct c as [[] [] [] [] [] [] [] []].

Lemma is_word_char_name_char (c : ascii) :
  Py.is_word_char c = spec.is_name_char c.
Proof. each_char c; reflexivity. Qed.

Lemma is_az_lower_char (c : ascii) :
  hooks.is_az (Py.lower_char c) = spec.is_ascii_letter c.
Proof. each_char c; reflexivity. Qed.

Lemma isdigit_lower_char (c : ascii) :
  Py.isdigit (Py.lower_char c) = Py.isdigit c.
Proof. each_char c; reflexivity. Qed.

Lemma lower_char_digit (c : ascii) :
  Py.isdigit c = true -> Py.lower_char c = c.
Proof. each_char c; intros H; try reflexivity; discriminate H. Qed.

Lemma lower_char_underscore (c : ascii) :
  Py.lower_char c = "_"%char -> c = "_"%char.
Proof. each_char c; intros H; try reflexivity; discriminate H. Qed.

Lemma sub_non_word_keep (s : string) :
  Py.sub_non_word s = spec.keep spec.is_name_char s.
Proof.
  induction s as [|c s IH]; [done|]. cbn.
  by rewrite is_word_char_name_char, IH.
Qed.

Lemma keep_all_chars (p : ascii -> bool) (s : string) :
  spec.all_chars p (spec.keep p s) = true.
Proof.
  induction s as [|c s IH]; [done|]. cbn.
  destruct (p c) eqn:E; [|done]. cbn. by rewrite E.
Qed.

Lemma split_not_nil (sep : ascii) (s : string) : Py.split sep s <> [].
Proof.
  induction s as [|c s IH]; [done|]. cbn.
  destruct (Ascii.eqb c sep); [done|]. by destruct (Py.split sep s).
Qed.

(** [nome.split(" ")[0]] is the text before the first space. *)
Lemma hd_split_space (s : string) :
  List.hd "" (Py.split " " s) = spec.before_space s.
Proof.
  unfold spec.before_space. induction s as [|c s IH]; [done|]. cbn.
  destruct (Ascii.eqb c " "); [done|].
  pose proof (split_not_nil " " s) as Hne.
  destruct (Py.split " " s) as [|w ws]; [done|]. cbn in *. by rewrite IH.
Qed.

(** C7, amended: [gerar_nome_banco_dados] is a total function that takes
    the text of the display name before its first space character,
    lowercases it, composes region (lowercased), [_d1_], id, [_] and that
    token, and keeps exactly the ASCII letters, digits and underscores;
    ("55", "Acme Corp", "SP") gives "sp_d1_55_acme". *)
Theorem gerar_nome_banco_dados_spec (pk nome uf : string) :
  hooks.gerar_nome_banco_dados pk nome uf = spec.derive_target_name pk nome uf
  /\ spec.all_chars spec.is_name_char (hooks.gerar_nome_banco_dados pk nome uf)
     = true
  /\ hooks.gerar_nome_banco_dados "55" "Acme Corp" "SP" = "sp_d1_55_acme".
Proof.
  assert (H : hooks.gerar_nome_banco_dados pk nome uf
              = spec.derive_target_name pk nome uf).
  { unfold hooks.gerar_nome_banco_dados, spec.derive_target_name,
      spec.compose_name.
    by rewrite sub_non_word_keep, hd_split_space. }
  split; [exact H|]. split; [|reflexivity].
  rewrite H. apply keep_all_chars.
Qed.

(** C7 as stated fails: a tab is whitespace but not a space, so the token
    of "Acme<TAB>Corp" is not cut at the tab. *)
Lemma gerar_nome_banco_dados_tab :
  let nome := "Acme" +:+ String "009" "Corp" in
  spec.first_token nome = "Acme"
  /\ spec.derive_target_name_as_stated "55" nome "SP" = "sp_d1_55_acme"
  /\ hooks.gerar_nome_banco_dados "55" nome "SP" = "sp_d1_55_acmecorp".
Proof. vm_compute. done. Qed.

Lemma lower_app (a b : string) :
  Py.lower (a +:+ b) = Py.lower a +:+ Py.lower b.
Proof.
  induction a as [|c a IH]; [done|]. push_append. cbn. push_append.
  by rewrite IH.
Qed.

Lemma lower_digits (k : string) :
  spec.all_chars Py.isdigit k = true -> Py.lower k = k.
Proof.
  induction k as [|c k IH]; [done|]. cbn. intros [Hc Hk]%andb_true_iff.
  by rewrite (lower_char_digit _ Hc), IH.
Qed.

(** A lowercased text splits where its original does. *)
Lemma lower_app_inv (s a b : string) :
  Py.lower s = a +:+ b ->
  exists a0 b0, s = a0 +:+ b0 /\ Py.lower a0 = a /\ Py.lower b0 = b.
Proof.
  revert s. induction a as [|c a IH]; intros s H.
  - by exists "", s.
  - destruct s as [|d s]; [done|]. push_append. cbn in H.
    injection H as Hc Hs. destruct (IH _ Hs) as (a0 & b0 & -> & Ha & Hb).
    exists (String d a0), b0. cbn. by rewrite Hc, Ha.
Qed.

Lemma lower_all_digits (s : string) :
  spec.all_chars Py.isdigit (Py.lower s) = true ->
  spec.all_chars Py.isdigit s = true.
Proof.
  induction s as [|c s IH]; [done|]. cbn. rewrite isdigit_lower_char.
  intros [Hc Hs]%andb_true_iff. by rewrite Hc, IH.
Qed.

Lemma after_prefix_app (p t : string) : Py.after_prefix p (p +:+ t) = Some t.
Proof.
  induction p as [|c p IH]; [done|]. push_append. cbn.
  by rewrite Ascii.eqb_refl.
Qed.

Lemma after_prefix_inv (p s t : string) :
  Py.after_prefix p s = Some t -> s = p +:+ t.
Proof.
  revert s. induction p as [|c p IH]; intros s H.
  - by injection H as ->.
  - destruct s as [|d s]; [done|]. cbn in H.
    destruct (Ascii.eqb c d) eqn:E; [|done].
    apply Ascii.eqb_eq in E as ->. by rewrite (IH _ H).
Qed.

Lemma span_digits_inv (s ds rest : string) :
  hooks.span_digits s = (ds, rest) ->
  s = ds +:+ rest /\ spec.all_chars Py.isdigit ds = true.
Proof.
  revert ds rest. induction s as [|c s IH]; intros ds rest H; cbn in H.
  - by injection H as <- <-.
  - destruct (Py.isdigit c) eqn:E.
    + destruct (hooks.span_digits s) as [ds' rest'].
      injection H as <- <-. destruct (IH _ _ eq_refl) as [-> Hd].
      split; [done|]. cbn. by rewrite E.
    + by injection H as <- <-.
Qed.

Lemma span_digits_app (k t : string) :
  spec.all_chars Py.isdigit k = true ->
  Py.startswith "_" t = true ->
  hooks.span_digits (k +:+ t) = (k, t).
Proof.
  intros Hk Ht. induction k as [|c k IH].
  - destruct t as [|d t]; [done|]. cbn [Py.startswith] in Ht.
    apply andb_true_iff in Ht as [Hd _]. apply Ascii.eqb_eq in Hd as <-.
    reflexivity.
  - cbn in Hk. apply andb_true_iff in Hk as [Hc Hk]. push_append. cbn.
    by rewrite Hc, (IH Hk).
Qed.

(** The pattern matches a lowercased name exactly when the name has the
    encoding, and the group is the numeric id. *)
Lemma match_pattern_lower (nome key : string) :
  hooks.match_pattern (Py.lower nome) = Some key <-> spec.encodes nome key.
Proof.
  split.
  - destruct nome as [|c1 [|c2 n2]]; try done. cbn [Py.lower].
    unfold hooks.match_pattern. rewrite !is_az_lower_char.
    destruct (spec.is_ascii_letter c1) eqn:E1; [|done].
    destruct (spec.is_ascii_letter c2) eqn:E2; [|done]. cbn [andb].
    destruct (Py.after_prefix "_d1_" (Py.lower n2)) as [s6|] eqn:Ep; [|done].
    apply after_prefix_inv, lower_app_inv in Ep
      as (marker & n6 & -> & Hm & <-).
    destruct (hooks.span_digits (Py.lower n6)) as [ds rest] eqn:Es.
    destruct (Py.truthy ds) eqn:Et; [|done].
    destruct (Py.startswith "_" rest) eqn:Er; [|done]. cbn [andb].
    intros [= ->].
    apply span_digits_inv in Es as [Hs Hd].
    apply lower_app_inv in Hs as (k0 & r0 & -> & Hk & <-).
    assert (Hk0 : spec.all_chars Py.isdigit k0 = true).
    { apply lower_all_digits. by rewrite Hk. }
    rewrite (lower_digits _ Hk0) in Hk. subst k0.
    destruct r0 as [|x slug]; [done|]. cbn [Py.lower Py.startswith] in Er.
    apply andb_true_iff in Er as [Hx _]. apply Ascii.eqb_eq in Hx.
    symmetry in Hx. apply lower_char_underscore in Hx as ->.
    exists c1, c2, marker, slug. repeat split; try done.
    by destruct key.
  - intros (c1 & c2 & marker & slug & -> & E1 & E2 & Hm & Hne & Hd).
    cbn [Py.lower]. unfold hooks.match_pattern.
    rewrite !is_az_lower_char, E1, E2. cbn [andb].
    rewrite !lower_app, Hm, after_prefix_app, (lower_digits _ Hd).
    rewrite span_digits_app; [|done|done].
    by destruct key.
Qed.

(** C8: [extrair_id_assinatura_do_nome_banco] is total: it returns the
    numeric id of a name that has the encoding, whatever the case of its
    prefix, and [None] for every other name. *)
Theorem extrair_id_assinatura_do_nome_banco_spec (nome_banco : string) :
  (forall key,
     hooks.extrair_id_assinatura_do_nome_banco nome_banco = Some key
     <-> spec.encodes nome_banco key)
  /\ (hooks.extrair_id_assinatura_do_nome_banco nome_banco = None
      <-> ~ exists key, spec.encodes nome_banco key)
  /\ hooks.extrair_id_assinatura_do_nome_banco "sp_d1_123_acme" = Some "123"
  /\ hooks.extrair_id_assinatura_do_nome_banco "SP_D1_123_ACME" = Some "123"
  /\ hooks.extrair_id_assinatura_do_nome_banco "banco_invalido" = None.
Proof.
  unfold hooks.extrair_id_assinatura_do_nome_banco.
  split; [intros key; apply match_pattern_lower|].
  split; [|by vm_compute].
  split.
  - intros HN [key Hk]. apply match_pattern_lower in Hk. congruence.
  - intros Hno.
    destruct (hooks.match_pattern (Py.lower nome_banco)) as [key|] eqn:E;
      [|done].
    destruct Hno. exists key. by apply match_pattern_lower.
Qed.

(** ** history.py: the audit ledger *)


Lemma get_backup_extra (backup_id : Z) (t : history.table) :
  history.extra <$> history.get_backup backup_id t
  = (fun r => history.json_loads <$> history.extra r)
      <$> history.rows t !! backup_id.
Proof.
  unfold history.get_backup. by destruct (history.rows t !! backup_id).
Qed.

(** C9, amended: on an existing record, an update that supplies an extra
    map [E1] stores exactly [E1] in place of the previous extra-data, and
    an update that supplies only a status leaves the extra-data of every
    record as it was. *)
Theorem update_backup_extra (backup_id : Z) (status : option string)
        (E1 : dict) (t : history.table) (r : history.row history.json_text) :
  history.rows t !! backup_id = Some r ->
  history.extra
    <$> history.get_backup backup_id
          (history.update_backup backup_id status (Some E1) t).2
  = Some (Some E1)
  /\ forall (v : string) (other : Z),
       history.extra
         <$> history.get_backup other
               (history.update_backup backup_id (Some v) None t).2
       = history.extra <$> history.get_backup other t.
Proof.
  intros Hr. split.
  - rewrite get_backup_extra.
    destruct status as [v|]; cbn; rewrite lookup_alter, decide_True by done;
      by rewrite Hr.
  - intros v other. rewrite !get_backup_extra. cbn. rewrite lookup_alter.
    case_decide; [subst|done]. by rewrite Hr.
Qed.

Lemma update_backup_extra_witness :
  let t := (history.record_backup "now" "h" 5432 "db" "u" "/tmp/b" None
              (Some "created") None history.empty_table).2 in
  history.extra
    <$> history.get_backup 1
          (history.update_backup 1 None
             (Some ({[ "error" := Py.VStr "boom" ]} : dict)) t).2
  = Some (Some ({[ "error" := Py.VStr "boom" ]} : dict)).
Proof.
  intros t.
  refine (proj1 (update_backup_extra 1 None _ t _ _)).
  reflexivity.
Defined.

(** C9 as stated fails: the entry of the stored extra-data under a key
    that the new map lacks is gone after the update. *)
Lemma update_backup_replaces_extra :
  let E0 : dict := {[ "a" := Py.VInt 1 ]} in
  let E1 : dict := {[ "b" := Py.VInt 2 ]} in
  let t0 := (history.record_backup "now" "h" 5432 "db" "u" "/tmp/b" None
               (Some "created") (Some E0) history.empty_table).2 in
  let t1 := (history.update_backup 1 None (Some E1) t0).2 in
  history.extra <$> history.get_backup 1 t0 = Some (Some E0)
  /\ history.extra <$> history.get_backup 1 t1 = Some (Some E1)
  /\ spec.merged E0 E1 !! "a" = Some (Py.VInt 1)
  /\ E1 !! "a" = None.
Proof. vm_compute. done. Qed.


(** ** cli.py: the mirror workflow *)

Import Py runtime.

Import Py runtime logic.

Section Rules.
Context {A B : Type}.
Implicit Types (Q : res A -> state -> Prop) (s : state).

Lemma wp_ret (a : A) Q s : Q (Ok a) s -> wp (mret a) Q s.
Proof. done. Qed.

Lemma wp_raise (e : exn) Q s : Q (Raise e) s -> wp (raise e) Q s.
Proof. done. Qed.

Lemma wp_sys_exit (code : Z) Q s :
  Q (Raise (SystemExit code)) s -> wp (sys_exit code) Q s.
Proof. done. Qed.

Lemma wp_get (proj : state -> A) Q s : Q (Ok (proj s)) s -> wp (get proj) Q s.
Proof. done. Qed.

Lemma wp_ask (c : call) (answer : res A) Q s :
  Q answer (record_event (Called c) s) -> wp (ask c answer) Q s.
Proof. done. Qed.

Lemma wp_bind (m : M A) (f : A -> M B) (Q : res B -> state -> Prop) s :
  wp m (fun r s' => match r with
                    | Ok a => wp (f a) Q s'
                    | Raise e => Q (Raise e) s'
                    end) s ->
  wp (m ≫= f) Q s.
Proof.
  unfold wp, mbind, M_bind. destruct (m s) as [[a|e] s']; cbn; done.
Qed.

Lemma wp_try_except (m : M A) (handler : string -> string -> M A) Q s :
  wp m (fun r s' => match r with
                    | Raise (Exception cls text) => wp (handler cls text) Q s'
                    | _ => Q r s'
                    end) s ->
  wp (try_except m handler) Q s.
Proof.
  unfold wp, try_except. destruct (m s) as [[a|[cls text|code|]] s']; done.
Qed.

Lemma wp_try_except_class (C : string) (m : M A) (handler : string -> M A)
      Q s :
  wp m (fun r s' => match r with
                    | Raise (Exception cls text) =>
                        if String.eqb cls C then wp (handler text) Q s'
                        else Q r s'
                    | _ => Q r s'
                    end) s ->
  wp (try_except_class C m handler) Q s.
Proof.
  unfold wp, try_except_class.
  destruct (m s) as [[a|[cls text|code|]] s']; try done.
  cbn. by destruct (String.eqb cls C).
Qed.

Lemma wp_try_finally (m : M A) (final : M unit) Q s :
  wp m (fun r s' =>
          wp final (fun r' s'' => match r' with
                                  | Ok _ => Q r s''
                                  | Raise e => Q (Raise e) s''
                                  end) s') s ->
  wp (try_finally m final) Q s.
Proof.
  unfold wp, try_finally. destruct (m s) as [r s']. cbn.
  by destruct (final s') as [[[]|e] s''].
Qed.

Lemma wp_mono (m : M A) (Q Q' : res A -> state -> Prop) s :
  wp m Q' s -> (forall r s', Q' r s' -> Q r s') -> wp m Q s.
Proof. unfold wp. auto. Qed.

End Rules.

Lemma wp_modify (f : state -> state) (Q : res unit -> state -> Prop) s :
  Q (Ok tt) (f s) -> wp (modify f) Q s.
Proof. done. Qed.

Lemma wp_emit (ev : event) (Q : res unit -> state -> Prop) s :
  Q (Ok tt) (record_event ev s) -> wp (emit ev) Q s.
Proof. done. Qed.

Lemma wp_log file lvl line args (Q : res unit -> state -> Prop) s :
  Q (Ok tt) (record_event (Logged (LogCall lvl file line args)) s) ->
  wp (runtime.log file lvl line args) Q s.
Proof. done. Qed.

Lemma emit_logs_run (rs : list log_record) (s : state) :
  emit_logs rs s = (Ok tt, add_logs rs s).
Proof.
  revert s. induction rs as [|r rs IH]; intros s; [done|].
  cbn. unfold mbind, M_bind. cbn. apply IH.
Qed.

Lemma wp_emit_logs rs (Q : res unit -> state -> Prop) s :
  Q (Ok tt) (add_logs rs s) -> wp (emit_logs rs) Q s.
Proof. unfold wp. by rewrite emit_logs_run. Qed.

(** Symbolic execution of a statement, one construct at a time. *)

Ltac state_simpl :=
  cbn [backup_file target_database hooks_executados_com_sucesso ledger files
       trace record_event set_backup_file set_target_database
       set_hooks_executados_com_sucesso set_ledger set_files fst snd
       cli.override source_host source_port source_database source_user
       source_password target_host target_port target_user target_password
       parallel_jobs drop_existing
       system_checks loaded_config FORTEPLUS_TOKEN EMAIL_USUARIO pg_dump
       st_size utcnow sqlite_insert sqlite_update get_assinatura
       post_assinatura post_assinante_usuario psql_exists psql_terminate
       psql_drop psql_create pg_restore key_pressed admin_email_updated].


Ltac state_simpl_all :=
  cbn [backup_file target_database hooks_executados_com_sucesso ledger files
       trace record_event set_backup_file set_target_database
       set_hooks_executados_com_sucesso set_ledger set_files fst snd
       cli.override source_host source_port source_database source_user
       source_password target_host target_port target_user target_password
       parallel_jobs drop_existing
       system_checks loaded_config FORTEPLUS_TOKEN EMAIL_USUARIO pg_dump
       st_size utcnow sqlite_insert sqlite_update get_assinatura
       post_assinatura post_assinante_usuario psql_exists psql_terminate
       psql_drop psql_create pg_restore key_pressed admin_email_updated]
    in *.

(** The answers of the world as variables, with the known ones put in. *)
Ltac open_world w :=
  destruct w; unfold observe.backed_up, observe.catchable in *;
  cbn [system_checks loaded_config FORTEPLUS_TOKEN EMAIL_USUARIO pg_dump
       st_size utcnow sqlite_insert sqlite_update get_assinatura
       post_assinatura post_assinante_usuario psql_exists psql_terminate
       psql_drop psql_create pg_restore key_pressed admin_email_updated]
    in *.

(** The blocks of [mirror] up to the hooks; the target preparation and
    the restore stay folded. *)
Ltac unfold_hooks_blocks :=
  unfold cli.mirror, cli.mirror_body, cli.after_backup, cli.mirror_finally,
    cli.history_and_hooks, cli.hooks_flow, cli.record_backup,
    cli.update_backup, backup.create_backup, backup.cleanup_backup,
    hooks.obter_dados_assinatura_producao,
    hooks.clonar_assinatura_desenvolvimento,
    hooks.criar_assinante_usuario_desenvolvimento,
    hooks.gerar_nome_banco_dados_call.

Ltac use_answer x :=
  match goal with
  | H : x = _ |- _ => rewrite H
  end.

Ltac use_inside x :=
  match goal with
  | H : ?l = _ |- _ => match x with context [l] => rewrite H end
  end.

Ltac compute_test x :=
  let x' := eval cbn [negb andb orb truthy_opt Py.truthy Py.bool_of] in x in
  progress change x with x'.

Ltac case_on x :=
  first [ use_answer x
        | use_inside x
        | compute_test x
        | is_var x; destruct x
        | let E := fresh "E" in destruct x eqn:E ].

Ltac unfold_blocks :=
  unfold cli.mirror, cli.mirror_body, cli.after_backup,
    cli.target_and_restore, cli.mirror_finally,
    cli.history_and_hooks, cli.hooks_flow, cli.prepare_target,
    cli.restore_and_fix_up, cli.record_backup, cli.update_backup,
    backup.create_backup, backup.cleanup_backup,
    restore.restore_backup,
    database.check_database_exists, database.create_database,
    database.drop_and_create_database, database.run_checked,
    hooks.obter_dados_assinatura_producao,
    hooks.clonar_assinatura_desenvolvimento,
    hooks.criar_assinante_usuario_desenvolvimento,
    hooks.atualizar_email_usuario_admin_desenvolvimento,
    hooks.gerar_nome_banco_dados_call.

(** The postcondition under a name, so that the rules that mention it
    twice do not copy it. *)
Ltac name_post :=
  lazymatch goal with
  | |- wp ?m ?Q ?s =>
      tryif is_var Q then idtac
      else (let Q' := fresh "Q" in pose (Q' := Q); change (wp m Q' s))
  end.

Ltac wp_step :=
  lazymatch goal with
  | |- wp (mbind _ _) _ _ => name_post; apply wp_bind
  | |- wp (mret _) _ _ => apply wp_ret
  | |- wp (raise _) _ _ => apply wp_raise
  | |- wp (sys_exit _) _ _ => apply wp_sys_exit
  | |- wp (get _) _ _ => apply wp_get
  | |- wp (modify _) _ _ => apply wp_modify
  | |- wp (emit _) _ _ => apply wp_emit
  | |- wp (runtime.log _ _ _ _) _ _ => apply wp_log
  | |- wp (ask _ _) _ _ => apply wp_ask
  | |- wp (try_except _ _) _ _ => name_post; apply wp_try_except
  | |- wp (try_except_class _ _ _) _ _ =>
      name_post; apply wp_try_except_class
  | |- wp (emit_logs _) _ _ => apply wp_emit_logs
  | |- wp (cli.log _ _ _) _ _ => unfold cli.log
  | |- wp (hooks.log _ _ _) _ _ => unfold hooks.log
  | |- wp (database.log _ _ _) _ _ => unfold database.log
  | |- wp (subscript _ _) _ _ => unfold subscript
  | |- wp (if ?x then _ else _) _ _ => case_on x
  | |- wp (match ?x with _ => _ end) _ _ => case_on x
  | |- match ?x with _ => _ end => case_on x
  | |- if ?x then _ else _ => case_on x
  | |- ?Q _ _ => is_var Q; unfold Q; clear Q
  end; cbv beta iota zeta; state_simpl.

Ltac wp_run := repeat wp_step.


(** The record written for a backup, then updated once. *)
Lemma record_then_update (now host : string) (port : Z)
      (database username backup_path : string) (size_mb : option Q)
      (v : string) (extra : option dict) (t : history.table) :
  let inserted :=
    history.record_backup now host port database username backup_path
                          size_mb (Some "created") None t in
  inserted.1 = history.last_rowid t + 1
  /\ exists r,
       history.get_backup inserted.1
         (history.update_backup inserted.1 (Some v) extra inserted.2).2
       = Some r
       /\ history.status r = Some v
       /\ history.extra r = extra
       /\ history.backup_path r = backup_path
       /\ history.database r = database.
Proof.
  cbn. split; [done|]. unfold history.get_backup.
  destruct extra as [d|]; cbn; rewrite lookup_alter, decide_True by done;
    rewrite lookup_insert_eq; cbn; eauto 10.
Qed.


Lemma lookup_dict_truthy (d : dict) (k : string) (v : value) :
  d !! k = Some v -> history.dict_truthy d = true.
Proof.
  intros H. unfold history.dict_truthy. case_bool_decide; [|done].
  subst. by rewrite lookup_empty in H.
Qed.

Lemma key_truthy (nome key : string) :
  hooks.extrair_id_assinatura_do_nome_banco nome = Some key ->
  Py.truthy key = true.
Proof.
  unfold hooks.extrair_id_assinatura_do_nome_banco. intros H.
  apply match_pattern_lower in H.
  destruct H as (? & ? & ? & ? & _ & _ & _ & _ & Hne & _). by destruct key.
Qed.

(** *** How states grow *)

Lemma grows_refl C s : grows C s s.
Proof. exists []. by rewrite app_nil_r. Qed.

Lemma grows_trans C s1 s2 s3 : grows C s1 s2 -> grows C s2 s3 -> grows C s1 s3.
Proof.
  intros (e1 & H1 & F1) (e2 & H2 & F2). exists (e1 ++ e2).
  by rewrite H2, H1, app_assoc, forallb_app, F1, F2.
Qed.

Lemma grows_event C ev s s' :
  C ev = true -> grows C s s' -> grows C s (record_event ev s').
Proof.
  intros Hev (evs & H & F). exists (evs ++ [ev]). cbn.
  rewrite H, app_assoc, forallb_app, F. cbn. by rewrite Hev.
Qed.

Lemma grows_set_backup_file C v s s' :
  grows C s s' -> grows C s (set_backup_file v s').
Proof. done. Qed.

Lemma grows_set_target_database C v s s' :
  grows C s s' -> grows C s (set_target_database v s').
Proof. done. Qed.

Lemma grows_set_hooks C v s s' :
  grows C s s' -> grows C s (set_hooks_executados_com_sucesso v s').
Proof. done. Qed.

Lemma grows_set_ledger C v s s' : grows C s s' -> grows C s (set_ledger v s').
Proof. done. Qed.

Lemma grows_set_files C v s s' : grows C s s' -> grows C s (set_files v s').
Proof. done. Qed.

Lemma grows_add_logs C rs s s' :
  forallb (fun r => C (Logged r)) rs = true ->
  grows C s s' -> grows C s (add_logs rs s').
Proof.
  revert s'. induction rs as [|r rs IH]; intros s' Hrs Hs; [done|].
  cbn in Hrs. apply andb_true_iff in Hrs as [Hr Hrs].
  cbn. apply IH; [done|]. by apply grows_event.
Qed.

Lemma add_logs_vars rs s :
  backup_file (add_logs rs s) = backup_file s
  /\ target_database (add_logs rs s) = target_database s
  /\ hooks_executados_com_sucesso (add_logs rs s)
     = hooks_executados_com_sucesso s
  /\ ledger (add_logs rs s) = ledger s
  /\ files (add_logs rs s) = files s.
Proof.
  unfold add_logs. revert s. induction rs as [|r rs IH]; intros s; [done|].
  cbn [fold_left].
  destruct (IH (record_event (Logged r) s)) as (H1 & H2 & H3 & H4 & H5).
  by rewrite H1, H2, H3, H4, H5.
Qed.

(** Every logger call of the analysis is one of restore.py. *)
Lemma analyse_logs (stderr : string) (returncode : Z) :
  forallb (fun r => observe.is_log_of "restore.py" (Logged r))
          (restore.analyse stderr returncode).2 = true.
Proof.
  unfold restore.analyse.
  destruct (restore.critical_errors _) as [|e es].
  - destruct (0 <? _), ((returncode =? 0) || _), (Py.truthy stderr);
      reflexivity.
  - cbn [snd]. rewrite !forallb_app, !andb_true_iff. split_and!.
    + reflexivity.
    + induction (take 5 (e :: es)) as [|x xs IH]; [reflexivity|].
      cbn [map forallb]. rewrite IH. reflexivity.
    + destruct (5 <? _)%nat; reflexivity.
Qed.

Lemma forallb_weaken {X} (P Q : X -> bool) (l : list X) :
  (forall x, P x = true -> Q x = true) ->
  forallb P l = true -> forallb Q l = true.
Proof.
  intros HPQ. induction l as [|x l IH]; [done|]. cbn.
  intros [Hx Hl]%andb_true_iff. by rewrite (HPQ _ Hx), IH.
Qed.

Ltac grows_solve :=
  repeat first
    [ apply grows_refl
    | apply grows_set_backup_file
    | apply grows_set_target_database
    | apply grows_set_hooks
    | apply grows_set_ledger
    | apply grows_set_files
    | apply grows_event; [reflexivity|]
    | apply grows_add_logs;
      [ eapply forallb_weaken; [|apply analyse_logs];
        intros [? ? ? ?] Hlog; cbn in *; by rewrite Hlog, ?orb_true_r | ] ].


(** *** Statements that keep a relation between states *)

Section Stable.
Context {R : state -> state -> Prop} {C : event -> bool} `{!Frame R C}.

Lemma stable_ret {A} (a : A) : stable R (mret a).
Proof. intros s. apply frame_refl. Qed.

Lemma stable_raise {A} (e : exn) : stable R (@raise A e).
Proof. intros s. apply frame_refl. Qed.

Lemma stable_sys_exit {A} (code : Z) : stable R (@sys_exit A code).
Proof. intros s. apply frame_refl. Qed.

Lemma stable_get {A} (proj : state -> A) : stable R (get proj).
Proof. intros s. apply frame_refl. Qed.

Lemma stable_modify (f : state -> state) :
  (forall s, R s (f s)) -> stable R (modify f).
Proof. intros H s. apply H. Qed.

Lemma stable_emit (ev : event) : C ev = true -> stable R (emit ev).
Proof. intros H s. by apply frame_event. Qed.

Lemma stable_log file lvl line args :
  C (Logged (LogCall lvl file line args)) = true ->
  stable R (runtime.log file lvl line args).
Proof. intros H s. by apply frame_event. Qed.

Lemma stable_ask {A} (c : call) (answer : res A) :
  C (Called c) = true -> stable R (ask c answer).
Proof. intros H s. by apply (frame_event (Called c)). Qed.

Lemma stable_bind {A B} (m : M A) (f : A -> M B) :
  stable R m -> (forall a, stable R (f a)) -> stable R (m ≫= f).
Proof.
  intros Hm Hf s. specialize (Hm s). unfold mbind, M_bind.
  destruct (m s) as [[a|e] s']; cbn in *; [|done].
  eapply frame_trans; [exact Hm|apply Hf].
Qed.

Lemma stable_try_except {A} (m : M A) (handler : string -> string -> M A) :
  stable R m -> (forall cls text, stable R (handler cls text)) ->
  stable R (try_except m handler).
Proof.
  intros Hm Hh s. specialize (Hm s). unfold try_except.
  destruct (m s) as [[a|[cls text|code|]] s']; cbn in *; try done.
  eapply frame_trans; [exact Hm|apply Hh].
Qed.

Lemma stable_try_except_class {A} (cls : string) (m : M A)
      (handler : string -> M A) :
  stable R m -> (forall text, stable R (handler text)) ->
  stable R (try_except_class cls m handler).
Proof.
  intros Hm Hh s. specialize (Hm s). unfold try_except_class.
  destruct (m s) as [[a|[c text|code|]] s']; cbn in *; try done.
  destruct (String.eqb c cls); [|done].
  eapply frame_trans; [exact Hm|apply Hh].
Qed.

Lemma stable_emit_logs (rs : list log_record) :
  forallb (fun r => C (Logged r)) rs = true -> stable R (emit_logs rs).
Proof.
  induction rs as [|r rs IH]; cbn; intros H.
  - apply stable_ret.
  - apply andb_true_iff in H as [Hr Hrs].
    apply stable_bind; [by apply stable_emit|]. intros _. by apply IH.
Qed.

(** A statement that keeps [R], inside a larger one. *)
Lemma wp_stable {A} (m : M A) (Q : res A -> state -> Prop) s :
  stable R m -> (forall r s', R s s' -> Q r s') -> wp m Q s.
Proof. intros Hm HQ. apply HQ, Hm. Qed.

End Stable.

Global Instance phase_frame C : Frame (phase C) C.
Proof.
  split.
  - intros s. repeat split. apply grows_refl.
  - intros s1 s2 s3 (H1 & H2 & H3) (H4 & H5 & H6).
    repeat split; try congruence. by eapply grows_trans.
  - intros ev s H. repeat split. apply grows_event; [done|apply grows_refl].
Qed.

(** One construct of a statement that keeps a relation. *)
Ltac stable_step :=
  lazymatch goal with
  | |- stable _ (mbind _ _) => apply stable_bind; [|intros ?]
  | |- stable _ (mret _) => apply stable_ret
  | |- stable _ (raise _) => apply stable_raise
  | |- stable _ (sys_exit _) => apply stable_sys_exit
  | |- stable _ (get _) => apply stable_get
  | |- stable _ (modify _) => apply stable_modify; intros ?
  | |- stable _ (emit _) => apply stable_emit; reflexivity
  | |- stable _ (runtime.log _ _ _ _) => apply stable_log; reflexivity
  | |- stable _ (ask _ _) => apply stable_ask; reflexivity
  | |- stable _ (try_except _ _) => apply stable_try_except; [|intros ? ?]
  | |- stable _ (try_except_class _ _ _) =>
      apply stable_try_except_class; [|intros ?]
  | |- stable _ (cli.log _ _ _) => unfold cli.log
  | |- stable _ (hooks.log _ _ _) => unfold hooks.log
  | |- stable _ (database.log _ _ _) => unfold database.log
  | |- stable _ (subscript _ _) => unfold subscript
  | |- stable _ (if ?x then _ else _) => destruct x
  | |- stable _ (match ?x with _ => _ end) => destruct x
  | |- stable _ (let _ := _ in _) => cbv zeta
  end.

(** *** The phases of the workflow, for every world *)

(** Lines 135-261 leave [backup_file] and the files alone, and what they
    do is of the hooks phase. *)
Lemma history_and_hooks_phase w cfg assinatura_id path :
  stable (phase observe.is_hooks_event)
         (cli.history_and_hooks w cfg assinatura_id path).
Proof.
  unfold_blocks.
  repeat stable_step.
  all: repeat split; grows_solve.
Qed.

Global Instance quiet_frame C : Frame (quiet C) C.
Proof.
  split.
  - intros s. repeat split. apply grows_refl.
  - intros s1 s2 s3 (H1 & H2 & H3 & H4 & H5 & H6) (K1 & K2 & K3 & K4 & K5 & K6).
    repeat split; try congruence. by eapply grows_trans.
  - intros ev s H. repeat split. apply grows_event; [done|apply grows_refl].
Qed.

Ltac stable_logs :=
  apply stable_emit_logs; eapply forallb_weaken; [|apply analyse_logs];
  intros [? ? ? ?] Hlog;
  cbv beta iota delta
    [observe.is_body_event observe.is_hooks_event
     observe.is_prepare_phase_event observe.is_restore_phase_event
     observe.is_log_of] in *;
  rewrite Hlog; repeat first [rewrite orb_true_r | rewrite orb_true_l];
  reflexivity.

Ltac stable_run :=
  repeat first
    [ stable_step
    | lazymatch goal with |- stable _ (emit_logs _) => stable_logs end ].

(** Lines 272-301 change nothing but the trace. *)
Lemma prepare_target_quiet w cfg :
  stable (quiet observe.is_prepare_phase_event) (cli.prepare_target w cfg).
Proof. unfold_blocks. stable_run. Qed.

(** Lines 303-349 change nothing but the trace. *)
Lemma restore_and_fix_up_quiet w cfg assinatura_id path :
  stable (quiet observe.is_restore_phase_event)
         (cli.restore_and_fix_up w cfg assinatura_id path).
Proof. unfold_blocks. stable_run. Qed.

(** *** What a phase adds to an observation *)

Lemma adds_refl {X} (f : event -> option X) s : adds f [] s s.
Proof. unfold adds. by rewrite app_nil_r. Qed.

Lemma adds_event_none {X} (f : event -> option X) xs ev s s' :
  f ev = None -> adds f xs s s' -> adds f xs s (record_event ev s').
Proof.
  unfold adds. intros Hev H. cbn. rewrite omap_app, H. cbn.
  by rewrite Hev, app_nil_r.
Qed.

Lemma adds_event_some {X} (f : event -> option X) x ev s s' :
  f ev = Some x -> adds f [] s s' -> adds f [x] s (record_event ev s').
Proof.
  unfold adds. intros Hev H. cbn. rewrite omap_app, H. cbn.
  by rewrite Hev, app_nil_r.
Qed.

Lemma adds_add_logs {X} (f : event -> option X) xs rs s s' :
  (forall r, f (Logged r) = None) ->
  adds f xs s s' -> adds f xs s (add_logs rs s').
Proof.
  intros Hf. unfold add_logs. revert s'.
  induction rs as [|r rs IH]; intros s' H; [done|].
  cbn [fold_left]. apply IH. by apply adds_event_none.
Qed.

Ltac adds_solve :=
  repeat first
    [ apply adds_refl
    | apply adds_add_logs; [done|]
    | apply adds_event_none; [reflexivity|]
    | apply adds_event_some; [reflexivity|] ].

(** The restore is asked for once, against the target database. *)
Lemma restore_and_fix_up_restores w cfg assinatura_id path s :
  wp (cli.restore_and_fix_up w cfg assinatura_id path)
     (fun _ s' => adds observe.restore_of [target_database s] s s') s.
Proof.
  unfold_blocks. wp_run. all: adds_solve.
Qed.

(** The existence check is made once, for the target database. *)
Lemma prepare_target_checks w cfg s :
  wp (cli.prepare_target w cfg)
     (fun _ s' => adds observe.check_of [target_database s] s s') s.
Proof.
  unfold_blocks. wp_run. all: adds_solve.
Qed.

(** Whether the target preparation raises depends on the state only
    through the name of the target database. *)
Lemma prepare_target_result w cfg s s0 :
  target_database s = target_database s0 ->
  (cli.prepare_target w cfg s).1 = (cli.prepare_target w cfg s0).1.
Proof.
  intros Ht.
  change (wp (cli.prepare_target w cfg)
            (fun r _ => wp (cli.prepare_target w cfg)
                           (fun r0 _ => r = r0) s0) s).
  unfold_blocks. wp_run. all: reflexivity.
Qed.

(** *** Observations across a phase *)

Lemma grows_omap {X} (f : event -> option X) C s s' :
  (forall ev, C ev = true -> f ev = None) ->
  grows C s s' -> omap f (trace s') = omap f (trace s).
Proof.
  intros Hf (evs & -> & Hevs). rewrite omap_app.
  enough (omap f evs = []) as -> by apply app_nil_r.
  induction evs as [|ev evs IH]; [done|]. cbn in *.
  apply andb_true_iff in Hevs as [Hev Hevs]. by rewrite (Hf _ Hev), IH.
Qed.

Lemma grows_existsb (p : event -> bool) C s s' :
  (forall ev, C ev = true -> p ev = false) ->
  grows C s s' -> existsb p (trace s') = existsb p (trace s).
Proof.
  intros Hp (evs & -> & Hevs). rewrite existsb_app.
  enough (existsb p evs = false) as -> by apply orb_false_r.
  induction evs as [|ev evs IH]; [done|]. cbn in *.
  apply andb_true_iff in Hevs as [Hev Hevs]. by rewrite (Hp _ Hev), IH.
Qed.

Ltac each_event ev :=
  let lvl := fresh "lvl" in
  let file := fresh "file" in
  let line := fresh "line" in
  let args := fresh "args" in
  let c := fresh "c" in
  destruct ev as [[lvl file line args]| |c]; [| |destruct c]; cbn;
  try done.

Lemma body_event_no_cleanup ev :
  observe.is_body_event ev = true -> observe.cleanup_of ev = None.
Proof. each_event ev. Qed.

Lemma body_event_no_create ev :
  observe.is_body_event ev = true -> observe.is_create_event ev = false.
Proof. each_event ev. Qed.

(** Lines 135-349, after the backup, leave [backup_file] and the files
    alone. *)
Lemma after_backup_phase w cfg assinatura_id path :
  stable (phase observe.is_body_event)
         (cli.after_backup w cfg assinatura_id path).
Proof.
  unfold_blocks. stable_run.
  all: repeat split; grows_solve.
Qed.

(** The [try] of lines 123-354: whatever happens in it, the artifact, if
    one was created, is cleaned up once, and its file is gone. *)
Lemma mirror_try_cleanup w cfg assinatura_id s :
  (forall path, pg_dump w = Ok path -> path <> "") ->
  backup_file s = None ->
  observe.cleanups (trace s) = [] ->
  existsb observe.is_create_event (trace s) = false ->
  wp (try_finally (cli.mirror_body w cfg assinatura_id) cli.mirror_finally)
     (fun _ s' =>
        observe.cleanups (trace s')
        = match observe.artifact w (trace s') with
          | Some path => [path]
          | None => []
          end
        /\ forall path,
             observe.artifact w (trace s') = Some path -> path ∉ files s')
     s.
Proof.
  intros Hne Hbf Hcl Hcr. apply wp_try_finally.
  unfold cli.mirror_body, backup.create_backup, cli.mirror_finally.
  destruct (pg_dump w) as [path|e] eqn:Hdump.
  - specialize (Hne path eq_refl).
    assert (Htr : Py.truthy path = true) by by destruct path.
    wp_run.
    eapply (wp_stable (R := phase observe.is_body_event));
      [apply after_backup_phase|].
    intros r s' (Hbf' & Hfs' & Hg). state_simpl_all.
    wp_run. unfold backup.cleanup_backup. wp_run.
    pose proof (grows_omap observe.cleanup_of _ _ _ body_event_no_cleanup Hg)
      as Hc.
    pose proof (grows_existsb observe.is_create_event _ _ _
                  body_event_no_create Hg) as He.
    state_simpl_all. unfold observe.cleanups, observe.artifact in *.
    rewrite omap_app, existsb_app, Hc, He, omap_app, existsb_app, Hcl, Hcr,
      Hdump.
    cbn. split; [done|]. intros p [= <-].
    intros [_ Hn]%elem_of_difference. apply Hn. by apply elem_of_singleton.
  - wp_run. unfold observe.cleanups, observe.artifact in *.
    rewrite omap_app, existsb_app, Hcl, Hcr, Hdump. cbn.
    split; [reflexivity|done].
Qed.

(** C4: on every path out of [mirror], [cleanup_backup] is called exactly
    when [create_backup] returned an artifact, once and with its path, and
    the file is then no longer on disk. *)
Theorem mirror_cleans_up (w : world) (config_path : string)
        (jobs : option Z) (drop skip_checks : bool) (t : history.table)
        (fs : gset string) :
  (forall path, pg_dump w = Ok path -> path <> "") ->
  let out := cli.mirror w config_path jobs drop skip_checks (initial t fs) in
  observe.cleanups (trace out.2)
  = match observe.artifact w (trace out.2) with
    | Some path => [path]
    | None => []
    end
  /\ forall path,
       observe.artifact w (trace out.2) = Some path -> path ∉ files out.2.
Proof.
  intros Hne out. subst out.
  change (wp (cli.mirror w config_path jobs drop skip_checks)
            (fun _ s =>
               observe.cleanups (trace s)
               = match observe.artifact w (trace s) with
                 | Some path => [path]
                 | None => []
                 end
               /\ forall path,
                    observe.artifact w (trace s) = Some path ->
                    path ∉ files s)
            (initial t fs)).
  unfold cli.mirror. wp_run.
  all: try (apply mirror_try_cleanup; [exact Hne|reflexivity..]).
  all: split; [reflexivity|intros ? [=]].
Qed.

(** *** The steps before the [try] *)

Lemma grows_weaken (C C' : event -> bool) s s' :
  (forall ev, C ev = true -> C' ev = true) -> grows C s s' -> grows C' s s'.
Proof.
  intros H (evs & Htr & Hevs). exists evs. split; [done|].
  by eapply forallb_weaken.
Qed.

Lemma grows_filter (p : event -> bool) s s' :
  grows (fun ev => negb (p ev)) s s' ->
  List.filter p (trace s') = List.filter p (trace s).
Proof.
  intros (evs & -> & Hevs). rewrite List.filter_app.
  enough (List.filter p evs = []) as -> by apply app_nil_r.
  induction evs as [|ev evs IH]; [done|]. cbn in *.
  apply andb_true_iff in Hevs as [Hev Hevs].
  destruct (p ev); [done|]. by apply IH.
Qed.

(** When the system checks pass or are skipped and the configuration
    loads, [mirror] reaches its [try]. *)
Lemma mirror_prelude (w : world) (config_path : string) (jobs : option Z)
      (drop skip_checks : bool) (t : history.table) (fs : gset string)
      (cfg : config) (Q : res unit -> state -> Prop) :
  skip_checks = true \/ system_checks w = Ok tt ->
  loaded_config w = Ok cfg ->
  (forall s0,
     observe.started cfg t fs s0 ->
     wp (try_finally
           (cli.mirror_body w (cli.override cfg jobs drop)
              (hooks.extrair_id_assinatura_do_nome_banco (source_database cfg)))
           cli.mirror_finally) Q s0) ->
  wp (cli.mirror w config_path jobs drop skip_checks) Q (initial t fs).
Proof.
  intros Hskip Hcfg HQ. unfold cli.mirror.
  destruct Hskip as [->|Hchk]; [|destruct skip_checks]; cbn [negb]; wp_run.
  all: apply HQ; repeat split; eexists; (split; [reflexivity|]); reflexivity.
Qed.

Lemma started_no_restore cfg t fs s0 :
  observe.started cfg t fs s0 ->
  grows (fun ev => negb (observe.is_restore_event ev)) (initial t fs) s0.
Proof.
  intros (_ & _ & _ & _ & _ & evs & Htr & Hevs). exists evs.
  split; [done|]. eapply forallb_weaken; [|exact Hevs].
  intros ev. each_event ev.
  destruct (String.eqb_spec file "cli.py") as [->|]; [done|].
  by rewrite andb_false_l.
Qed.

(** C3: when a correlation key was resolved and the clone step raises,
    [restore_backup] is never invoked, the audit record gets the status
    hooks_failed with the error text in its extra-data, and the process
    exits with a status other than 0. *)
Theorem clone_failure_aborts (w : world) (config_path : string)
        (jobs : option Z) (drop skip_checks : bool) (t : history.table)
        (fs : gset string) (cfg : config) (key path : string)
        (dados : dict) (prod_id : value) (cls text : string) :
  observe.backed_up w skip_checks cfg path ->
  hooks.extrair_id_assinatura_do_nome_banco (source_database cfg) = Some key ->
  sqlite_insert w = None ->
  truthy_opt (FORTEPLUS_TOKEN w) = true ->
  get_assinatura w = Ok (Some dados) ->
  dados !! "id" = Some prod_id ->
  post_assinatura w = Raise (Exception cls text) ->
  sqlite_update w (Some "hooks_failed") = None ->
  let out := cli.mirror w config_path jobs drop skip_checks (initial t fs) in
  List.filter observe.is_restore_event (trace out.2) = []
  /\ (exists r,
        history.get_backup (history.last_rowid t + 1) (ledger out.2) = Some r
        /\ history.status r = Some "hooks_failed"
        /\ history.extra r = Some ({[ "error" := VStr text ]} : dict))
  /\ out.1 = Raise (SystemExit 1)
  /\ exit_status out.1 <> 0.
Proof.
  intros (Hskip & Hcfg & Hdump & Hstat) Hkey Hins Htok Hget Hid Hpost Hupd out.
  pose proof (key_truthy _ _ Hkey) as Hkey'.
  pose proof (lookup_dict_truthy _ _ _ Hid) as Hd.
  subst out.
  change (wp (cli.mirror w config_path jobs drop skip_checks)
            (fun r s =>
               List.filter observe.is_restore_event (trace s) = []
               /\ (exists r,
                     history.get_backup (history.last_rowid t + 1) (ledger s)
                     = Some r
                     /\ history.status r = Some "hooks_failed"
                     /\ history.extra r
                        = Some ({[ "error" := VStr text ]} : dict))
               /\ r = Raise (SystemExit 1)
               /\ exit_status r <> 0)
            (initial t fs)).
  apply (mirror_prelude _ _ _ _ _ _ _ cfg); [done..|].
  intros s0 Hs0.
  pose proof (grows_filter _ _ _ (started_no_restore _ _ _ _ Hs0)) as Hg0.
  destruct Hs0 as (Hbf0 & Htd0 & Hh0 & Hl0 & Hf0 & _).
  apply wp_try_finally. rewrite Hkey. unfold_hooks_blocks.
  open_world w. subst.
  destruct st_size0 as [size|[c e|c|]]; try done; wp_run.
  all: rewrite !List.filter_app, Hg0.
  all: split; [reflexivity|]; split; [|split; [reflexivity|done]].
  all: match goal with
       | |- context [history.record_backup ?a ?b ?c ?d ?e ?f ?g _ _ _] =>
           destruct (record_then_update a b c d e f g "hooks_failed"
                       (Some ({[ "error" := VStr text ]} : dict)) (ledger s0))
             as (Hrid & r & Hr & Hs & He & _)
       end.
  all: exists r; rewrite <- Hrid; split; [exact Hr|]; split; [exact Hs|exact He].
Qed.

(** *** Lines 272-349 as a whole *)

Lemma adds_trans {X} (f : event -> option X) xs ys s1 s2 s3 :
  adds f xs s1 s2 -> adds f ys s2 s3 -> adds f (xs ++ ys) s1 s3.
Proof. unfold adds. intros H1 H2. by rewrite H2, H1, app_assoc. Qed.

Lemma adds_grows {X} (f : event -> option X) C s s' :
  (forall ev, C ev = true -> f ev = None) -> grows C s s' -> adds f [] s s'.
Proof.
  intros Hf Hg. unfold adds. by rewrite (grows_omap f C s s' Hf Hg), app_nil_r.
Qed.

Lemma quiet_weaken (C C' : event -> bool) s s' :
  (forall ev, C ev = true -> C' ev = true) -> quiet C s s' -> quiet C' s s'.
Proof.
  intros H (H1 & H2 & H3 & H4 & H5 & Hg). repeat split; try done.
  by eapply grows_weaken.
Qed.

Ltac log_cases file line :=
  destruct (String.eqb_spec file "cli.py");
  destruct (Nat.eqb_spec line 266); subst; cbn in *; try done.

Lemma prepare_event_inert ev :
  observe.is_prepare_phase_event ev = true ->
  observe.restore_of ev = None /\ observe.abort_of ev = None
  /\ observe.cleanup_of ev = None.
Proof.
  unfold observe.abort_of. each_event ev. intros H. repeat split.
  log_cases file line.
Qed.

Lemma restore_event_inert ev :
  observe.is_restore_phase_event ev = true ->
  observe.check_of ev = None /\ observe.abort_of ev = None
  /\ observe.cleanup_of ev = None.
Proof.
  unfold observe.abort_of. each_event ev. intros H. repeat split.
  log_cases file line.
Qed.

(** Lines 272-349 change nothing but the trace: one existence check for
    the target database, and one restore against it when the target
    preparation does not raise. *)
Lemma target_and_restore_spec w cfg assinatura_id path s :
  wp (cli.target_and_restore w cfg assinatura_id path)
     (fun _ s' =>
        quiet observe.is_tail_event s s'
        /\ adds observe.check_of [target_database s] s s'
        /\ adds observe.restore_of
             (if observe.target_prepared w cfg (target_database s)
              then [target_database s] else []) s s'
        /\ adds observe.abort_of [] s s'
        /\ adds observe.cleanup_of [] s s') s.
Proof.
  unfold cli.target_and_restore. apply wp_bind.
  pose proof (prepare_target_quiet w cfg s) as Hq.
  pose proof (prepare_target_checks w cfg s) as Hc.
  pose proof (prepare_target_result w cfg s
                (set_target_database (target_database s)
                   (initial history.empty_table ∅)) eq_refl) as Hr.
  unfold observe.target_prepared. rewrite <- Hr. unfold wp in *.
  destruct (cli.prepare_target w cfg s) as [r s1]. cbn [fst snd] in *.
  assert (Hq' : quiet observe.is_tail_event s s1).
  { eapply quiet_weaken; [|exact Hq]. intros ev H.
    unfold observe.is_tail_event. by rewrite H. }
  destruct Hq as (_ & Ht1 & _ & _ & _ & Hg).
  pose proof (fun f H => adds_grows (X := string) f _ _ _ H Hg) as Hs.
  pose proof (adds_grows observe.abort_of _ _ _
                (fun ev H => proj1 (proj2 (prepare_event_inert ev H))) Hg)
    as Ha.
  pose proof (Hs observe.restore_of
                (fun ev H => proj1 (prepare_event_inert ev H))) as Hre.
  pose proof (Hs observe.cleanup_of
                (fun ev H => proj2 (proj2 (prepare_event_inert ev H)))) as Hcl.
  clear Hs. destruct r as [[]|e]; [|done].
  pose proof (restore_and_fix_up_quiet w cfg assinatura_id path s1) as Hq2.
  pose proof (restore_and_fix_up_restores w cfg assinatura_id path s1) as Hr2.
  unfold wp in *.
  destruct (cli.restore_and_fix_up w cfg assinatura_id path s1) as [r2 s2].
  cbn [fst snd] in *. rewrite Ht1 in Hr2.
  assert (Hq2' : quiet observe.is_tail_event s1 s2).
  { eapply quiet_weaken; [|exact Hq2]. intros ev H.
    unfold observe.is_tail_event. by rewrite H, orb_true_r. }
  destruct Hq2 as (_ & _ & _ & _ & _ & Hg2).
  pose proof (fun f H => adds_grows (X := string) f _ _ _ H Hg2) as Hs.
  pose proof (adds_grows observe.abort_of _ _ _
                (fun ev H => proj1 (proj2 (restore_event_inert ev H))) Hg2)
    as Ha2.
  pose proof (Hs observe.check_of
                (fun ev H => proj1 (restore_event_inert ev H))) as Hc2.
  pose proof (Hs observe.cleanup_of
                (fun ev H => proj2 (proj2 (restore_event_inert ev H)))) as Hcl2.
  split_and!.
  - by eapply frame_trans.
  - apply (adds_trans _ _ _ _ _ _ Hc Hc2).
  - apply (adds_trans _ _ _ _ _ _ Hre Hr2).
  - apply (adds_trans _ _ _ _ _ _ Ha Ha2).
  - apply (adds_trans _ _ _ _ _ _ Hcl Hcl2).
Qed.

Lemma prelude_event_inert ev :
  observe.is_prelude_event ev = true ->
  observe.check_of ev = None /\ observe.restore_of ev = None
  /\ observe.abort_of ev = None /\ observe.cleanup_of ev = None.
Proof.
  unfold observe.abort_of. each_event ev. intros H. repeat split.
  log_cases file line.
Qed.

Lemma omap_inert {X} (f : event -> option X) (C : event -> bool) evs :
  (forall ev, C ev = true -> f ev = None) ->
  forallb C evs = true -> omap f evs = [].
Proof.
  intros Hf. induction evs as [|ev evs IH]; [done|]. cbn.
  intros [Hev Hevs]%andb_true_iff. by rewrite (Hf _ Hev), IH.
Qed.

(** Nothing is checked, restored, aborted or cleaned up before the [try]. *)
Lemma started_inert cfg t fs s0 :
  observe.started cfg t fs s0 ->
  observe.checks (trace s0) = [] /\ observe.restores (trace s0) = []
  /\ observe.aborts (trace s0) = [] /\ observe.cleanups (trace s0) = [].
Proof.
  intros (_ & _ & _ & _ & _ & evs & -> & Hevs).
  split_and!; eapply omap_inert; try exact Hevs; intros ev H;
    apply prelude_event_inert in H; tauto.
Qed.

(** C5: when a correlation key was resolved and the fetch step returns an
    empty result, the audit record gets the status hooks_skipped, the
    target stays the source database name, and the workflow is not
    aborted: the target preparation checks that name, and the restore
    runs against it unless the target preparation raises. *)
Theorem empty_fetch_continues (w : world) (config_path : string)
        (jobs : option Z) (drop skip_checks : bool) (t : history.table)
        (fs : gset string) (cfg : config) (key path : string)
        (dados : option dict) :
  observe.backed_up w skip_checks cfg path ->
  hooks.extrair_id_assinatura_do_nome_banco (source_database cfg) = Some key ->
  sqlite_insert w = None ->
  truthy_opt (FORTEPLUS_TOKEN w) = true ->
  get_assinatura w = Ok dados ->
  observe.empty_result dados = true ->
  sqlite_update w (Some "hooks_skipped") = None ->
  let out := cli.mirror w config_path jobs drop skip_checks (initial t fs) in
  let prepared :=
    observe.target_prepared w (cli.override cfg jobs drop)
                            (source_database cfg) in
  (exists r,
     history.get_backup (history.last_rowid t + 1) (ledger out.2) = Some r
     /\ history.status r = Some "hooks_skipped")
  /\ target_database out.2 = source_database cfg
  /\ observe.aborts (trace out.2) = []
  /\ observe.checks (trace out.2) = [source_database cfg]
  /\ observe.restores (trace out.2)
     = (if prepared then [source_database cfg] else []).
Proof.
  intros (Hskip & Hcfg & Hdump & Hstat) Hkey Hins Htok Hget Hempty Hupd.
  intros out prepared.
  pose proof (key_truthy _ _ Hkey) as Hkey'.
  subst out prepared.
  change (wp (cli.mirror w config_path jobs drop skip_checks)
            (fun _ s =>
               (exists r,
                  history.get_backup (history.last_rowid t + 1) (ledger s)
                  = Some r
                  /\ history.status r = Some "hooks_skipped")
               /\ target_database s = source_database cfg
               /\ observe.aborts (trace s) = []
               /\ observe.checks (trace s) = [source_database cfg]
               /\ observe.restores (trace s)
                  = (if observe.target_prepared w
                          (cli.override cfg jobs drop) (source_database cfg)
                     then [source_database cfg] else []))
            (initial t fs)).
  apply (mirror_prelude _ _ _ _ _ _ _ cfg); [done..|].
  intros s0 Hs0.
  destruct (started_inert _ _ _ _ Hs0) as (Hc0 & Hr0 & Ha0 & Hcl0).
  destruct Hs0 as (Hbf0 & Htd0 & Hh0 & Hl0 & Hf0 & _).
  apply wp_try_finally. rewrite Hkey. unfold_hooks_blocks.
  open_world w. subst.
  assert (Hd : forall d, dados = Some d -> history.dict_truthy d = false).
  { intros d ->. by apply negb_true_iff. }
  clear Hempty.
  destruct dados as [d|]; [specialize (Hd d eq_refl)|clear Hd];
    (destruct st_size0 as [size|[c e|c|]]; try done; wp_run).
  all: eapply wp_mono; [apply target_and_restore_spec|];
    intros r s2 (Hq & Hc & Hr & Ha & Hcl);
    destruct Hq as (Hbf2 & Htd2 & _ & Hl2 & _ & _);
    unfold adds in *; state_simpl_all; wp_run.
  all: unfold observe.aborts, observe.checks, observe.restores in *;
    try rewrite Htd0 in Hc; try rewrite Htd0 in Hr; try rewrite Htd0 in Htd2;
    rewrite ?omap_app, Hc, Hr, Ha, Hl2, Htd2, ?omap_app, Hc0, Hr0, Ha0.
  all: split;
    [|split_and!; try reflexivity;
      destruct (observe.target_prepared _ _ _); reflexivity].
  all: match goal with
       | |- context [history.record_backup ?a ?b ?c ?d ?e ?f ?g _ _ _] =>
           destruct (record_then_update a b c d e f g "hooks_skipped"
                       None (ledger s0))
             as (Hrid & r0 & Hr0' & Hs0' & _)
       end.
  all: exists r0; rewrite <- Hrid; split; [exact Hr0'|exact Hs0'].
Qed.

Lemma tail_event_no_warning ev :
  observe.is_tail_event ev = true -> observe.warning_of 256 ev = None.
Proof.
  unfold observe.is_tail_event. each_event ev. destruct lvl; try done.
  destruct (String.eqb_spec file "cli.py");
    destruct (Nat.eqb_spec line 256); subst; cbn in *; done.
Qed.

Lemma prelude_event_no_warning ev :
  observe.is_prelude_event ev = true -> observe.warning_of 256 ev = None.
Proof.
  each_event ev. destruct lvl; try done.
  destruct (String.eqb_spec file "cli.py");
    destruct (Nat.eqb_spec line 256); subst; cbn in *; done.
Qed.

(** C6: when creating the audit record raises, then without a correlation
    key the failure is logged as a warning and the workflow goes on to
    the target preparation and the restore, and with a correlation key the
    workflow aborts with exit status 1 before either. *)
Theorem audit_record_failure (w : world) (config_path : string)
        (jobs : option Z) (drop skip_checks : bool) (t : history.table)
        (fs : gset string) (cfg : config) (path cls text : string) :
  observe.backed_up w skip_checks cfg path ->
  sqlite_insert w = Some (Exception cls text) ->
  let out := cli.mirror w config_path jobs drop skip_checks (initial t fs) in
  let key := hooks.extrair_id_assinatura_do_nome_banco (source_database cfg) in
  let prepared :=
    observe.target_prepared w (cli.override cfg jobs drop)
                            (source_database cfg) in
  (key = None ->
   omap (observe.warning_of 256) (trace out.2) = [[text]]
   /\ observe.aborts (trace out.2) = []
   /\ observe.checks (trace out.2) = [source_database cfg]
   /\ observe.restores (trace out.2)
      = (if prepared then [source_database cfg] else []))
  /\ (key <> None ->
      out.1 = Raise (SystemExit 1)
      /\ exit_status out.1 <> 0
      /\ observe.aborts (trace out.2) = [tt]
      /\ observe.checks (trace out.2) = []
      /\ observe.restores (trace out.2) = []).
Proof.
  intros (Hskip & Hcfg & Hdump & Hstat) Hins out key prepared.
  subst out prepared.
  change (wp (cli.mirror w config_path jobs drop skip_checks)
            (fun r s =>
               (key = None ->
                omap (observe.warning_of 256) (trace s) = [[text]]
                /\ observe.aborts (trace s) = []
                /\ observe.checks (trace s) = [source_database cfg]
                /\ observe.restores (trace s)
                   = (if observe.target_prepared w
                           (cli.override cfg jobs drop) (source_database cfg)
                      then [source_database cfg] else []))
               /\ (key <> None ->
                   r = Raise (SystemExit 1)
                   /\ exit_status r <> 0
                   /\ observe.aborts (trace s) = [tt]
                   /\ observe.checks (trace s) = []
                   /\ observe.restores (trace s) = []))
            (initial t fs)).
  apply (mirror_prelude _ _ _ _ _ _ _ cfg); [done..|].
  intros s0 Hs0.
  destruct (started_inert _ _ _ _ Hs0) as (Hc0 & Hr0 & Ha0 & Hcl0).
  assert (Hw0 : omap (observe.warning_of 256) (trace s0) = []).
  { destruct Hs0 as (_ & _ & _ & _ & _ & evs & -> & Hevs).
    eapply omap_inert; [apply prelude_event_no_warning|exact Hevs]. }
  destruct Hs0 as (Hbf0 & Htd0 & Hh0 & Hl0 & Hf0 & _).
  apply wp_try_finally. fold key.
  destruct key as [k|] eqn:Hkey.
  - pose proof (key_truthy _ _ Hkey) as Hk.
    unfold_hooks_blocks. open_world w. subst.
    destruct st_size0 as [size|[c e|c|]]; try done; wp_run.
    all: split; [done|intros _].
    all: unfold observe.aborts, observe.checks, observe.restores in *.
    all: rewrite ?omap_app, Hc0, Hr0, Ha0. 
    all: split_and!; try reflexivity; done.
  - unfold_hooks_blocks. open_world w. subst.
    destruct st_size0 as [size|[c e|c|]]; try done; wp_run.
    all: eapply wp_mono; [apply target_and_restore_spec|];
      intros r s2 (Hq & Hc & Hr & Ha & Hcl);
      pose proof (adds_grows _ _ _ _ tail_event_no_warning
                    (proj2 (proj2 (proj2 (proj2 (proj2 Hq)))))) as Hw;
      destruct Hq as (Hbf2 & Htd2 & _ & Hl2 & _ & _);
      unfold adds in *; state_simpl_all; wp_run.
    all: split; [intros _|done].
    all: unfold observe.aborts, observe.checks, observe.restores in *;
      try rewrite Htd0 in Hc; try rewrite Htd0 in Hr;
      rewrite ?omap_app, Hc, Hr, Ha, Hw, ?omap_app, Hc0, Hr0, Ha0, Hw0.
    all: split_and!; try reflexivity;
      destruct (observe.target_prepared _ _ _); reflexivity.
Qed.

(** *** Sample runs *)

(** The end-to-end scenario: the clone of subscription 77 has id 901, the
    restore runs against rj_d1_901_varejo, and the record ends as
    hooks_completed with the development id in its extra-data. *)
Example all_well_run :
  let out := examples.run examples.all_well in
  out.1 = Ok tt
  /\ target_database out.2 = "rj_d1_901_varejo"
  /\ observe.restores (trace out.2) = ["rj_d1_901_varejo"]
  /\ observe.cleanups (trace out.2) = ["/tmp/backup.dump"]
  /\ (history.get_backup 1 (ledger out.2)
        ≫= fun r => Some (history.status r,
                          history.extra r ≫= fun d => d !! "assinatura_id_dev"))
     = Some (Some "hooks_completed", Some (VInt 901)).
Proof. vm_compute. done. Qed.

Lemma clone_failure_aborts_witness :
  let out := examples.run examples.clone_fails in
  List.filter observe.is_restore_event (trace out.2) = []
  /\ (exists r,
        history.get_backup 1 (ledger out.2) = Some r
        /\ history.status r = Some "hooks_failed"
        /\ history.extra r = Some ({[ "error" := VStr "500" ]} : dict))
  /\ out.1 = Raise (SystemExit 1)
  /\ exit_status out.1 <> 0.
Proof.
  apply (clone_failure_aborts examples.clone_fails "config.json" None false
           false history.empty_table ∅ (examples.config_of "rj_d1_77_varejo")
           "77" "/tmp/backup.dump" (examples.subscription 77) (VInt 77)
           "HTTPStatusError" "500").
  - repeat split. by right.
  - vm_compute. reflexivity.
  - reflexivity.
  - reflexivity.
  - reflexivity.
  - vm_compute. reflexivity.
  - reflexivity.
  - reflexivity.
Defined.

Lemma mirror_cleans_up_witness :
  let out := examples.run examples.all_well in
  observe.cleanups (trace out.2)
  = match observe.artifact examples.all_well (trace out.2) with
    | Some path => [path]
    | None => []
    end
  /\ forall path,
       observe.artifact examples.all_well (trace out.2) = Some path ->
       path ∉ files out.2.
Proof.
  apply (mirror_cleans_up examples.all_well "config.json" None false false
           history.empty_table ∅).
  intros path [= <-]. discriminate.
Defined.

Lemma empty_fetch_continues_witness :
  let out := examples.run examples.fetch_empty in
  (exists r,
     history.get_backup 1 (ledger out.2) = Some r
     /\ history.status r = Some "hooks_skipped")
  /\ target_database out.2 = "rj_d1_77_varejo"
  /\ observe.aborts (trace out.2) = []
  /\ observe.checks (trace out.2) = ["rj_d1_77_varejo"]
  /\ observe.restores (trace out.2) = ["rj_d1_77_varejo"].
Proof.
  apply (empty_fetch_continues examples.fetch_empty "config.json" None false
           false history.empty_table ∅ (examples.config_of "rj_d1_77_varejo")
           "77" "/tmp/backup.dump" None).
  - repeat split. by right.
  - vm_compute. reflexivity.
  - reflexivity.
  - reflexivity.
  - reflexivity.
  - reflexivity.
  - reflexivity.
Defined.

Lemma audit_record_failure_witness :
  (let out := examples.run (examples.insert_fails "banco_invalido") in
   omap (observe.warning_of 256) (trace out.2) = [["disk I/O error"]]
   /\ observe.aborts (trace out.2) = []
   /\ observe.checks (trace out.2) = ["banco_invalido"]
   /\ observe.restores (trace out.2) = ["banco_invalido"])
  /\ (let out := examples.run (examples.insert_fails "rj_d1_77_varejo") in
      out.1 = Raise (SystemExit 1)
      /\ exit_status out.1 <> 0
      /\ observe.aborts (trace out.2) = [tt]
      /\ observe.checks (trace out.2) = []
      /\ observe.restores (trace out.2) = []).
Proof.
  split.
  - refine (proj1 (audit_record_failure
                     (examples.insert_fails "banco_invalido") "config.json"
                     None false false history.empty_table ∅
                     (examples.config_of "banco_invalido") "/tmp/backup.dump"
                     "OperationalError" "disk I/O error" _ _) _).
    + repeat split. by right.
    + reflexivity.
    + vm_compute. reflexivity.
  - refine (proj2 (audit_record_failure
                     (examples.insert_fails "rj_d1_77_varejo") "config.json"
                     None false false history.empty_table ∅
                     (examples.config_of "rj_d1_77_varejo") "/tmp/backup.dump"
                     "OperationalError" "disk I/O error" _ _) _).
    + repeat split. by right.
    + reflexivity.
    + vm_compute. discriminate.
Defined.


(** ** history.py: records and their updates *)


Lemma apply_well_formed (t : history.table) (o : journal.op) :
  journal.well_formed t -> journal.well_formed (journal.apply t o).
Proof.
  unfold journal.well_formed. intros [H0 Ht]. destruct o; cbn.
  - split; [lia|]. apply map_Forall_insert_2; cbn; [lia|].
    eapply map_Forall_impl; [exact Ht|]. cbn. intros k r [? ?]. lia.
  - unfold history.update_backup.
    destruct status as [v|], extra as [d|]; cbn; try done.
    all: split; [done|].
    all: intros k r; destruct (decide (k = backup_id)) as [->|Hne];
      [rewrite lookup_alter_eq|rewrite lookup_alter_ne by done; apply Ht].
    all: destruct (history.rows t !! backup_id) as [r0|] eqn:E; [|done].
    all: intros [= <-]; apply (Ht _ _ E).
Qed.

Lemma replay_well_formed (ops : list journal.op) :
  journal.well_formed (journal.replay ops).
Proof.
  unfold journal.replay.
  assert (H0 : journal.well_formed history.empty_table).
  { unfold journal.well_formed. cbn. split; [done|apply map_Forall_empty]. }
  revert H0. generalize history.empty_table.
  induction ops as [|o ops IH]; intros t Ht; [done|].
  cbn. apply IH. by apply apply_well_formed.
Qed.

(** X2: on a ledger built by any sequence of [record_backup] and
    [update_backup] calls, [record_backup] returns an id that no record
    has and leaves every existing record as it was; every id in use is
    positive and below the new one. *)
Theorem record_backup_fresh (ops : list journal.op) (now host : string)
        (port : Z) (database username backup_path : string)
        (size_mb : option Q) (status : option string) (extra : option dict) :
  let t := journal.replay ops in
  let inserted :=
    history.record_backup now host port database username backup_path
                          size_mb status extra t in
  history.get_backup inserted.1 t = None
  /\ (forall k r, history.get_backup k t = Some r ->
                  history.get_backup k inserted.2 = Some r)
  /\ (forall k, history.get_backup k t <> None ->
                0 < k < inserted.1).
Proof.
  intros t inserted. destruct (replay_well_formed ops) as [H0 Hwf].
  fold t in H0, Hwf.
  assert (Hnew : history.rows t !! (history.last_rowid t + 1) = None).
  { destruct (history.rows t !! _) as [r|] eqn:E; [|done].
    apply Hwf in E. lia. }
  subst inserted. cbn. split_and!.
  - unfold history.get_backup. by rewrite Hnew.
  - intros k r. unfold history.get_backup. cbn.
    destruct (decide (k = history.last_rowid t + 1)) as [->|Hne].
    + by rewrite Hnew.
    + by rewrite lookup_insert_ne.
  - intros k. unfold history.get_backup.
    destruct (history.rows t !! k) as [r|] eqn:E; [|done].
    intros _. apply Hwf in E. lia.
Qed.

(** X3: [update_backup] never creates a record, changes no record but the
    one with the given id, and in that one only the columns status and
    extra, each only when it is given. *)
Theorem update_backup_frame (backup_id : Z) (status : option string)
        (extra : option dict) (t : history.table) (k : Z) :
  let t' := (history.update_backup backup_id status extra t).2 in
  match history.get_backup k t with
  | None => history.get_backup k t' = None
  | Some r =>
      exists r',
        history.get_backup k t' = Some r'
        /\ history.id r' = history.id r
        /\ history.created_at r' = history.created_at r
        /\ history.host r' = history.host r
        /\ history.port r' = history.port r
        /\ history.database r' = history.database r
        /\ history.username r' = history.username r
        /\ history.backup_path r' = history.backup_path r
        /\ history.size_mb r' = history.size_mb r
        /\ history.status r'
           = (if decide (k = backup_id)
              then journal.or_else status (history.status r)
              else history.status r)
        /\ history.extra r'
           = (if decide (k = backup_id)
              then journal.or_else extra (history.extra r)
              else history.extra r)
  end.
Proof.
  cbn zeta. unfold history.get_backup, history.update_backup.
  destruct (decide (k = backup_id)) as [->|Hne].
  - destruct status as [v|], extra as [d|]; cbn;
      rewrite ?lookup_alter_eq;
      destruct (history.rows t !! backup_id) as [r|]; cbn; try done;
      eexists; (split; [reflexivity|]); cbn; split_and!; try done.
    all: by destruct (history.extra r) as [[?]|].
  - destruct status as [v|], extra as [d|]; cbn;
      rewrite ?lookup_alter_ne by done;
      destruct (history.rows t !! k) as [r|]; cbn; try done;
      eexists; (split; [reflexivity|]); cbn; split_and!; done.
Qed.

(** X4: two [update_backup] calls for the same id amount to one call in
    which each column takes the value that was given last. *)
Theorem update_backup_twice (backup_id : Z) (s1 s2 : option string)
        (e1 e2 : option dict) (t : history.table) :
  (history.update_backup backup_id s2 e2
     (history.update_backup backup_id s1 e1 t).2).2
  = (history.update_backup backup_id (journal.or_else s2 s1)
       (journal.or_else e2 e1) t).2.
Proof.
  unfold history.update_backup.
  destruct s1, e1, s2, e2; cbn; try done.
  all: unfold history.sql_update; cbn; f_equal.
  all: rewrite alter_alter_eq; apply alter_ext; intros r _; reflexivity.
Qed.

(** ** restore.py: the restore and its log *)

Lemma calls_app (tr tr' : list event) :
  events.calls (tr ++ tr') = events.calls tr ++ events.calls tr'.
Proof. apply omap_app. Qed.

Lemma logs_app (tr tr' : list event) :
  events.logs (tr ++ tr') = events.logs tr ++ events.logs tr'.
Proof. apply omap_app. Qed.

Lemma add_logs_trace (rs : list log_record) (s : state) :
  trace (add_logs rs s) = trace s ++ map Logged rs.
Proof.
  unfold add_logs. revert s. induction rs as [|r rs IH]; intros s; cbn.
  - by rewrite app_nil_r.
  - rewrite IH. cbn. by rewrite <- app_assoc.
Qed.

Lemma calls_logged (rs : list log_record) : events.calls (map Logged rs) = [].
Proof. by induction rs. Qed.

Lemma logs_logged (rs : list log_record) : events.logs (map Logged rs) = rs.
Proof. induction rs as [|r rs IH]; [done|]. cbn. by f_equal. Qed.

(** X5: [restore_backup] runs pg_restore exactly once and changes nothing
    but the trace; it never raises an [Exception]: one raised by the run
    gives [False], after the logger call of line 105. *)
Theorem restore_backup_contained (w : world) (backup_file host : string)
        (port : Z) (database user : string) (parallel_jobs : Z) (s : state) :
  let out := restore.restore_backup w backup_file host port database user
                                    parallel_jobs s in
  events.calls (trace out.2)
  = events.calls (trace s)
    ++ [PgRestore backup_file host port database user parallel_jobs]
  /\ out.1 = match pg_restore w with
             | Ok result => Ok (restore.analyse result.1 result.2).1
             | Raise (Exception _ _) => Ok false
             | Raise e => Raise e
             end
  /\ (forall cls text,
        pg_restore w = Raise (Exception cls text) ->
        List.last (events.logs (trace out.2)) (restore.log INFO 0 [])
        = restore.log ERROR 105 [text])
  /\ same_vars s out.2
  /\ files out.2 = files s.
Proof.
  intros out. subst out.
  change (wp (restore.restore_backup w backup_file host port database user
                                     parallel_jobs)
            (fun r s' =>
               events.calls (trace s')
               = events.calls (trace s)
                 ++ [PgRestore backup_file host port database user
                               parallel_jobs]
               /\ r = match pg_restore w with
                      | Ok result =>
                          Ok (restore.analyse result.1 result.2).1
                      | Raise (Exception _ _) => Ok false
                      | Raise e => Raise e
                      end
               /\ (forall cls text,
                     pg_restore w = Raise (Exception cls text) ->
                     List.last (events.logs (trace s'))
                               (restore.log INFO 0 [])
                     = restore.log ERROR 105 [text])
               /\ same_vars s s'
               /\ files s' = files s) s).
  unfold restore.restore_backup.
  destruct (pg_restore w) as [[stderr rc]|[cls text|code|]] eqn:Hw; wp_run.
  all: unfold events.calls, events.logs.
  all: rewrite ?add_logs_trace; state_simpl;
    rewrite !omap_app, ?(calls_logged _ : omap _ _ = []); cbn;
    rewrite ?app_nil_r.
  all: try destruct (add_logs_vars (restore.analyse stderr rc).2
         (record_event (Called (PgRestore backup_file host port database user
                                          parallel_jobs))
            (record_event (Logged (LogCall INFO "restore.py" 43
                                           [pretty parallel_jobs]))
               (record_event (Logged (LogCall INFO "restore.py" 42
                                              [database; host])) s))))
       as (V1 & V2 & V3 & V4 & V5).
  all: split_and!; try done.
  intros ? ? [= <- <-]. apply List.last_last.
Qed.

(** *** The classifier does not look at the case of letters *)

Lemma lower_char_idemp (c : ascii) :
  Py.lower_char (Py.lower_char c) = Py.lower_char c.
Proof. each_char c; reflexivity. Qed.

Lemma lower_idemp (s : string) : Py.lower (Py.lower s) = Py.lower s.
Proof.
  induction s as [|c s IH]; [done|]. cbn. by rewrite lower_char_idemp, IH.
Qed.

Lemma isspace_lower_char (c : ascii) :
  Py.isspace (Py.lower_char c) = Py.isspace c.
Proof. each_char c; reflexivity. Qed.

Lemma digit_val_lower_char (c : ascii) :
  Py.digit_val (Py.lower_char c) = Py.digit_val c.
Proof. each_char c; reflexivity. Qed.

Lemma eqb_lower_char_colon (c : ascii) :
  Ascii.eqb (Py.lower_char c) ":" = Ascii.eqb c ":".
Proof. each_char c; reflexivity. Qed.

Lemma eqb_lower_char_newline (c : ascii) :
  Ascii.eqb (Py.lower_char c) "010" = Ascii.eqb c "010".
Proof. each_char c; reflexivity. Qed.

Lemma eqb_lower_char_underscore (c : ascii) :
  Ascii.eqb (Py.lower_char c) "_" = Ascii.eqb c "_".
Proof. each_char c; reflexivity. Qed.

Lemma split_lower (sep : ascii) (s : string) :
  (forall c, Ascii.eqb (Py.lower_char c) sep = Ascii.eqb c sep) ->
  Py.split sep (Py.lower s) = map Py.lower (Py.split sep s).
Proof.
  intros Hsep. induction s as [|c s IH]; [done|]. cbn.
  rewrite Hsep, IH. destruct (Ascii.eqb c sep); [done|].
  by destruct (Py.split sep s).
Qed.

Lemma last_map_lower (l : list string) :
  List.last (map Py.lower l) "" = Py.lower (List.last l "").
Proof.
  induction l as [|x l IH]; [done|]. cbn [map].
  destruct l as [|y l]; [done|]. exact IH.
Qed.

Lemma lstrip_lower (s : string) :
  Py.lstrip (Py.lower s) = Py.lower (Py.lstrip s).
Proof.
  induction s as [|c s IH]; [done|]. cbn.
  rewrite isspace_lower_char. by destruct (Py.isspace c).
Qed.

Lemma rstrip_lower (s : string) :
  Py.rstrip (Py.lower s) = Py.lower (Py.rstrip s).
Proof.
  induction s as [|c s IH]; [done|]. cbn.
  rewrite IH, isspace_lower_char.
  destruct (Py.rstrip s); cbn; [|done]. by destruct (Py.isspace c).
Qed.

Lemma strip_lower (s : string) : Py.strip (Py.lower s) = Py.lower (Py.strip s).
Proof. unfold Py.strip. by rewrite lstrip_lower, rstrip_lower. Qed.

Lemma int_digits_lower (acc : Z) (n : nat) (b : bool) (s : string) :
  Py.int_digits acc n b (Py.lower s) = Py.int_digits acc n b s.
Proof.
  revert acc n b. induction s as [|c s IH]; intros acc n b; [done|]. cbn.
  rewrite eqb_lower_char_underscore, digit_val_lower_char.
  destruct (Ascii.eqb c "_"); [by destruct b|].
  by destruct (Py.digit_val c).
Qed.

Lemma int_lower (s : string) : Py.int (Py.lower s) = Py.int s.
Proof.
  unfold Py.int. rewrite strip_lower.
  destruct (Py.strip s) as [|c r]; [done|]. cbn [Py.lower].
  each_char c;
    match goal with
    | |- context [Py.lower_char ?x] =>
        let y := eval vm_compute in (Py.lower_char x) in
        change (Py.lower_char x) with y
    end;
    cbn -[Py.int_digits]; rewrite ?int_digits_lower; try done.
  all: match goal with
       | |- context [Py.int_digits 0 0 false (String ?c (Py.lower ?x))] =>
           change (String c (Py.lower x)) with (Py.lower (String c x))
       end; by rewrite int_digits_lower.
Qed.

Lemma trailing_count_lower (line : string) :
  Py.int (Py.strip (List.last (Py.split ":" (Py.lower line)) ""))
  = Py.int (Py.strip (List.last (Py.split ":" line) "")).
Proof.
  rewrite (split_lower _ _ eqb_lower_char_colon), last_map_lower, strip_lower.
  apply int_lower.
Qed.

Lemma attributed_lower (line : string) :
  spec.attributed (Py.lower line) = spec.attributed line.
Proof. unfold spec.attributed. by rewrite lower_idemp. Qed.

Lemma benign_lower (line : string) :
  spec.benign (Py.lower line) = spec.benign line.
Proof. unfold spec.benign. by rewrite lower_idemp. Qed.

Lemma summary_count_lower (line : string) :
  spec.summary_count (Py.lower line) = spec.summary_count line.
Proof.
  unfold spec.summary_count. by rewrite lower_idemp, trailing_count_lower.
Qed.

Lemma filter_map_lower (p : string -> bool) (l : list string) :
  (forall x, p (Py.lower x) = p x) ->
  List.filter p (map Py.lower l) = map Py.lower (List.filter p l).
Proof.
  intros Hp. induction l as [|x l IH]; [done|]. cbn. rewrite Hp, IH.
  by destruct (p x).
Qed.

Lemma omap_map_lower {X} (f : string -> option X) (l : list string) :
  (forall x, f (Py.lower x) = f x) -> omap f (map Py.lower l) = omap f l.
Proof.
  intros Hf. induction l as [|x l IH]; [done|]. cbn. by rewrite Hf, IH.
Qed.

(** The scan of a text and of the text in lower case: as many critical
    lines, and the same count. *)
Lemma scan_stderr_lower (stderr : string) :
  length (restore.critical_errors (restore.scan_stderr (Py.lower stderr)))
  = length (restore.critical_errors (restore.scan_stderr stderr))
  /\ restore.warning_count (restore.scan_stderr (Py.lower stderr))
     = restore.warning_count (restore.scan_stderr stderr).
Proof.
  destruct (scan_stderr_spec stderr) as [-> ->].
  destruct (scan_stderr_spec (Py.lower stderr)) as [-> ->].
  unfold spec.offending, spec.parsed_count, spec.lines.
  rewrite (split_lower _ _ eqb_lower_char_newline). split.
  - rewrite filter_map_lower, !length_map; [done|].
    intros x. by rewrite attributed_lower, benign_lower.
  - by rewrite (omap_map_lower _ _ summary_count_lower).
Qed.

(** X6: the classifier does not look at the case of letters: two
    diagnostic texts that agree once lowercased get the same verdict, as
    many critical lines and the same warning count. *)
Theorem analyse_ignores_case (a b : string) (returncode : Z) :
  Py.lower a = Py.lower b ->
  (restore.analyse a returncode).1 = (restore.analyse b returncode).1
  /\ length (restore.critical_errors (restore.scan_stderr a))
     = length (restore.critical_errors (restore.scan_stderr b))
  /\ restore.warning_count (restore.scan_stderr a)
     = restore.warning_count (restore.scan_stderr b).
Proof.
  intros H.
  destruct (scan_stderr_lower a) as [Ha Hwa].
  destruct (scan_stderr_lower b) as [Hb Hwb].
  rewrite H in Ha, Hwa. rewrite Hb in Ha. rewrite Hwb in Hwa.
  rewrite !analyse_result, Hwa. split_and!; try done.
  destruct (restore.critical_errors (restore.scan_stderr a)),
    (restore.critical_errors (restore.scan_stderr b)); done.
Qed.

Lemma analyse_ignores_case_witness :
  (restore.analyse "pg_restore: error: could not execute query" 0).1
  = (restore.analyse "PG_RESTORE: ERROR: Could Not Execute Query" 0).1.
Proof.
  apply (analyse_ignores_case "pg_restore: error: could not execute query"
           "PG_RESTORE: ERROR: Could Not Execute Query" 0).
  reflexivity.
Defined.

(** X7: whatever the size of the diagnostic text, the analysis makes at
    most seven logger calls, and line 86 lists the first five critical
    lines only, in order. *)
Theorem analyse_log_bounded (stderr : string) (returncode : Z) :
  let errors := restore.critical_errors (restore.scan_stderr stderr) in
  let logged := (restore.analyse stderr returncode).2 in
  (length logged <= 7)%nat
  /\ List.filter (events.is_line 86) logged
     = map (fun error => restore.log ERROR 86 [error]) (take 5 errors)
  /\ (length (List.filter (events.is_line 86) logged) <= 5)%nat.
Proof.
  intros errors logged. subst logged. unfold restore.analyse. fold errors.
  assert (Hf : forall l,
             List.filter (events.is_line 86)
                         (map (fun error => restore.log ERROR 86 [error]) l)
             = map (fun error => restore.log ERROR 86 [error]) l).
  { induction l as [|x l IH]; [done|]. cbn. by rewrite IH. }
  destruct errors as [|e es] eqn:E.
  - destruct (0 <? _), ((returncode =? 0) || _), (Py.truthy stderr); cbn;
      split_and!; try done; lia.
  - assert (Hn : (length (take 5 (e :: es)) <= 5)%nat).
    { rewrite length_take. lia. }
    revert Hn. generalize (take 5 (e :: es)). intros l Hn.
    cbn [snd]. rewrite !List.filter_app, Hf, !length_app, !length_map.
    destruct (5 <? length (e :: es))%nat; cbn; rewrite ?app_nil_r;
      split_and!; try done; rewrite ?length_map; lia.
Qed.

(** ** hooks.py: names that are generated and read back *)

Lemma keep_app (p : ascii -> bool) (a b : string) :
  spec.keep p (a +:+ b) = spec.keep p a +:+ spec.keep p b.
Proof.
  induction a as [|c a IH]; [done|]. push_append. cbn.
  rewrite IH. by destruct (p c).
Qed.

Lemma keep_digits (k : string) :
  spec.all_chars Py.isdigit k = true -> spec.keep spec.is_name_char k = k.
Proof.
  induction k as [|c k IH]; [done|]. cbn [spec.keep spec.all_chars].
  intros [Hc Hk]%andb_true_iff.
  assert (Hn : spec.is_name_char c = true).
  { unfold spec.is_name_char. by rewrite Hc, orb_true_r. }
  by rewrite Hn, IH.
Qed.

Lemma lower_char_letter (c : ascii) :
  spec.is_ascii_letter c = true ->
  spec.is_ascii_letter (Py.lower_char c) = true
  /\ spec.is_name_char (Py.lower_char c) = true.
Proof. each_char c; intros H; try discriminate H; split; reflexivity. Qed.

(** X8: a name generated for a region of two ASCII letters and a
    non-empty decimal id encodes that id:
    [extrair_id_assinatura_do_nome_banco] reads it back, whatever the
    display name. *)
Theorem gerar_then_extrair (pk nome : string) (u1 u2 : ascii) :
  spec.is_ascii_letter u1 = true ->
  spec.is_ascii_letter u2 = true ->
  pk <> "" ->
  spec.all_chars Py.isdigit pk = true ->
  hooks.extrair_id_assinatura_do_nome_banco
    (hooks.gerar_nome_banco_dados pk nome (String u1 (String u2 "")))
  = Some pk.
Proof.
  intros H1 H2 Hne Hd.
  destruct (lower_char_letter _ H1) as [L1 N1].
  destruct (lower_char_letter _ H2) as [L2 N2].
  unfold hooks.extrair_id_assinatura_do_nome_banco.
  apply match_pattern_lower.
  exists (Py.lower_char u1), (Py.lower_char u2), "_d1_",
    (spec.keep spec.is_name_char (Py.lower (List.hd "" (Py.split " " nome)))).
  split_and!; try done.
  unfold hooks.gerar_nome_banco_dados. rewrite sub_non_word_keep.
  cbn [Py.lower]. push_append. cbn [spec.keep]. rewrite N1, N2.
  do 2 f_equal. rewrite !keep_app, (keep_digits _ Hd). reflexivity.
Qed.

Lemma gerar_then_extrair_witness :
  hooks.extrair_id_assinatura_do_nome_banco
    (hooks.gerar_nome_banco_dados "901" "Varejo Ltda" "RJ")
  = Some "901".
Proof.
  apply (gerar_then_extrair "901" "Varejo Ltda" "R" "J"); done.
Defined.

(** X9: the id read from a name depends on its prefix only: text appended
    to a name that encodes an id does not change the id. *)
Theorem extrair_ignores_suffix (nome_banco key suffix : string) :
  hooks.extrair_id_assinatura_do_nome_banco nome_banco = Some key ->
  hooks.extrair_id_assinatura_do_nome_banco (nome_banco +:+ suffix)
  = Some key.
Proof.
  unfold hooks.extrair_id_assinatura_do_nome_banco. intros H.
  apply match_pattern_lower in H
    as (c1 & c2 & marker & slug & -> & H1 & H2 & Hm & Hne & Hd).
  apply match_pattern_lower.
  exists c1, c2, marker, (slug +:+ suffix). split_and!; try done.
  push_append. by rewrite !append_assoc.
Qed.

Lemma extrair_ignores_suffix_witness :
  hooks.extrair_id_assinatura_do_nome_banco ("sp_d1_123_acme" +:+ "_copy")
  = Some "123".
Proof.
  apply (extrair_ignores_suffix "sp_d1_123_acme" "123" "_copy").
  vm_compute. reflexivity.
Defined.

(** ** database.py: the psql commands *)

(** X10: [check_database_exists] issues one psql command and changes
    nothing but the trace; it answers [True] exactly when psql printed 1,
    white space aside, and an [Exception] of the run gives [False]. *)
Theorem check_database_exists_contained (w : world) (database : string)
        (s : state) :
  let out := database.check_database_exists w database s in
  out.1 = match psql_exists w with
          | Ok stdout => Ok (String.eqb (Py.strip stdout) "1")
          | Raise (Exception _ _) => Ok false
          | Raise e => Raise e
          end
  /\ events.calls (trace out.2)
     = events.calls (trace s) ++ [Psql database "SELECT 1 FROM pg_database"]
  /\ same_vars s out.2
  /\ files out.2 = files s.
Proof.
  intros out. subst out.
  change (wp (database.check_database_exists w database)
            (fun r s' =>
               r = match psql_exists w with
                   | Ok stdout => Ok (String.eqb (Py.strip stdout) "1")
                   | Raise (Exception _ _) => Ok false
                   | Raise e => Raise e
                   end
               /\ events.calls (trace s')
                  = events.calls (trace s)
                    ++ [Psql database "SELECT 1 FROM pg_database"]
               /\ same_vars s s'
               /\ files s' = files s) s).
  unfold database.check_database_exists.
  destruct (psql_exists w) as [stdout|[cls text|code|]]; wp_run.
  all: unfold events.calls; rewrite !omap_app; cbn; rewrite ?app_nil_r.
  all: by split_and!.
Qed.


(** ** cli.py: what every run of mirror keeps to *)

Global Instance grows_frame C : Frame (grows C) C.
Proof.
  split.
  - apply grows_refl.
  - apply grows_trans.
  - intros ev s H. apply grows_event; [done|apply grows_refl].
Qed.

Lemma stable_try_finally {R : state -> state -> Prop} {C : event -> bool}
      `{!Frame R C} {A} (m : M A) (final : M unit) :
  stable R m -> stable R final -> stable R (try_finally m final).
Proof.
  intros Hm Hf s. specialize (Hm s). unfold try_finally.
  destruct (m s) as [r s']. specialize (Hf s').
  destruct (final s') as [[[]|e] s'']; cbn in *; by eapply frame_trans.
Qed.

Lemma forallb_logged (C : event -> bool) (rs : list log_record) :
  (forall r, C (Logged r) = true) ->
  forallb (fun r => C (Logged r)) rs = true.
Proof. intros H. induction rs as [|r rs IH]; [done|]. cbn. by rewrite H. Qed.

(** One construct of a statement that keeps a relation, with [side] for
    the events it adds. *)
Ltac stable_step_with side :=
  lazymatch goal with
  | |- stable _ (mbind _ _) => apply stable_bind; [|intros ?]
  | |- stable _ (mret _) => apply stable_ret
  | |- stable _ (raise _) => apply stable_raise
  | |- stable _ (sys_exit _) => apply stable_sys_exit
  | |- stable _ (get _) => apply stable_get
  | |- stable _ (modify _) => apply stable_modify; intros ?; grows_solve
  | |- stable _ (emit _) => apply stable_emit; side
  | |- stable _ (runtime.log _ _ _ _) => apply stable_log; side
  | |- stable _ (ask _ _) => apply stable_ask; side
  | |- stable _ (try_except _ _) => apply stable_try_except; [|intros ? ?]
  | |- stable _ (try_except_class _ _ _) =>
      apply stable_try_except_class; [|intros ?]
  | |- stable _ (try_finally _ _) => apply stable_try_finally
  | |- stable (grows ?C) (emit_logs ?rs) =>
      apply stable_emit_logs; apply (forallb_logged C rs); intros ?; side
  | |- stable _ (cli.log _ _ _) => unfold cli.log
  | |- stable _ (hooks.log _ _ _) => unfold hooks.log
  | |- stable _ (database.log _ _ _) => unfold database.log
  | |- stable _ (subscript _ _) => unfold subscript
  | |- stable _ (if ?x && false then _ else _) => rewrite (andb_false_r x)
  | |- stable _ (if ?x then _ else _) => destruct x
  | |- stable _ (match ?x with _ => _ end) => destruct x
  | |- stable _ (let _ := _ in _) => cbv zeta
  end.

Ltac allowed_side :=
  cbn; rewrite ?String.eqb_refl, ?Z.eqb_refl; reflexivity.

(** The [try] of lines 123-354 does only what the configuration allows. *)
Lemma mirror_try_allowed w cfg assinatura_id :
  stable (grows (policy.allowed cfg))
         (try_finally (cli.mirror_body w cfg assinatura_id)
                      cli.mirror_finally).
Proof.
  unfold_blocks. unfold policy.allowed, policy.psql_allowed.
  destruct (drop_existing cfg) eqn:Hd.
  all: repeat stable_step_with allowed_side.
Qed.

(** The two ways through lines 84-121: the command ends there, or it
    enters the [try] with the configuration loaded. *)
Lemma mirror_split (w : world) (config_path : string) (jobs : option Z)
      (drop skip_checks : bool) (t : history.table) (fs : gset string)
      (Q : res unit -> state -> Prop) :
  (forall e s,
     policy.ended_early skip_checks config_path t fs s -> Q (Raise e) s) ->
  (forall cfg s0,
     loaded_config w = Ok cfg ->
     observe.started cfg t fs s0 ->
     events.calls (trace s0) = policy.prelude_calls skip_checks config_path ->
     wp (try_finally
           (cli.mirror_body w (cli.override cfg jobs drop)
              (hooks.extrair_id_assinatura_do_nome_banco (source_database cfg)))
           cli.mirror_finally) Q s0) ->
  wp (cli.mirror w config_path jobs drop skip_checks) Q (initial t fs).
Proof.
  intros Hearly Htry. unfold cli.mirror.
  destruct skip_checks; cbn [negb]; wp_run.
  all: try (apply Hearly; repeat split; try reflexivity; intros [=]).
  all: apply (Htry _ _ eq_refl); [|reflexivity]; repeat split; eexists;
    (split; [reflexivity|]); reflexivity.
Qed.

(** Every run of [mirror] is a prelude, in which only the system checks and
    the configuration are asked for, and then what the loaded
    configuration allows. *)
Lemma mirror_trace (w : world) (config_path : string) (jobs : option Z)
      (drop skip_checks : bool) (t : history.table) (fs : gset string) :
  let out := cli.mirror w config_path jobs drop skip_checks (initial t fs) in
  exists pre evs,
    trace out.2 = pre ++ evs
    /\ forallb observe.is_prelude_event pre = true
    /\ (skip_checks = true ->
        existsb policy.is_verify (events.calls pre) = false)
    /\ match loaded_config w with
       | Ok cfg =>
           forallb (policy.allowed (cli.override cfg jobs drop)) evs = true
       | Raise _ => evs = []
       end.
Proof.
  cbn zeta.
  change (wp (cli.mirror w config_path jobs drop skip_checks)
            (fun _ s =>
               exists pre evs,
                 trace s = pre ++ evs
                 /\ forallb observe.is_prelude_event pre = true
                 /\ (skip_checks = true ->
                     existsb policy.is_verify (events.calls pre) = false)
                 /\ match loaded_config w with
                    | Ok cfg =>
                        forallb (policy.allowed (cli.override cfg jobs drop))
                                evs = true
                    | Raise _ => evs = []
                    end)
            (initial t fs)).
  apply mirror_split.
  - intros _ s (_ & _ & Hpre & Hskip). exists (trace s), [].
    rewrite app_nil_r. split_and!; try done.
    + intros Hs. by rewrite (Hskip Hs).
    + by destruct (loaded_config w).
  - intros cfg s0 Hcfg (_ & _ & _ & _ & _ & evs0 & Htr & Hevs0) Hcalls.
    eapply (wp_stable (R := grows (policy.allowed (cli.override cfg jobs drop))));
      [apply mirror_try_allowed|].
    intros _ s' (evs & Hs' & Hevs). exists (trace s0), evs.
    rewrite Hcfg, Htr. split_and!; try done.
    + by rewrite <- Htr.
    + intros ->. rewrite <- Htr, Hcalls. reflexivity.
Qed.

Lemma allowed_addressed (cfg : config) (evs : list event) :
  forallb (policy.allowed cfg) evs = true ->
  forallb (policy.addressed cfg) (events.calls evs) = true.
Proof.
  induction evs as [|ev evs IH]; [done|]. cbn [forallb].
  intros [Hev Hevs]%andb_true_iff. specialize (IH Hevs).
  unfold events.calls in *. cbn [omap list_omap].
  destruct ev as [r| |c]; cbn [events.call_of]; try done.
  cbn [forallb]. rewrite IH, andb_true_r. by destruct c.
Qed.

Lemma prelude_addressed (cfg : config) (evs : list event) :
  forallb observe.is_prelude_event evs = true ->
  forallb (policy.addressed cfg) (events.calls evs) = true.
Proof.
  induction evs as [|ev evs IH]; [done|]. cbn [forallb].
  intros [Hev Hevs]%andb_true_iff. specialize (IH Hevs).
  unfold events.calls in *. cbn [omap list_omap].
  destruct ev as [r| |c]; cbn [events.call_of]; try done.
  cbn [forallb]. rewrite IH, andb_true_r. by destruct c.
Qed.

(** X21: in every run that loads its configuration, the dump is taken
    from the source server and database, and the restore goes to the
    target server with the number of jobs of the command line, or of the
    file when none or 0 is given. *)
Theorem mirror_addresses (w : world) (config_path : string)
        (jobs : option Z) (drop skip_checks : bool) (t : history.table)
        (fs : gset string) (cfg : config) :
  loaded_config w = Ok cfg ->
  let out := cli.mirror w config_path jobs drop skip_checks (initial t fs) in
  forallb (policy.addressed (cli.override cfg jobs drop))
          (events.calls (trace out.2)) = true.
Proof.
  intros Hcfg out.
  destruct (mirror_trace w config_path jobs drop skip_checks t fs)
    as (pre & evs & Htr & Hpre & _ & Hevs).
  fold out in Htr. rewrite Hcfg in Hevs. rewrite Htr.
  rewrite calls_app, forallb_app.
  by rewrite (prelude_addressed _ _ Hpre), (allowed_addressed _ _ Hevs).
Qed.

Lemma issued_app (tr tr' : list event) :
  commands.issued (tr ++ tr') = commands.issued tr ++ commands.issued tr'.
Proof. apply omap_app. Qed.

Lemma allowed_not_destructive (cfg : config) (evs : list event) :
  drop_existing cfg = false ->
  forallb (policy.allowed cfg) evs = true ->
  existsb policy.destructive (commands.issued evs) = false.
Proof.
  intros Hd. induction evs as [|ev evs IH]; [done|]. cbn [forallb].
  intros [Hev Hevs]%andb_true_iff. specialize (IH Hevs).
  unfold commands.issued in *. cbn [omap list_omap].
  destruct ev as [r| |c]; cbn [commands.sql_of]; try done.
  destruct c; cbn [commands.sql_of]; try done.
  cbn [existsb]. rewrite IH, orb_false_r.
  cbn [policy.allowed] in Hev. unfold policy.psql_allowed in Hev.
  rewrite Hd, andb_false_r, orb_false_r in Hev.
  apply orb_true_iff in Hev as [->%String.eqb_eq| ->%String.eqb_eq];
    reflexivity.
Qed.

Lemma prelude_not_destructive (evs : list event) :
  forallb observe.is_prelude_event evs = true ->
  commands.issued evs = [].
Proof.
  induction evs as [|ev evs IH]; [done|]. cbn [forallb].
  intros [Hev Hevs]%andb_true_iff. specialize (IH Hevs).
  unfold commands.issued in *. cbn [omap list_omap].
  destruct ev as [r| |c]; cbn [commands.sql_of]; try done. by destruct c.
Qed.

(** X22: without --drop-existing and with [drop_existing] off in the
    file, no run issues DROP DATABASE or the command that terminates the
    sessions. *)
Theorem mirror_never_drops (w : world) (config_path : string)
        (jobs : option Z) (skip_checks : bool) (t : history.table)
        (fs : gset string) (cfg : config) :
  loaded_config w = Ok cfg ->
  drop_existing cfg = false ->
  let out := cli.mirror w config_path jobs false skip_checks (initial t fs) in
  existsb policy.destructive (commands.issued (trace out.2)) = false.
Proof.
  intros Hcfg Hd out.
  destruct (mirror_trace w config_path jobs false skip_checks t fs)
    as (pre & evs & Htr & Hpre & _ & Hevs).
  fold out in Htr. rewrite Hcfg in Hevs. rewrite Htr.
  rewrite issued_app, existsb_app, (prelude_not_destructive _ Hpre).
  apply (allowed_not_destructive (cli.override cfg jobs false)); [|done].
  exact Hd.
Qed.

Lemma allowed_not_verify (cfg : config) (evs : list event) :
  forallb (policy.allowed cfg) evs = true ->
  existsb policy.is_verify (events.calls evs) = false.
Proof.
  induction evs as [|ev evs IH]; [done|]. cbn [forallb].
  intros [Hev Hevs]%andb_true_iff. specialize (IH Hevs).
  unfold events.calls in *. cbn [omap list_omap].
  destruct ev as [r| |c]; cbn [events.call_of]; try done.
  cbn [existsb]. rewrite IH, orb_false_r. by destruct c.
Qed.

(** X14: with --skip-checks [verify_system_requirements] is never called;
    without it, a [SystemCheckError] ends the command with exit status 1
    after the installation help, before the configuration is loaded and
    with nothing written. *)
Theorem system_checks_gate (w : world) (config_path : string)
        (jobs : option Z) (drop : bool) (t : history.table)
        (fs : gset string) :
  (let out := cli.mirror w config_path jobs drop true (initial t fs) in
   existsb policy.is_verify (events.calls (trace out.2)) = false)
  /\ (let out := cli.mirror w config_path jobs drop false (initial t fs) in
      forall text,
        system_checks w = Raise (Exception "SystemCheckError" text) ->
        out.1 = Raise (SystemExit 1)
        /\ events.calls (trace out.2)
           = [VerifySystemRequirements; PrintInstallationHelp]
        /\ ledger out.2 = t /\ files out.2 = fs).
Proof.
  split.
  - cbn zeta.
    destruct (mirror_trace w config_path jobs drop true t fs)
      as (pre & evs & -> & Hpre & Hskip & Hevs).
    rewrite calls_app, existsb_app, (Hskip eq_refl).
    destruct (loaded_config w) as [cfg|e]; [|by subst].
    by apply (allowed_not_verify _ _ Hevs).
  - intros out text Hw. subst out.
    change (wp (cli.mirror w config_path jobs drop false)
              (fun r s =>
                 r = Raise (SystemExit 1)
                 /\ events.calls (trace s)
                    = [VerifySystemRequirements; PrintInstallationHelp]
                 /\ ledger s = t /\ files s = fs)
              (initial t fs)).
    unfold cli.mirror. cbn [negb]. wp_run.
    all: first [done | by vm_compute in E].
Qed.

(** ** cli.py: the target preparation and the restore *)


Lemma analyse_no_warning (n : nat) (stderr : string) (returncode : Z) :
  omap (observe.warning_of n)
       (map Logged (restore.analyse stderr returncode).2) = [].
Proof.
  pose proof (analyse_logs stderr returncode) as H.
  induction (restore.analyse stderr returncode).2 as [|r rs IH]; [done|].
  cbn [forallb] in H. apply andb_true_iff in H as [Hr Hrs].
  cbn [map omap list_omap]. rewrite (IH Hrs).
  destruct r as [lvl file line args]. cbn in Hr.
  apply String.eqb_eq in Hr as ->. by destruct lvl.
Qed.

(** X13: once pg_restore has run, lines 303-349 end normally when
    [restore_backup] returned [True] and with exit status 1 otherwise: an
    [Exception] of the pause or of the e-mail update is only logged, as
    the warning of line 336. *)
Theorem restore_and_fix_up_result (w : world) (cfg : config)
        (assinatura_id : option string) (backup_file : string) (s : state) :
  observe.catchable (pg_restore w) ->
  observe.catchable (key_pressed w) ->
  observe.catchable (admin_email_updated w) ->
  let out := cli.restore_and_fix_up w cfg assinatura_id backup_file s in
  out.1 = (if commands.restored (pg_restore w) then Ok tt
           else Raise (SystemExit 1))
  /\ (forall cls text,
        commands.restored (pg_restore w) = true ->
        truthy_opt assinatura_id = true ->
        truthy_opt (EMAIL_USUARIO w) = true ->
        key_pressed w = Ok tt ->
        admin_email_updated w = Raise (Exception cls text) ->
        omap (observe.warning_of 336) (trace out.2)
        = omap (observe.warning_of 336) (trace s) ++ [[text]]).
Proof.
  intros Hr Hk Ha out. subst out.
  change (wp (cli.restore_and_fix_up w cfg assinatura_id backup_file)
            (fun r s' =>
               r = (if commands.restored (pg_restore w) then Ok tt
                    else Raise (SystemExit 1))
               /\ (forall cls text,
                     commands.restored (pg_restore w) = true ->
                     truthy_opt assinatura_id = true ->
                     truthy_opt (EMAIL_USUARIO w) = true ->
                     key_pressed w = Ok tt ->
                     admin_email_updated w = Raise (Exception cls text) ->
                     omap (observe.warning_of 336) (trace s')
                     = omap (observe.warning_of 336) (trace s) ++ [[text]]))
            s).
  unfold cli.restore_and_fix_up, restore.restore_backup,
    hooks.atualizar_email_usuario_admin_desenvolvimento, commands.restored.
  open_world w.
  destruct pg_restore0 as [[stderr rc]|[c e|c|]]; try done;
    destruct key_pressed0 as [[]|[c1 e1|c1|]]; try done;
    destruct admin_email_updated0 as [[]|[c2 e2|c2|]]; try done.
  all: wp_run.
  all: rewrite ?E; cbn [fst snd].
  all: split; [reflexivity|]; intros cls text; try done.
  all: intros _ ? ? ? ?; try done.
  all: try (cbn in *; congruence).
  match goal with H : Raise _ = Raise _ |- _ => injection H as <- <- end.
  rewrite add_logs_trace. state_simpl.
  rewrite !omap_app, analyse_no_warning. cbn. by rewrite !app_nil_r.
Qed.

Lemma restore_and_fix_up_result_witness :
  (cli.restore_and_fix_up
     (examples.world_of "rj_d1_77_varejo" None (Ok None) (Ok ∅))
     (examples.config_of "rj_d1_77_varejo") (Some "77") "/tmp/backup.dump"
     (initial history.empty_table ∅)).1 = Ok tt.
Proof.
  refine (proj1 (restore_and_fix_up_result
                   (examples.world_of "rj_d1_77_varejo" None (Ok None) (Ok ∅))
                   (examples.config_of "rj_d1_77_varejo") (Some "77")
                   "/tmp/backup.dump" (initial history.empty_table ∅)
                   _ _ _)); exact I.
Defined.

(** ** cli.py: runs that end before the restore *)

(** When the system checks pass or are skipped and the configuration
    loads, the command enters its [try] having asked for nothing else. *)
Lemma mirror_enters (w : world) (config_path : string) (jobs : option Z)
      (drop skip_checks : bool) (t : history.table) (fs : gset string)
      (cfg : config) (Q : res unit -> state -> Prop) :
  skip_checks = true \/ system_checks w = Ok tt ->
  loaded_config w = Ok cfg ->
  (forall s0,
     observe.started cfg t fs s0 ->
     events.calls (trace s0) = policy.prelude_calls skip_checks config_path ->
     events.requests (trace s0) = [] ->
     wp (try_finally
           (cli.mirror_body w (cli.override cfg jobs drop)
              (hooks.extrair_id_assinatura_do_nome_banco (source_database cfg)))
           cli.mirror_finally) Q s0) ->
  wp (cli.mirror w config_path jobs drop skip_checks) Q (initial t fs).
Proof.
  intros Hskip Hcfg HQ. unfold cli.mirror.
  destruct Hskip as [->|Hchk]; [|destruct skip_checks]; cbn [negb]; wp_run.
  all: apply HQ; [|reflexivity..]; repeat split; eexists;
    (split; [reflexivity|]); reflexivity.
Qed.

(** X15: when [create_backup] raises, [mirror] lets the exception
    through: no call is made after it, and the ledger and the files are
    as they were. *)
Theorem backup_failure_propagates (w : world) (config_path : string)
        (jobs : option Z) (drop skip_checks : bool) (t : history.table)
        (fs : gset string) (cfg : config) (e : exn) :
  skip_checks = true \/ system_checks w = Ok tt ->
  loaded_config w = Ok cfg ->
  pg_dump w = Raise e ->
  let out := cli.mirror w config_path jobs drop skip_checks (initial t fs) in
  out.1 = Raise e
  /\ events.calls (trace out.2)
     = policy.prelude_calls skip_checks config_path
       ++ [CreateBackup (source_host cfg) (source_port cfg)
                        (source_database cfg) (source_user cfg)]
  /\ ledger out.2 = t
  /\ files out.2 = fs.
Proof.
  intros Hskip Hcfg Hdump out. subst out.
  change (wp (cli.mirror w config_path jobs drop skip_checks)
            (fun r s =>
               r = Raise e
               /\ events.calls (trace s)
                  = policy.prelude_calls skip_checks config_path
                    ++ [CreateBackup (source_host cfg) (source_port cfg)
                                     (source_database cfg) (source_user cfg)]
               /\ ledger s = t
               /\ files s = fs)
            (initial t fs)).
  apply (mirror_enters _ _ _ _ _ _ _ cfg); [done..|].
  intros s0 (Hbf & _ & _ & Hl & Hf & _) Hcalls _.
  apply wp_try_finally. unfold cli.mirror_body, backup.create_backup,
    cli.mirror_finally.
  wp_run. rewrite calls_app, Hcalls. by split_and!.
Qed.

(** ** cli.py: the hooks and the restore *)

Lemma tail_event_no_request ev :
  observe.is_tail_event ev = true -> events.request_of ev = None.
Proof. unfold observe.is_tail_event. each_event ev. Qed.

(** The record written for a backup, as [get_backup] returns it. *)
Lemma record_created (now host : string) (port : Z)
      (database username backup_path : string) (size_mb : option Q)
      (t : history.table) :
  let inserted :=
    history.record_backup now host port database username backup_path
                          size_mb (Some "created") None t in
  inserted.1 = history.last_rowid t + 1
  /\ exists r,
       history.get_backup inserted.1 inserted.2 = Some r
       /\ history.status r = Some "created"
       /\ history.extra r = None
       /\ history.backup_path r = backup_path
       /\ history.database r = database
       /\ history.host r = host.
Proof.
  cbn. split; [done|]. unfold history.get_backup. cbn.
  rewrite lookup_insert_eq. cbn. eauto 10.
Qed.

(** X16: for a source name without the encoding no HTTP request is sent,
    the record of the backup keeps the status created and no extra-data,
    and the target is the source name: it is checked once, and restored
    once unless the target preparation raises. *)
Theorem plain_mirror (w : world) (config_path : string)
        (jobs : option Z) (drop skip_checks : bool) (t : history.table)
        (fs : gset string) (cfg : config) (path : string) :
  observe.backed_up w skip_checks cfg path ->
  hooks.extrair_id_assinatura_do_nome_banco (source_database cfg) = None ->
  sqlite_insert w = None ->
  let out := cli.mirror w config_path jobs drop skip_checks (initial t fs) in
  let prepared :=
    observe.target_prepared w (cli.override cfg jobs drop)
                            (source_database cfg) in
  events.requests (trace out.2) = []
  /\ (exists r,
        history.get_backup (history.last_rowid t + 1) (ledger out.2) = Some r
        /\ history.status r = Some "created"
        /\ history.extra r = None
        /\ history.backup_path r = path
        /\ history.database r = source_database cfg
        /\ history.host r = source_host cfg)
  /\ target_database out.2 = source_database cfg
  /\ observe.checks (trace out.2) = [source_database cfg]
  /\ observe.restores (trace out.2)
     = (if prepared then [source_database cfg] else []).
Proof.
  intros (Hskip & Hcfg & Hdump & Hstat) Hkey Hins out prepared.
  subst out prepared.
  change (wp (cli.mirror w config_path jobs drop skip_checks)
            (fun _ s =>
               events.requests (trace s) = []
               /\ (exists r,
                     history.get_backup (history.last_rowid t + 1) (ledger s)
                     = Some r
                     /\ history.status r = Some "created"
                     /\ history.extra r = None
                     /\ history.backup_path r = path
                     /\ history.database r = source_database cfg
                     /\ history.host r = source_host cfg)
               /\ target_database s = source_database cfg
               /\ observe.checks (trace s) = [source_database cfg]
               /\ observe.restores (trace s)
                  = (if observe.target_prepared w
                          (cli.override cfg jobs drop) (source_database cfg)
                     then [source_database cfg] else []))
            (initial t fs)).
  apply (mirror_enters _ _ _ _ _ _ _ cfg); [done..|].
  intros s0 Hs0 _ Hq0.
  destruct (started_inert _ _ _ _ Hs0) as (Hc0 & Hr0 & Ha0 & Hcl0).
  destruct Hs0 as (Hbf0 & Htd0 & Hh0 & Hl0 & Hf0 & _).
  apply wp_try_finally. rewrite Hkey.
  unfold_hooks_blocks. open_world w. subst.
  destruct st_size0 as [size|[c e|c|]]; try done; wp_run.
  all: eapply wp_mono; [apply target_and_restore_spec|];
    intros r s2 (Hq & Hc & Hr & Ha & Hcl);
    pose proof (adds_grows _ _ _ _ tail_event_no_request
                  (proj2 (proj2 (proj2 (proj2 (proj2 Hq)))))) as Hw;
    destruct Hq as (Hbf2 & Htd2 & _ & Hl2 & _ & _);
    unfold adds in *; state_simpl_all; wp_run.
  all: unfold events.requests, observe.checks, observe.restores in *;
    try rewrite Htd0 in Hc; try rewrite Htd0 in Hr; try rewrite Htd0 in Htd2;
    rewrite ?omap_app, Hc, Hr, Hw, Hl2, Htd2, ?omap_app, Hc0, Hr0, Hq0.
  all: split_and!; try reflexivity;
    try (destruct (observe.target_prepared _ _ _); reflexivity).
  all: match goal with
       | |- context [history.record_backup ?a ?b ?c ?d ?e ?f ?g _ _ _] =>
           destruct (record_created a b c d e f g (ledger s0))
             as (Hrid & r0 & Hr0' & Hrest)
       end.
  all: exists r0; rewrite <- Hrid; split; [exact Hr0'|exact Hrest].
Qed.

Lemma requests_app (tr tr' : list event) :
  events.requests (tr ++ tr') = events.requests tr ++ events.requests tr'.
Proof. apply omap_app. Qed.

Lemma checks_app (tr tr' : list event) :
  observe.checks (tr ++ tr') = observe.checks tr ++ observe.checks tr'.
Proof. apply omap_app. Qed.

Lemma restores_app (tr tr' : list event) :
  observe.restores (tr ++ tr') = observe.restores tr ++ observe.restores tr'.
Proof. apply omap_app. Qed.

(** X17: with a correlation key and no FORTEPLUS_TOKEN no HTTP request is
    sent, the record gets the status hooks_failed with the text of the
    configuration error, and the run ends with exit status 1 before the
    existence check and the restore. *)
Theorem missing_token_aborts (w : world) (config_path : string)
        (jobs : option Z) (drop skip_checks : bool) (t : history.table)
        (fs : gset string) (cfg : config) (key path : string) :
  observe.backed_up w skip_checks cfg path ->
  hooks.extrair_id_assinatura_do_nome_banco (source_database cfg) = Some key ->
  sqlite_insert w = None ->
  truthy_opt (FORTEPLUS_TOKEN w) = false ->
  sqlite_update w (Some "hooks_failed") = None ->
  let out := cli.mirror w config_path jobs drop skip_checks (initial t fs) in
  events.requests (trace out.2) = []
  /\ (exists r text,
        history.get_backup (history.last_rowid t + 1) (ledger out.2) = Some r
        /\ history.status r = Some "hooks_failed"
        /\ history.extra r = Some ({[ "error" := VStr text ]} : dict)
        /\ hooks.token_missing
           = Exception "ImproperlyConfiguredException" text)
  /\ out.1 = Raise (SystemExit 1)
  /\ observe.checks (trace out.2) = []
  /\ observe.restores (trace out.2) = [].
Proof.
  intros (Hskip & Hcfg & Hdump & Hstat) Hkey Hins Htok Hupd out.
  pose proof (key_truthy _ _ Hkey) as Hkey'.
  subst out.
  change (wp (cli.mirror w config_path jobs drop skip_checks)
            (fun r s =>
               events.requests (trace s) = []
               /\ (exists r text,
                     history.get_backup (history.last_rowid t + 1) (ledger s)
                     = Some r
                     /\ history.status r = Some "hooks_failed"
                     /\ history.extra r
                        = Some ({[ "error" := VStr text ]} : dict)
                     /\ hooks.token_missing
                        = Exception "ImproperlyConfiguredException" text)
               /\ r = Raise (SystemExit 1)
               /\ observe.checks (trace s) = []
               /\ observe.restores (trace s) = [])
            (initial t fs)).
  apply (mirror_enters _ _ _ _ _ _ _ cfg); [done..|].
  intros s0 Hs0 _ Hq0.
  destruct (started_inert _ _ _ _ Hs0) as (Hc0 & Hr0 & Ha0 & Hcl0).
  destruct Hs0 as (Hbf0 & Htd0 & Hh0 & Hl0 & Hf0 & _).
  apply wp_try_finally. rewrite Hkey. unfold_hooks_blocks.
  open_world w. subst.
  destruct st_size0 as [size|[c e|c|]]; try done; wp_run.
  all: try discriminate E.
  all: rewrite ?requests_app, ?checks_app, ?restores_app, Hq0, Hc0, Hr0.
  all: split_and!; try reflexivity.
  all: match goal with
       | |- context [history.record_backup ?a ?b ?c ?d ?e ?f ?g _ _ _] =>
           destruct (record_then_update a b c d e f g "hooks_failed"
                       (Some ({[ "error" := VStr text ]} : dict))
                       (ledger s0))
             as (Hrid & r & Hr & Hs & He & _)
       end.
  all: exists r, text; rewrite <- Hrid; split_and!; try done.
  all: unfold hooks.token_missing in E; injection E as Hc _; by rewrite <- Hc.
Qed.

(** *** The restore waits for the hooks *)

Lemma update_then_get (backup_id : Z) (v : string) (extra : option dict)
      (t : history.table) (r : history.row dict) :
  history.get_backup backup_id t = Some r ->
  exists r',
    history.get_backup backup_id
      (history.update_backup backup_id (Some v) extra t).2 = Some r'
    /\ history.status r' = Some v.
Proof.
  unfold history.get_backup, history.update_backup.
  destruct (history.rows t !! backup_id) as [r0|] eqn:E; [|done]. intros _.
  destruct extra as [d|]; cbn; rewrite lookup_alter_eq, E; cbn; eauto.
Qed.

(** Lines 135-261 with a correlation key: when they end without raising
    and without marking the hooks as failed, the record of the backup says
    that the hooks completed or were skipped. *)
Lemma history_and_hooks_settled w cfg key path s :
  Py.truthy key = true ->
  wp (cli.history_and_hooks w cfg (Some key) path)
     (fun r s1 =>
        r = Ok tt ->
        hooks_executados_com_sucesso s1 = true ->
        audit.hooks_settled (history.last_rowid (ledger s) + 1) (ledger s1))
     s.
Proof.
  intros Hkey.
  unfold cli.history_and_hooks, cli.hooks_flow, cli.record_backup,
    cli.update_backup, hooks.obter_dados_assinatura_producao,
    hooks.clonar_assinatura_desenvolvimento,
    hooks.criar_assinante_usuario_desenvolvimento,
    hooks.gerar_nome_banco_dados_call.
  open_world w.
  wp_run.
  all: intros Hr Hflag; try discriminate Hr; try discriminate Hflag.
  all: match goal with
       | |- context [history.update_backup _ (Some ?v) ?extra
                       (history.record_backup ?a ?b ?c ?d ?e ?f ?g _ _ _).2] =>
           destruct (record_then_update a b c d e f g v extra (ledger s))
             as (Hrid & r & Hget & Hst & _)
       end.
  all: exists r; rewrite <- Hrid; split; [exact Hget|]; rewrite Hst; auto.
Qed.

Lemma hooks_event_inert ev :
  observe.is_hooks_event ev = true ->
  observe.check_of ev = None /\ observe.restore_of ev = None.
Proof. each_event ev. Qed.

Lemma prelude_no_restore (evs : list event) :
  forallb observe.is_prelude_event evs = true -> observe.restores evs = [].
Proof.
  intros H. eapply omap_inert; [|exact H].
  intros ev Hev. by apply prelude_event_inert in Hev as (_ & ? & _).
Qed.


(** X18: with a correlation key, pg_restore runs only if the record of
    the backup says hooks_completed or hooks_skipped. *)
Theorem restore_waits_for_hooks (w : world) (config_path : string)
        (jobs : option Z) (drop skip_checks : bool) (t : history.table)
        (fs : gset string) (cfg : config) (key : string) :
  loaded_config w = Ok cfg ->
  hooks.extrair_id_assinatura_do_nome_banco (source_database cfg) = Some key ->
  let out := cli.mirror w config_path jobs drop skip_checks (initial t fs) in
  observe.restores (trace out.2) = []
  \/ audit.hooks_settled (history.last_rowid t + 1) (ledger out.2).
Proof.
  intros Hcfg Hkey out. subst out.
  pose proof (key_truthy _ _ Hkey) as Hkey'.
  change (wp (cli.mirror w config_path jobs drop skip_checks)
            (fun _ s =>
               observe.restores (trace s) = []
               \/ audit.hooks_settled (history.last_rowid t + 1) (ledger s))
            (initial t fs)).
  apply mirror_split.
  - intros _ s (_ & _ & Hpre & _). left. by apply prelude_no_restore.
  - intros cfg' s0 Hcfg' Hs0 _.
    rewrite Hcfg in Hcfg'. injection Hcfg' as <-.
    destruct (started_inert _ _ _ _ Hs0) as (_ & Hr0 & _ & _).
    destruct Hs0 as (_ & _ & _ & Hl0 & _ & _).
    apply wp_try_finally. rewrite Hkey.
    unfold cli.mirror_body, backup.create_backup, cli.mirror_finally,
      backup.cleanup_backup, cli.after_backup.
    unfold observe.restores in *.
    wp_run.
    all: try (left; rewrite ?omap_app, Hr0; reflexivity).
    all: match goal with
         | |- wp (cli.history_and_hooks ?w ?c ?k ?p) _ ?s =>
             pose proof (history_and_hooks_settled w c key p s Hkey') as Hset;
             pose proof (history_and_hooks_phase w c k p s) as (_ & _ & Hg);
             unfold wp in Hset; unfold wp at 1;
             destruct (cli.history_and_hooks w c k p s) as [r s1];
             cbn [fst snd] in *
         end.
    all: pose proof (grows_omap observe.restore_of _ _ _
                       (fun ev H => proj2 (hooks_event_inert ev H)) Hg) as Hr1;
      state_simpl_all; rewrite omap_app, Hr0 in Hr1; cbn in Hr1.
    all: destruct r as [[]|e]; wp_run.
    all: try (left; rewrite ?omap_app, Hr1; reflexivity).
    all: specialize (Hset eq_refl);
      (eapply wp_mono; [apply target_and_restore_spec|]);
      intros r2 s2 (Hq & _); destruct Hq as (_ & _ & Hf2 & Hl2 & _ & _);
      wp_run.
    all: right; state_simpl; rewrite Hl2, <- Hl0; apply Hset.
    all: by apply negb_false_iff.
Qed.


Lemma aborts_app (tr tr' : list event) :
  observe.aborts (tr ++ tr') = observe.aborts tr ++ observe.aborts tr'.
Proof. apply omap_app. Qed.





(** ** jwt_utils.py and the update of the administrator's e-mail *)

(** X23: when PyJWT decodes what it has encoded,
    [modificar_db_no_token] returns a token from which [obter_db_do_token]
    reads the new database, and whose other claims are those of the
    original token. *)
Theorem modificar_db_no_token_round_trip
        (decode : string -> res dict) (encode : dict -> string -> res string)
        (secret token novo_db novo_token : string) (payload : dict)
        (db_antigo : value) :
  Py.truthy secret = true ->
  decode token = Ok payload ->
  payload !! "db" = Some db_antigo ->
  encode (<["db" := VStr novo_db]> payload) secret = Ok novo_token ->
  decode novo_token = Ok (<["db" := VStr novo_db]> payload) ->
  jwt_utils.modificar_db_no_token decode encode (Some secret) token novo_db
  = Ok novo_token
  /\ jwt_utils.obter_db_do_token decode novo_token = Ok (Some (VStr novo_db))
  /\ (forall claim,
        claim <> "db" ->
        exists p,
          jwt_utils.decodificar_payload_jwt decode novo_token = Ok p
          /\ p !! claim = payload !! claim).
Proof.
  intros Hs Hdec Hdb Henc Hback.
  unfold jwt_utils.modificar_db_no_token, jwt_utils.obter_db_do_token,
    jwt_utils.decodificar_payload_jwt.
  rewrite Hs, Hdec, Hdb, Henc, Hback. split_and!; try done.
  - by rewrite lookup_insert_eq.
  - intros claim Hne. eexists. split; [reflexivity|].
    by rewrite lookup_insert_ne.
Qed.

Lemma modificar_db_no_token_round_trip_witness :
  jwt_utils.modificar_db_no_token scenarios.decode scenarios.encode
                                  (Some "k") "old" "dev" = Ok "new"
  /\ jwt_utils.obter_db_do_token scenarios.decode "new"
     = Ok (Some (VStr "dev")).
Proof.
  destruct (modificar_db_no_token_round_trip scenarios.decode scenarios.encode
              "k" "old" "dev" "new" scenarios.claims (VStr "prod")
              eq_refl eq_refl eq_refl eq_refl eq_refl) as (H1 & H2 & _).
  split; [exact H1|exact H2].
Defined.

(** X24: the update of the administrator's e-mail sends no request
    unless FORTEPLUS_TOKEN is set and can be re-targeted: a missing
    JWT_SECRET, a token without the claim [db], or any other [Exception]
    of [modificar_db_no_token] is raised again as
    [ImproperlyConfiguredException] with the same text. *)
Theorem admin_email_needs_token
        (decode : string -> res dict) (encode : dict -> string -> res string)
        (JWT_SECRET FORTEPLUS_TOKEN : option string)
        (get_usuarios : res admin_email.usuarios_json)
        (patch_usuario : res dict) (novo_email nome_banco_destino : string) :
  let out :=
    admin_email.atualizar_email_usuario_admin_desenvolvimento
      decode encode JWT_SECRET FORTEPLUS_TOKEN get_usuarios patch_usuario
      novo_email nome_banco_destino in
  (truthy_opt FORTEPLUS_TOKEN = false ->
   out = (Raise hooks.token_missing, []))
  /\ (forall token cls text,
        FORTEPLUS_TOKEN = Some token -> Py.truthy token = true ->
        jwt_utils.modificar_db_no_token decode encode JWT_SECRET token
                                        nome_banco_destino
        = Raise (Exception cls text) ->
        out = (Raise (Exception "ImproperlyConfiguredException" text), []))
  /\ (forall token,
        FORTEPLUS_TOKEN = Some token -> Py.truthy token = true ->
        truthy_opt JWT_SECRET = false ->
        exists text,
          jwt_utils.secret_missing
          = Exception "JWTSecretNaoConfiguradaError" text
          /\ out = (Raise (Exception "ImproperlyConfiguredException" text),
                    []))
  /\ (forall token payload secret,
        FORTEPLUS_TOKEN = Some token -> Py.truthy token = true ->
        JWT_SECRET = Some secret -> Py.truthy secret = true ->
        decode token = Ok payload -> payload !! "db" = None ->
        exists text,
          jwt_utils.db_missing = Exception "JWTDbAusenteError" text
          /\ out = (Raise (Exception "ImproperlyConfiguredException" text),
                    [])).
Proof.
  intros out. subst out.
  unfold admin_email.atualizar_email_usuario_admin_desenvolvimento.
  split_and!.
  - destruct FORTEPLUS_TOKEN as [token|]; cbn; [|done]. by intros ->.
  - intros token cls text -> Ht Hm. by rewrite Ht, Hm.
  - intros token -> Ht Hs. rewrite Ht. cbn [negb].
    unfold jwt_utils.modificar_db_no_token.
    eexists. split; [reflexivity|].
    destruct JWT_SECRET as [secret|]; cbn in Hs; [rewrite Hs|]; reflexivity.
  - intros token payload secret -> Ht -> Hs Hd Hdb. rewrite Ht. cbn [negb].
    unfold jwt_utils.modificar_db_no_token,
      jwt_utils.decodificar_payload_jwt.
    rewrite Hs, Hd, Hdb. eexists. split; reflexivity.
Qed.

(** X25: when a user is found, the search and the PATCH both carry the
    re-targeted token; the PATCH goes to the user's [id], or to its
    [us_id] when [id] is missing or falsy, with the new e-mail as its
    body; with neither, [ValueError] is raised and no PATCH is sent. *)
Theorem admin_email_requests
        (decode : string -> res dict) (encode : dict -> string -> res string)
        (JWT_SECRET : option string)
        (token token_modificado novo_email nome_banco_destino : string)
        (get_usuarios : res admin_email.usuarios_json) (usuario : dict)
        (patch_usuario : res dict) :
  Py.truthy token = true ->
  jwt_utils.modificar_db_no_token decode encode JWT_SECRET token
                                  nome_banco_destino = Ok token_modificado ->
  admin_email.found get_usuarios = Ok usuario ->
  let out :=
    admin_email.atualizar_email_usuario_admin_desenvolvimento
      decode encode JWT_SECRET (Some token) get_usuarios patch_usuario
      novo_email nome_banco_destino in
  let id := default VNone (usuario !! "id") in
  let us_id := default VNone (usuario !! "us_id") in
  let usuario_id := if Py.bool_of id then id else us_id in
  let search :=
    admin_email.Get (admin_email.DEV_ENVIRONMENT_URL_2 +:+ "usuarios/")
                    token_modificado
                    {[ "us_email" := VStr admin_email.email_admin ]} in
  if Py.bool_of usuario_id
  then out = (patch_usuario,
              [search;
               admin_email.Patch
                 (admin_email.DEV_ENVIRONMENT_URL_2 +:+ "usuarios/"
                  +:+ Py.str usuario_id +:+ "/")
                 token_modificado {[ "us_email" := VStr novo_email ]}])
  else out = (Raise admin_email.id_nao_encontrado, [search]).
Proof.
  intros Ht Hm Hu out id us_id usuario_id search.
  subst out id us_id usuario_id search.
  unfold admin_email.atualizar_email_usuario_admin_desenvolvimento,
    admin_email.or_value.
  rewrite Ht, Hm, Hu. cbn [negb].
  destruct (Py.bool_of (default VNone (usuario !! "id"))) eqn:E1.
  - by rewrite E1.
  - destruct (Py.bool_of (default VNone (usuario !! "us_id"))) eqn:E2;
      reflexivity.
Qed.

Lemma admin_email_requests_witness :
  (admin_email.atualizar_email_usuario_admin_desenvolvimento
     scenarios.decode scenarios.encode (Some "k") (Some "old")
     (Ok (admin_email.Page [{[ "id" := VInt 0; "us_id" := VInt 12 ]}]))
     (Ok ∅) "dev@example.com" "dev").2
  = [admin_email.Get "http://192.168.200.68:8032/api/v1/usuarios/" "new"
                     {[ "us_email" := VStr "erika.neri@forteplus.com.br" ]};
     admin_email.Patch "http://192.168.200.68:8032/api/v1/usuarios/12/" "new"
                       {[ "us_email" := VStr "dev@example.com" ]}].
Proof.
  pose proof (admin_email_requests scenarios.decode scenarios.encode
                (Some "k") "old" "new" "dev@example.com" "dev"
                (Ok (admin_email.Page [{[ "id" := VInt 0;
                                          "us_id" := VInt 12 ]}]))
                {[ "id" := VInt 0; "us_id" := VInt 12 ]} (Ok ∅)
                eq_refl eq_refl eq_refl) as H.
  cbv zeta in H.
  change (Py.bool_of (default VNone
            (({[ "id" := VInt 0; "us_id" := VInt 12 ]} : dict) !! "id")))
    with false in H.
  change (Py.bool_of (default VNone
            (({[ "id" := VInt 0; "us_id" := VInt 12 ]} : dict) !! "us_id")))
    with true in H.
  cbv iota in H. rewrite H. reflexivity.
Defined.



(** ** cli.py: check and validate; database.py: DatabaseManager *)

(** X27: [check] always ends the process: with status 0 when the system
    checks pass, and with status 1 on a [SystemCheckError]; [validate]
    ends normally when the configuration loads and with status 1 on an
    [Exception], and asks for nothing but the configuration.  Neither
    writes anything. *)
Theorem check_and_validate_exit (w : world) (config : string) (s : state) :
  let checked := cli_commands.check w s in
  let validated := cli_commands.validate w config s in
  checked.1 = match system_checks w with
              | Ok _ => Raise (SystemExit 0)
              | Raise (Exception cls text) =>
                  if String.eqb cls "SystemCheckError"
                  then Raise (SystemExit 1)
                  else Raise (Exception cls text)
              | Raise e => Raise e
              end
  /\ validated.1 = match loaded_config w with
                   | Ok _ => Ok tt
                   | Raise (Exception _ _) => Raise (SystemExit 1)
                   | Raise e => Raise e
                   end
  /\ events.calls (trace validated.2)
     = events.calls (trace s) ++ [LoadConfig config]
  /\ same_vars s checked.2 /\ files checked.2 = files s
  /\ same_vars s validated.2 /\ files validated.2 = files s.
Proof.
  intros checked validated. subst checked validated.
  split_and!.
  - change (wp (cli_commands.check w)
              (fun r _ =>
                 r = match system_checks w with
                     | Ok _ => Raise (SystemExit 0)
                     | Raise (Exception cls text) =>
                         if String.eqb cls "SystemCheckError"
                         then Raise (SystemExit 1)
                         else Raise (Exception cls text)
                     | Raise e => Raise e
                     end) s).
    unfold cli_commands.check, cli_commands.log. wp_run; reflexivity.
  - change (wp (cli_commands.validate w config)
              (fun r _ =>
                 r = match loaded_config w with
                     | Ok _ => Ok tt
                     | Raise (Exception _ _) => Raise (SystemExit 1)
                     | Raise e => Raise e
                     end) s).
    unfold cli_commands.validate, cli_commands.log. wp_run; reflexivity.
  - change (wp (cli_commands.validate w config)
              (fun _ s' =>
                 events.calls (trace s')
                 = events.calls (trace s) ++ [LoadConfig config]) s).
    unfold cli_commands.validate, cli_commands.log. wp_run.
    all: unfold events.calls; rewrite !omap_app; cbn;
      by rewrite ?app_nil_r.
  - change (wp (cli_commands.check w) (fun _ s' => same_vars s s') s).
    unfold cli_commands.check, cli_commands.log. wp_run; by repeat split.
  - change (wp (cli_commands.check w) (fun _ s' => files s' = files s) s).
    unfold cli_commands.check, cli_commands.log. wp_run; reflexivity.
  - change (wp (cli_commands.validate w config)
              (fun _ s' => same_vars s s') s).
    unfold cli_commands.validate, cli_commands.log. wp_run; by repeat split.
  - change (wp (cli_commands.validate w config)
              (fun _ s' => files s' = files s) s).
    unfold cli_commands.validate, cli_commands.log. wp_run; reflexivity.
Qed.



(** *** Sample runs *)

Lemma backup_failure_propagates_witness :
  (examples.run scenarios.dump_fails).1
  = Raise (Exception "CalledProcessError" "pg_dump").
Proof.
  refine (proj1 (backup_failure_propagates scenarios.dump_fails "config.json"
                   None false false history.empty_table ∅
                   (examples.config_of "banco_invalido")
                   (Exception "CalledProcessError" "pg_dump") _ _ _)).
  - by right.
  - reflexivity.
  - reflexivity.
Defined.

Lemma plain_mirror_witness :
  events.requests (trace (examples.run scenarios.plain).2) = [].
Proof.
  refine (proj1 (plain_mirror scenarios.plain "config.json" None false false
                   history.empty_table ∅ (examples.config_of "banco_invalido")
                   "/tmp/backup.dump" _ _ _)).
  - repeat split. by right.
  - vm_compute. reflexivity.
  - reflexivity.
Defined.

Lemma missing_token_aborts_witness :
  (examples.run scenarios.no_token).1 = Raise (SystemExit 1).
Proof.
  refine (proj1 (proj2 (proj2 (missing_token_aborts scenarios.no_token
                   "config.json" None false false history.empty_table ∅
                   (examples.config_of "rj_d1_77_varejo") "77"
                   "/tmp/backup.dump" _ _ _ _ _)))).
  - repeat split. by right.
  - vm_compute. reflexivity.
  - reflexivity.
  - reflexivity.
  - reflexivity.
Defined.

Lemma restore_waits_for_hooks_witness :
  observe.restores (trace (examples.run examples.all_well).2) = []
  \/ audit.hooks_settled 1 (ledger (examples.run examples.all_well).2).
Proof.
  refine (restore_waits_for_hooks examples.all_well "config.json" None false
            false history.empty_table ∅
            (examples.config_of "rj_d1_77_varejo") "77" _ _).
  - reflexivity.
  - vm_compute. reflexivity.
Defined.


Lemma mirror_addresses_witness :
  forallb (policy.addressed (examples.config_of "rj_d1_77_varejo"))
          (events.calls (trace (examples.run examples.all_well).2)) = true.
Proof.
  exact (mirror_addresses examples.all_well "config.json" None false false
           history.empty_table ∅ (examples.config_of "rj_d1_77_varejo")
           eq_refl).
Defined.

Lemma mirror_never_drops_witness :
  existsb policy.destructive
          (commands.issued (trace (examples.run examples.all_well).2))
  = false.
Proof.
  exact (mirror_never_drops examples.all_well "config.json" None false
           history.empty_table ∅ (examples.config_of "rj_d1_77_varejo")
           eq_refl eq_refl).
Defined.
